(** * A shallow embedding of the TLS forward proxy of [src/https-server.ts]

    The development follows the class [HttpsProxy]: the JavaScript string
    primitives it relies on, its configuration, the CONNECT handler with its
    two dial paths, the socket listeners installed for a tunnel, and the
    forward-fetch handler.  Sockets are records, the event emitter is a list
    of listeners in registration order, and every handler is a function from
    connection state to connection state. *)

From stdpp Require Import gmap strings list.
From Stdlib Require Import ZArith Ascii String Lia.

Open Scope string_scope.
Open Scope Z_scope.

(** ** JavaScript primitives

    A JavaScript string is modelled by a Rocq [string], one [ascii] per code
    unit.  This is exact for the request line, which Node decodes as latin-1;
    string constants of the source that contain other characters are kept as
    their UTF-8 encoding, which is what [socket.write] puts on the wire, and
    so is the text of the environment (see [trimStart] below). *)
Module JS.

(** [s.includes(sub)] *)
Fixpoint includes (s sub : string) : bool :=
  String.prefix sub s ||
  match s with
  | EmptyString => false
  | String _ s' => includes s' sub
  end.

(** [s.startsWith(p)] *)
Definition startsWith (s p : string) : bool := String.prefix p s.

(** [s.split(sep)] for a one-character separator: never empty, the pieces
    between consecutive separators in order. *)
Fixpoint split (sep : ascii) (s : string) : list string :=
  match s with
  | EmptyString => [EmptyString]
  | String c s' =>
      if Ascii.eqb c sep then EmptyString :: split sep s'
      else match split sep s' with
           | [] => [String c EmptyString]
           | p :: ps => String c p :: ps
           end
  end.

(** Truthiness of a string: the empty string is falsy. *)
Definition truthy (s : string) : bool :=
  match s with EmptyString => false | _ => true end.

(** [x || d] where [x] is a string or [undefined]/[null]. *)
Definition or_default (x : option string) (d : string) : string :=
  match x with
  | Some s => if truthy s then s else d
  | None => d
  end.

(** White space skipped by [parseInt], restricted to code units below 256. *)
Definition isWhiteSpace (c : ascii) : bool :=
  let n := Z.of_N (N_of_ascii c) in
  (n =? 9) || (n =? 10) || (n =? 11) || (n =? 12) || (n =? 13) ||
  (n =? 32) || (n =? 160).

Fixpoint skipWhiteSpace (s : string) : string :=
  match s with
  | String c s' => if isWhiteSpace c then skipWhiteSpace s' else s
  | EmptyString => s
  end.

Definition digit_of (c : ascii) : option Z :=
  let n := Z.of_N (N_of_ascii c) in
  if (48 <=? n) && (n <=? 57) then Some (n - 48) else None.

(** The longest prefix of decimal digits, as a number; [None] when the
    string does not start with a digit. *)
Fixpoint parseDigits (s : string) (acc : option Z) : option Z :=
  match s with
  | String c s' =>
      match digit_of c with
      | Some d => parseDigits s' (Some (10 * default 0 acc + d))
      | None => acc
      end
  | EmptyString => acc
  end.

(** [parseInt(s, 10)]; [None] is [NaN].  The result of JavaScript is a
    double: it is exact up to 2^53 and rounding is monotone, so comparisons
    with 0 and 65535 agree with the comparisons of the exact integer. *)
Definition parseInt (s : string) : option Z :=
  let s := skipWhiteSpace s in
  let '(neg, ds) :=
    match s with
    | String "-"%char r => (true, r)
    | String "+"%char r => (false, r)
    | _ => (false, s)
    end in
  match parseDigits ds None with
  | Some n => Some (if neg then - n else n)
  | None => None
  end.

(** The character class [[a-zA-Z0-9.-]]. *)
Definition isHostChar (c : ascii) : bool :=
  let n := Z.of_N (N_of_ascii c) in
  ((97 <=? n) && (n <=? 122)) || ((65 <=? n) && (n <=? 90)) ||
  ((48 <=? n) && (n <=? 57)) || (n =? 46) || (n =? 45).

Fixpoint allChars (p : ascii -> bool) (s : string) : bool :=
  match s with
  | EmptyString => true
  | String c s' => p c && allChars p s'
  end.

Fixpoint anyChar (p : ascii -> bool) (s : string) : bool :=
  match s with
  | EmptyString => false
  | String c s' => p c || anyChar p s'
  end.

(** [/^[a-zA-Z0-9.-]+$/.test(s)] *)
Definition hostPattern_test (s : string) : bool :=
  truthy s && allChars isHostChar s.

(** [/[\x00-\x1f\x7f-\xff]/.test(s)] *)
Definition isControlOrHigh (c : ascii) : bool :=
  let n := Z.of_N (N_of_ascii c) in (n <=? 31) || (127 <=? n).

Definition controlPattern_test (s : string) : bool :=
  anyChar isControlOrHigh s.

(** [s.length] *)
Definition length (s : string) : Z := Z.of_nat (String.length s).

End JS.

(** ** Objects of the runtime *)

(** The fields of a WHATWG [URL] object that the proxy reads.  [port] is the
    empty string when the URL has no port or has the default port of its
    scheme, and [protocol] ends with a colon. *)
Record URL := mkURL {
  protocol : string;
  url_hostname : string;
  url_port : string;
  pathname : string;
  search : string
}.

(** The fields of the result of the legacy [url.parse] that are read. *)
Record UrlWithStringQuery := mkUrlWithStringQuery {
  legacy_hostname : option string;
  legacy_port : option string
}.

(** What the proxy takes from Node and is not part of the repository:
    the two URL parsers ([None]: the constructor throws), the conversion of
    a number to text in a template literal, and the clock. *)
Record Runtime := mkRuntime {
  URL_new : string -> option URL;
  url_parse : string -> UrlWithStringQuery;
  Number_toString : option Z -> string;
  Date_toISOString : string
}.

(** The fields of [HttpsProxy] that the handlers read. *)
Record HttpsProxy := mkHttpsProxy {
  port : Z;
  timeout : Z;
  upstreamProxy : option string
}.

(** [options.port || 10443] and [options.timeout || 30000] of the
    constructor: [None] is [undefined] or [NaN], and 0 is falsy as well. *)
Definition number_or (x : option Z) (d : Z) : Z :=
  match x with
  | Some n => if n =? 0 then d else n
  | None => d
  end.

Definition constructor (optPort optTimeout : option Z)
    (upstream : option string) : HttpsProxy :=
  {| port := number_or optPort 10443;
     timeout := number_or optTimeout 30000;
     upstreamProxy := upstream |}.

(** *** Text of the environment

    The value of an environment variable reaches the process as bytes,
    which Node decodes as UTF-8; it is kept here as these bytes.  The white
    space of JavaScript, the set that [trim] and [parseInt] share
    ([WhiteSpace] and [LineTerminator]), is then one of the byte sequences
    below.  A lead byte of UTF-8 is never a continuation byte, so such a
    sequence at either end of the text is that character, also next to
    bytes that are not well formed. *)

(** U+0009 to U+000D and U+0020. *)
Definition isSpace1 (c : ascii) : bool :=
  let n := Z.of_N (N_of_ascii c) in
  ((9 <=? n) && (n <=? 13)) || (n =? 32).

(** U+00A0. *)
Definition isSpace2 (c1 c2 : ascii) : bool :=
  (Z.of_N (N_of_ascii c1) =? 194) && (Z.of_N (N_of_ascii c2) =? 160).

(** U+1680, U+2000 to U+200A, U+2028, U+2029, U+202F, U+205F, U+3000 and
    U+FEFF. *)
Definition isSpace3 (c1 c2 c3 : ascii) : bool :=
  let n1 := Z.of_N (N_of_ascii c1) in
  let n2 := Z.of_N (N_of_ascii c2) in
  let n3 := Z.of_N (N_of_ascii c3) in
  ((n1 =? 225) && (n2 =? 154) && (n3 =? 128)) ||
  ((n1 =? 226) && (n2 =? 128) &&
   (((128 <=? n3) && (n3 <=? 138)) || (n3 =? 168) || (n3 =? 169) ||
    (n3 =? 175))) ||
  ((n1 =? 226) && (n2 =? 129) && (n3 =? 159)) ||
  ((n1 =? 227) && (n2 =? 128) && (n3 =? 128)) ||
  ((n1 =? 239) && (n2 =? 187) && (n3 =? 191)).

(** The text without the white space it starts with. *)
Fixpoint trimStart (s : string) : string :=
  match s with
  | String c1 s1 =>
      if isSpace1 c1 then trimStart s1
      else
        match s1 with
        | String c2 s2 =>
            if isSpace2 c1 c2 then trimStart s2
            else
              match s2 with
              | String c3 s3 =>
                  if isSpace3 c1 c2 c3 then trimStart s3 else s
              | EmptyString => s
              end
        | EmptyString => s
        end
  | EmptyString => s
  end.

(** The same on the reversed text, where the bytes of a character come
    last byte first. *)
Fixpoint trimStartReversed (s : string) : string :=
  match s with
  | String c1 s1 =>
      if isSpace1 c1 then trimStartReversed s1
      else
        match s1 with
        | String c2 s2 =>
            if isSpace2 c2 c1 then trimStartReversed s2
            else
              match s2 with
              | String c3 s3 =>
                  if isSpace3 c3 c2 c1 then trimStartReversed s3 else s
              | EmptyString => s
              end
        | EmptyString => s
        end
  | EmptyString => s
  end.

(** [proxy.trim()]: white space removed at both ends. *)
Definition trim (s : string) : string :=
  String.rev (trimStartReversed (String.rev (trimStart s))).

(** [detectUpstreamProxy]: the environment variables in the order
    [https_proxy], [HTTPS_PROXY], [http_proxy], [HTTP_PROXY], [all_proxy],
    [ALL_PROXY]; the first one that is set and not blank wins. *)
Fixpoint detectUpstreamProxy (proxies : list (option string)) : option string :=
  match proxies with
  | [] => None
  | Some proxy :: rest =>
      if JS.truthy proxy && JS.truthy (trim proxy) then Some (trim proxy)
      else detectUpstreamProxy rest
  | None :: rest => detectUpstreamProxy rest
  end.

(** ** Sockets, calls and listeners *)

Inductive Side := Client | Outbound.

Definition peer (s : Side) : Side :=
  match s with Client => Outbound | Outbound => Client end.

Inductive ReadyState := Opening | Open | ReadOnly | WriteOnly | Closed.

Definition isOpen (r : ReadyState) : bool :=
  match r with Open => true | _ => false end.

(** The state of a [net.Socket] that the handlers read or change.
    [piped] says that the socket is piped into its peer; [unread] holds
    the chunks received while nothing consumes them. *)
Record Socket := mkSocket {
  destroyed : bool;
  readyState : ReadyState;
  idleTimeout : Z;
  piped : bool;
  unread : list string
}.

Definition freshSocket : Socket :=
  {| destroyed := false; readyState := Opening; idleTimeout := 0;
     piped := false; unread := [] |}.

(** The calls made on the two sockets, in program order.  [Forward s d] is
    not a call of the source: it records that the pipe installed on [s]
    wrote the chunk [d], read from [s], to the peer of [s]. *)
Inductive Call :=
  | Write (s : Side) (data : string)
  | End_ (s : Side)
  | Destroy (s : Side)
  | Unpipe (s : Side)
  | Pipe (s : Side)
  | SetTimeout (s : Side) (ms : Z)
  | SetKeepAlive (s : Side) (ms : Z)
  | SetNoDelay (s : Side)
  | SetMaxListeners (s : Side) (n : Z)
  | Forward (s : Side) (data : string).

(** The events of a socket that have listeners; [EvWritten] stands for the
    completion callback of a [write]. *)
Inductive EventName := EvError | EvClose | EvTimeout | EvEnd | EvWritten.

Record ErrorObj := mkErrorObj {
  message : string;
  code : option string
}.

Inductive EventArg :=
  | ArgError (err : ErrorObj)
  | ArgClose (hadError : bool)
  | ArgNone.

(** The closures registered as listeners.  [DirectDialError] is the
    listener that [handleDirectConnect] puts on the outbound socket; the
    next eight are those of [setupSocketErrorHandlers]; [PipeError] is the
    listener put on the destination of a pipe, [tls] telling whether its
    filter knows the TLS message; [ResponseWritten] is the callback given
    to the [write] of the response on the upstream path. *)
Inductive Handler :=
  | DirectDialError (hostname : string) (targetPort : Z)
  | ClientError (hostname : string) (targetPort : Z)
  | ClientClose (hostname : string) (targetPort : Z)
  | ServerError (hostname : string) (targetPort : Z)
  | ServerClose (hostname : string) (targetPort : Z)
  | ClientTimeout (hostname : string) (targetPort : Z)
  | ServerTimeout (hostname : string) (targetPort : Z)
  | ClientEnd
  | ServerEnd
  | PipeError (label : string) (tls : bool) (hostname : string) (targetPort : Z)
  | ResponseWritten (hostname : string) (targetPort : Z).

Record Listener := mkListener {
  l_side : Side;
  l_event : EventName;
  l_once : bool;
  l_handler : Handler
}.

Inductive Level := LogLevel | ErrorLevel.

Inductive Agent :=
  | SocksProxyAgent (proxy : string)
  | HttpProxyAgent (proxy : string)
  | HttpsProxyAgent (proxy : string).

(** An outbound connection attempt: [serverSocket.connect(port, host)] or
    the CONNECT request sent through an agent. *)
Inductive Dial :=
  | DialTcp (hostname : string) (targetPort : Z)
  | DialAgent (agent : Agent) (hostname : string) (targetPort : Z) (ms : Z).

(** Where the connection stands: which callback of the dial, if any, is
    still to come. *)
Inductive Phase :=
  | Idle
  | DirectDialing (hostname : string) (targetPort : Z) (head : string)
  | ProxyDialing (hostname : string) (targetPort : Z) (head : string)
  | ProxyTickPending (hostname : string) (targetPort : Z)
  | Tunnel
  | Finished.

(** One CONNECT connection.  [connectionClosed] is the variable of that
    name in [setupSocketErrorHandlers]; [cleanups] counts how many times
    the body of [cleanup] ran past its guard. *)
Record Conn := mkConn {
  client : Socket;
  outbound : Socket;
  listeners : list Listener;
  connectionClosed : bool;
  calls : list Call;
  dials : list Dial;
  console : list (Level * string);
  cleanups : nat;
  phase : Phase
}.

Definition sock (s : Side) (st : Conn) : Socket :=
  match s with Client => client st | Outbound => outbound st end.

Definition set_sock (s : Side) (k : Socket) (st : Conn) : Conn :=
  match s with
  | Client =>
      mkConn k (outbound st) (listeners st) (connectionClosed st) (calls st)
        (dials st) (console st) (cleanups st) (phase st)
  | Outbound =>
      mkConn (client st) k (listeners st) (connectionClosed st) (calls st)
        (dials st) (console st) (cleanups st) (phase st)
  end.

Definition set_listeners (ls : list Listener) (st : Conn) : Conn :=
  mkConn (client st) (outbound st) ls (connectionClosed st) (calls st)
    (dials st) (console st) (cleanups st) (phase st).

Definition set_phase (p : Phase) (st : Conn) : Conn :=
  mkConn (client st) (outbound st) (listeners st) (connectionClosed st)
    (calls st) (dials st) (console st) (cleanups st) p.

Definition call (c : Call) (st : Conn) : Conn :=
  mkConn (client st) (outbound st) (listeners st) (connectionClosed st)
    (calls st ++ [c]) (dials st) (console st) (cleanups st) (phase st).

Definition dial (d : Dial) (st : Conn) : Conn :=
  mkConn (client st) (outbound st) (listeners st) (connectionClosed st)
    (calls st) (dials st ++ [d]) (console st) (cleanups st) (phase st).

Definition print (l : Level) (text : string) (st : Conn) : Conn :=
  mkConn (client st) (outbound st) (listeners st) (connectionClosed st)
    (calls st) (dials st) (console st ++ [(l, text)]) (cleanups st) (phase st).

Definition console_log := print LogLevel.
Definition console_error := print ErrorLevel.

(** Entering the body of [cleanup]: the flag is set and the run counted. *)
Definition mark_closed (st : Conn) : Conn :=
  mkConn (client st) (outbound st) (listeners st) true (calls st)
    (dials st) (console st) (S (cleanups st)) (phase st).

(** Sequencing of handlers, in program order. *)
Definition seq (f g : Conn -> Conn) : Conn -> Conn := fun st => g (f st).
Notation "f >>> g" := (seq f g) (at level 63, right associativity).

Definition skip : Conn -> Conn := fun st => st.

(** [if (c) { f }] where the condition reads the state. *)
Definition when (c : Conn -> bool) (f : Conn -> Conn) : Conn -> Conn :=
  fun st => if c st then f st else st.

(** *** Methods of a socket

    The source wraps most of these calls in [try]/[catch].  With a string
    or a buffer as argument they do not throw (a failed write is reported
    through the ['error'] event or the callback), so the [catch] branches
    are not modelled. *)

Definition write (s : Side) (data : string) : Conn -> Conn :=
  call (Write s data).

Definition end_ (s : Side) : Conn -> Conn := call (End_ s).

Definition destroy (s : Side) : Conn -> Conn :=
  fun st =>
    let k := sock s st in
    call (Destroy s)
      (set_sock s (mkSocket true Closed (idleTimeout k) (piped k) (unread k)) st).

Definition unpipe (s : Side) : Conn -> Conn :=
  fun st =>
    let k := sock s st in
    call (Unpipe s)
      (set_sock s
         (mkSocket (destroyed k) (readyState k) (idleTimeout k) false (unread k))
         st).

(** [s.pipe(peer, { end: false })]: the chunks already received are handed
    over in order, later ones as they arrive. *)
Definition pipe (s : Side) : Conn -> Conn :=
  fun st =>
    let k := sock s st in
    let st1 :=
      set_sock s
        (mkSocket (destroyed k) (readyState k) (idleTimeout k) true []) st in
    mkConn (client st1) (outbound st1) (listeners st1) (connectionClosed st1)
      (calls st1 ++ Pipe s :: map (Forward s) (unread k))
      (dials st1) (console st1) (cleanups st1) (phase st1).

Definition on (s : Side) (e : EventName) (h : Handler) : Conn -> Conn :=
  fun st => set_listeners (listeners st ++ [mkListener s e false h]) st.

(** [s.setTimeout(ms, callback)].  A destroyed socket ignores the call;
    otherwise the idle time is stored and the callback, when given and the
    time is not zero, becomes a one-shot listener of ['timeout'].  The call
    throws for a negative time, which is not modelled: the results below
    that depend on it take the time not to be negative. *)
Definition setTimeout (s : Side) (ms : Z) (callback : option Handler)
    : Conn -> Conn :=
  fun st =>
    let st := call (SetTimeout s ms) st in
    let k := sock s st in
    if destroyed k then st
    else
      let st :=
        set_sock s
          (mkSocket (destroyed k) (readyState k) ms (piped k) (unread k)) st in
      match callback with
      | Some h =>
          if ms =? 0 then st
          else set_listeners (listeners st ++ [mkListener s EvTimeout true h]) st
      | None => st
      end.

Definition setKeepAlive (s : Side) (ms : Z) : Conn -> Conn :=
  call (SetKeepAlive s ms).
Definition setNoDelay (s : Side) : Conn -> Conn := call (SetNoDelay s).
Definition setMaxListeners (s : Side) (n : Z) : Conn -> Conn :=
  call (SetMaxListeners s n).

(** ** The CONNECT handler *)

Definition crlf : string := String "013"%char (String "010"%char EmptyString).

(** The response that announces the tunnel, as one string. *)
Definition connectionEstablished : string :=
  "HTTP/1.1 200 Connection Established" +:+ crlf +:+
  "Proxy-agent: HTTPS-Proxy/1.0" +:+ crlf +:+
  "Connection: keep-alive" +:+ crlf +:+
  "Keep-Alive: timeout=60, max=1000" +:+ crlf +:+
  "Proxy-Connection: keep-alive" +:+ crlf +:+
  crlf.

Section Handlers.

Variable this : HttpsProxy.
Variable rt : Runtime.

(** Text of a number in a template literal. *)
Definition num (n : Z) : string := Number_toString rt (Some n).

(** [host:port] as the log messages print it. *)
Definition authority (hostname : string) (targetPort : Z) : string :=
  hostname +:+ ":" +:+ num targetPort.

(** [sendConnectError]: nothing is written to a destroyed socket. *)
Definition sendConnectError (status message : string) : Conn -> Conn :=
  when (fun st => negb (destroyed (client st)))
    (write Client ("HTTP/1.1 " +:+ status +:+ crlf) >>>
     write Client ("Content-Type: text/plain" +:+ crlf) >>>
     write Client crlf >>>
     write Client message >>>
     end_ Client).

(** [createProxyAgent]: the agent, [None] for [undefined], and what is
    printed on the way.  The constructors of the agents do not throw on a
    URL that the parser accepted. *)
Definition createProxyAgent (targetUrl : string) (isConnectMethod : bool)
    : option Agent * list (Level * string) :=
  match upstreamProxy this with
  | None => (None, [])
  | Some up =>
      if negb (JS.truthy up) then (None, [])
      else
        match URL_new rt up with
        | None => (None, [(ErrorLevel, "❌ 解析或创建上游代理Agent失败:")])
        | Some upstreamProxyUrl =>
            let p := protocol upstreamProxyUrl in
            if String.eqb p "socks5:" || String.eqb p "socks4:" then
              (Some (SocksProxyAgent up),
               [(LogLevel, "🧦 使用SOCKS上游代理: " +:+ up)])
            else if String.eqb p "http:" then
              (Some (HttpProxyAgent up),
               [(LogLevel, "🌐 使用HTTP上游代理: " +:+ up +:+ " (" +:+
                   (if isConnectMethod then "CONNECT隧道" else "HTTP转发")
                   +:+ ")")])
            else if String.eqb p "https:" then
              if isConnectMethod then
                (Some (HttpsProxyAgent up),
                 [(LogLevel, "🔒 使用HTTPS上游代理: " +:+ up +:+ " (CONNECT隧道)")])
              else
                match URL_new rt targetUrl with
                | None => (None, [(ErrorLevel, "❌ 解析或创建上游代理Agent失败:")])
                | Some targetUrlObj =>
                    if String.eqb (protocol targetUrlObj) "https:" then
                      (Some (HttpsProxyAgent up),
                       [(LogLevel,
                         "🔒 使用HTTPS上游代理: " +:+ up +:+ " (HTTPS->HTTPS)")])
                    else
                      (Some (HttpProxyAgent up),
                       [(LogLevel,
                         "🌐 使用HTTPS上游代理: " +:+ up +:+ " (HTTP->HTTPS)")])
                end
            else (None, [(ErrorLevel, "❌ 不支持的上游代理协议: " +:+ p)])
        end
  end.

Definition prints (entries : list (Level * string)) : Conn -> Conn :=
  fun st =>
    mkConn (client st) (outbound st) (listeners st) (connectionClosed st)
      (calls st) (dials st) (console st ++ entries) (cleanups st) (phase st).

(** [cleanup] of [setupSocketErrorHandlers]. *)
Definition cleanup : Conn -> Conn :=
  fun st =>
    if connectionClosed st then st
    else
      (mark_closed >>>
       when (fun st => negb (destroyed (client st)))
         (unpipe Client >>> destroy Client) >>>
       when (fun st => negb (destroyed (outbound st)))
         (unpipe Outbound >>> destroy Outbound)) st.

Definition anyIncludes (msg : string) (subs : list string) : bool :=
  existsb (JS.includes msg) subs.

Definition codeIs (err : ErrorObj) (c : string) : bool :=
  match code err with Some c' => String.eqb c' c | None => false end.

Definition errorOf (arg : EventArg) : ErrorObj :=
  match arg with ArgError e => e | _ => mkErrorObj "" None end.

Definition hadErrorOf (arg : EventArg) : bool :=
  match arg with ArgClose b => b | _ => false end.

(** The body of each listener. *)
Definition run_handler (h : Handler) (arg : EventArg) : Conn -> Conn :=
  match h with
  | DirectDialError hostname targetPort =>
      let err := errorOf arg in
      console_error
        ("❌ 直接连接错误 " +:+ authority hostname targetPort +:+ ": " +:+ message err) >>>
      sendConnectError "502 Bad Gateway" ("连接目标服务器失败: " +:+ message err)
  | ClientError hostname targetPort =>
      let err := errorOf arg in
      let isCommonError :=
        anyIncludes (message err)
          ["ECONNRESET"; "EPIPE"; "ENOTCONN";
           "Client network socket disconnected";
           "before secure TLS connection"; "socket hang up";
           "PROTOCOL_WRONG_VERSION"; "SSL routines"; "ETIMEDOUT"] in
      (if negb isCommonError then
         console_error
           ("❌ 客户端连接错误 " +:+ authority hostname targetPort +:+ ": " +:+ message err)
       else if codeIs err "ECONNRESET" &&
               JS.includes (message err) "before secure TLS connection" then
         console_log ("⚠️  WebSocket SSL握手中断 " +:+ authority hostname targetPort)
       else
         console_log
           ("⚠️  客户端连接断开 " +:+ authority hostname targetPort +:+ " (" +:+
              JS.or_default (code err) "SSL" +:+ ")")) >>>
      cleanup
  | ClientClose hostname targetPort =>
      (if hadErrorOf arg then
         console_log ("🔌 客户端连接异常关闭 " +:+ authority hostname targetPort)
       else skip) >>>
      cleanup
  | ServerError hostname targetPort =>
      let err := errorOf arg in
      let isCommonError :=
        anyIncludes (message err)
          ["ECONNRESET"; "EPIPE"; "ENOTCONN"; "socket hang up"] in
      (if negb isCommonError then
         console_error
           ("❌ 服务器连接错误 " +:+ authority hostname targetPort +:+ ": " +:+ message err)
       else skip) >>>
      cleanup
  | ServerClose hostname targetPort =>
      (if hadErrorOf arg then
         console_log ("🔌 服务器连接异常关闭 " +:+ authority hostname targetPort)
       else skip) >>>
      cleanup
  | ClientTimeout hostname targetPort =>
      console_log ("⏰ 客户端连接超时 " +:+ authority hostname targetPort) >>> cleanup
  | ServerTimeout hostname targetPort =>
      console_log ("⏰ 服务器连接超时 " +:+ authority hostname targetPort) >>> cleanup
  | ClientEnd => cleanup
  | ServerEnd => cleanup
  | PipeError label tls hostname targetPort =>
      let err := errorOf arg in
      if negb (anyIncludes (message err)
                 (["ECONNRESET"; "EPIPE"; "ENOTCONN";
                   "Client network socket disconnected"] ++
                  (if tls then ["before secure TLS connection"] else [])))
      then
        console_error
          ("❌ " +:+ label +:+ " pipe错误 " +:+ authority hostname targetPort +:+ ": " +:+
             message err)
      else skip
  | ResponseWritten hostname targetPort =>
      match arg with
      | ArgError err =>
          console_error
            ("❌ 发送CONNECT响应失败 " +:+ authority hostname targetPort +:+ ": " +:+
               message err) >>>
          destroy Outbound
      | _ => skip
      end
  end.

(** [setupSocketErrorHandlers]: the flag starts false, eight listeners are
    registered, and both sockets get the idle time with [cleanup] behind
    it. *)
Definition setupSocketErrorHandlers (hostname : string) (targetPort : Z)
    : Conn -> Conn :=
  (fun st =>
     mkConn (client st) (outbound st) (listeners st) false (calls st)
       (dials st) (console st) (cleanups st) (phase st)) >>>
  on Client EvError (ClientError hostname targetPort) >>>
  on Client EvClose (ClientClose hostname targetPort) >>>
  on Outbound EvError (ServerError hostname targetPort) >>>
  on Outbound EvClose (ServerClose hostname targetPort) >>>
  (let timeoutMs :=
     if JS.includes hostname "tradingview" || (targetPort =? 443)
     then 60000 else timeout this in
   setTimeout Client timeoutMs (Some (ClientTimeout hostname targetPort)) >>>
   setTimeout Outbound timeoutMs (Some (ServerTimeout hostname targetPort))) >>>
  on Client EvEnd ClientEnd >>>
  on Outbound EvEnd ServerEnd.

(** [handleDirectConnect] up to the return of the call: a new socket, the
    dial, and the listener for its errors.  The callback of [connect] is
    [directConnected]. *)
Definition handleDirectConnect (hostname : string) (targetPort : Z)
    (head : string) : Conn -> Conn :=
  set_sock Outbound freshSocket >>>
  setTimeout Outbound (timeout this) None >>>
  dial (DialTcp hostname targetPort) >>>
  set_phase (DirectDialing hostname targetPort head) >>>
  on Outbound EvError (DirectDialError hostname targetPort).

Definition directConnected (hostname : string) (targetPort : Z)
    (head : string) : Conn -> Conn :=
  console_log ("✅ 直接连接到 " +:+ authority hostname targetPort) >>>
  fun st =>
    if destroyed (client st) then
      (console_log
         ("⚠️  客户端socket已断开，关闭服务器连接 " +:+ authority hostname targetPort) >>>
       destroy Outbound >>>
       set_phase Finished) st
    else
      (write Client ("HTTP/1.1 200 Connection Established" +:+ crlf) >>>
       write Client ("Proxy-agent: HTTPS-Proxy/1.0" +:+ crlf) >>>
       write Client ("Connection: keep-alive" +:+ crlf) >>>
       write Client ("Keep-Alive: timeout=60, max=1000" +:+ crlf) >>>
       write Client ("Proxy-Connection: keep-alive" +:+ crlf) >>>
       write Client crlf >>>
       setKeepAlive Client 30000 >>>
       setKeepAlive Outbound 30000 >>>
       setNoDelay Client >>>
       setNoDelay Outbound >>>
       setTimeout Client 120000 None >>>
       setTimeout Outbound 120000 None >>>
       setMaxListeners Client 20 >>>
       setMaxListeners Outbound 20 >>>
       (if 0 <? JS.length head then write Outbound head else skip) >>>
       setupSocketErrorHandlers hostname targetPort >>>
       pipe Outbound >>>
       pipe Client >>>
       on Client EvError
         (PipeError "serverSocket->socket" false hostname targetPort) >>>
       on Outbound EvError
         (PipeError "socket->serverSocket" false hostname targetPort) >>>
       set_phase Tunnel) st.

(** [handleConnectViaProxy] up to the return of the call.  The listeners
    of the request are [proxyConnected], [proxyRequestError] and
    [proxyRequestTimeout].  [http.request] throws for a negative timeout,
    which is not modelled: the results that depend on the dial take the
    timeout not to be negative. *)
Definition handleConnectViaProxy (hostname : string) (targetPort : Z)
    (head : string) : Conn -> Conn :=
  let '(proxyAgent, printed) :=
    createProxyAgent ("https://" +:+ hostname +:+ ":" +:+ num targetPort) true in
  prints printed >>>
  match proxyAgent with
  | None =>
      console_error "❌ 无法创建代理Agent" >>>
      sendConnectError "502 Bad Gateway" "无法创建代理连接"
  | Some agent =>
      dial (DialAgent agent hostname targetPort (timeout this)) >>>
      set_phase (ProxyDialing hostname targetPort head)
  end.

(** The callback of [process.nextTick] on the upstream path. *)
Definition proxyTick (hostname : string) (targetPort : Z) : Conn -> Conn :=
  fun st =>
    if destroyed (client st) || destroyed (outbound st) then
      (console_log
         ("⚠️  Socket在数据转发前已关闭 " +:+ authority hostname targetPort) >>>
       set_phase Finished) st
    else
      (pipe Outbound >>>
       pipe Client >>>
       on Client EvError
         (PipeError "proxySocket->socket" true hostname targetPort) >>>
       on Outbound EvError
         (PipeError "socket->proxySocket" true hostname targetPort) >>>
       set_phase Tunnel) st.

Definition proxyConnected (hostname : string) (targetPort : Z)
    (head proxyHead : string) : Conn -> Conn :=
  console_log ("✅ 通过代理连接到 " +:+ authority hostname targetPort) >>>
  fun st =>
    if destroyed (client st) then
      (console_log
         ("⚠️  客户端socket已断开，关闭代理连接 " +:+ authority hostname targetPort) >>>
       destroy Outbound >>>
       set_phase Finished) st
    else
      (setNoDelay Client >>>
       setNoDelay Outbound >>>
       setKeepAlive Client 30000 >>>
       setKeepAlive Outbound 30000 >>>
       setTimeout Client 120000 None >>>
       setTimeout Outbound 120000 None >>>
       setMaxListeners Client 20 >>>
       setMaxListeners Outbound 20 >>>
       write Client connectionEstablished >>>
       (fun st =>
          set_listeners
            (listeners st ++
             [mkListener Client EvWritten true
                (ResponseWritten hostname targetPort)]) st) >>>
       (if 0 <? JS.length head then write Outbound head else skip) >>>
       (if 0 <? JS.length proxyHead then write Client proxyHead else skip) >>>
       setupSocketErrorHandlers hostname targetPort >>>
       set_phase (ProxyTickPending hostname targetPort)) st.

Definition proxyRequestError (hostname : string) (targetPort : Z)
    (err : ErrorObj) : Conn -> Conn :=
  console_error
    ("❌ 代理连接错误 " +:+ authority hostname targetPort +:+ ": " +:+ message err) >>>
  sendConnectError "502 Bad Gateway" ("代理连接失败: " +:+ message err).

(** The listener of ['timeout'] on the request.  Its [proxyReq.destroy()]
    touches neither socket of the connection; what the runtime makes of it
    comes back as a later [RequestError]. *)
Definition proxyRequestTimeout (hostname : string) (targetPort : Z)
    : Conn -> Conn :=
  console_log ("⏰ 代理连接超时 " +:+ authority hostname targetPort) >>>
  sendConnectError "504 Gateway Timeout" "代理连接超时".

(** A header value of [req.headers]: a string, or an array for the headers
    that Node collects. *)
Inductive HeaderValue :=
  | HString (v : string)
  | HArray (vs : list string).

(** The fields of an [IncomingMessage]; the header names are in lower
    case, as Node stores them. *)
Record IncomingMessage := mkIncomingMessage {
  url : option string;
  method : option string;
  headers : gmap string HeaderValue
}.

Definition readyStateName (r : ReadyState) : string :=
  match r with
  | Opening => "opening"
  | Open => "open"
  | ReadOnly => "readOnly"
  | WriteOnly => "writeOnly"
  | Closed => "closed"
  end.

Definition boolName (b : bool) : string := if b then "true" else "false".

(** The host and the port that [handleConnect] takes from the target:
    the first two fields when the target has a colon, the legacy parser on
    [//target] otherwise, 443 standing in for a missing port. *)
Definition parseTarget (target : string) : string * option Z :=
  if JS.includes target ":" then
    let parts := JS.split ":"%char target in
    (default "" (parts !! 0%nat),
     JS.parseInt (JS.or_default (parts !! 1%nat) "443"))
  else
    let parsed := url_parse rt ("//" +:+ target) in
    (JS.or_default (legacy_hostname parsed) target,
     JS.parseInt (JS.or_default (legacy_port parsed) "443")).

(** [handleConnect], the listener of ['connect'] on the server. *)
Definition handleConnect (req : IncomingMessage) (head : string)
    : Conn -> Conn :=
  match url req with
  | None =>
      console_error "❌ CONNECT请求缺少URL" >>>
      sendConnectError "400 Bad Request" "CONNECT请求缺少URL"
  | Some target =>
      if negb (JS.truthy target) then
        console_error "❌ CONNECT请求缺少URL" >>>
        sendConnectError "400 Bad Request" "CONNECT请求缺少URL"
      else
        let '(hostname, targetPort) := parseTarget target in
        if negb (JS.truthy hostname) || String.eqb hostname "null" ||
           String.eqb hostname "undefined" then
          console_error ("❌ 无效的hostname: " +:+ target) >>>
          sendConnectError "400 Bad Request" ("无效的hostname: " +:+ target)
        else if negb (JS.hostPattern_test hostname) ||
                (253 <? JS.length hostname) then
          console_error ("❌ hostname格式不正确: " +:+ hostname) >>>
          sendConnectError "400 Bad Request" ("hostname格式不正确: " +:+ hostname)
        else
          match targetPort with
          | None =>
              console_error ("❌ 无效的端口: " +:+ Number_toString rt None) >>>
              sendConnectError "400 Bad Request"
                ("无效的端口: " +:+ Number_toString rt None)
          | Some p =>
              if (p <=? 0) || (65535 <? p) then
                console_error ("❌ 无效的端口: " +:+ num p) >>>
                sendConnectError "400 Bad Request" ("无效的端口: " +:+ num p)
              else
                console_log
                  ("🔗 CONNECT " +:+ authority hostname p +:+ " - " +:+
                     Date_toISOString rt) >>>
                fun st =>
                  if destroyed (client st) ||
                     negb (isOpen (readyState (client st))) then
                    (console_error
                       ("❌ 客户端socket状态异常: destroyed=" +:+
                          boolName (destroyed (client st)) +:+ ", readyState=" +:+
                          readyStateName (readyState (client st))) >>>
                     sendConnectError "400 Bad Request" "客户端连接状态异常") st
                  else
                    (setKeepAlive Client 30000 >>>
                     setNoDelay Client >>>
                     setTimeout Client 60000 None >>>
                     (if match upstreamProxy this with
                         | Some up => JS.truthy up
                         | None => false
                         end
                      then handleConnectViaProxy hostname p head
                      else handleDirectConnect hostname p head)) st
          end
  end.

(** ** The event loop seen from one connection *)

Definition side_eqb (a b : Side) : bool :=
  match a, b with
  | Client, Client | Outbound, Outbound => true
  | _, _ => false
  end.

Definition event_eqb (a b : EventName) : bool :=
  match a, b with
  | EvError, EvError | EvClose, EvClose | EvTimeout, EvTimeout
  | EvEnd, EvEnd | EvWritten, EvWritten => true
  | _, _ => false
  end.

Definition listens (s : Side) (e : EventName) (l : Listener) : bool :=
  side_eqb (l_side l) s && event_eqb (l_event l) e.

(** [s.emit(e, arg)]: the listeners of the event run in the order of their
    registration; the one-shot ones are removed. *)
Definition emit (s : Side) (e : EventName) (arg : EventArg) : Conn -> Conn :=
  fun st =>
    let fired := List.filter (listens s e) (listeners st) in
    let kept :=
      List.filter (fun l => negb (listens s e l && l_once l)) (listeners st) in
    fold_left (fun acc l => run_handler (l_handler l) arg acc) fired
      (set_listeners kept st).

(** A chunk arrives on a socket: the pipe hands it to the peer, or it
    waits; a destroyed socket delivers nothing. *)
Definition receive (s : Side) (chunk : string) : Conn -> Conn :=
  fun st =>
    let k := sock s st in
    if destroyed k then st
    else if piped k then call (Forward s chunk) st
    else
      set_sock s
        (mkSocket (destroyed k) (readyState k) (idleTimeout k) (piped k)
           (unread k ++ [chunk])) st.

(** The runtime destroys a socket on its own (a failure of the
    transport): the flag is set and no method of the source is called. *)
Definition runtimeDestroy (s : Side) : Conn -> Conn :=
  fun st =>
    let k := sock s st in
    set_sock s (mkSocket true Closed (idleTimeout k) (piped k) (unread k)) st.

(** What the runtime can do to a connection. *)
Inductive Env :=
  | Connected (proxyHead : string)
  | RequestError (err : ErrorObj)
  | RequestTimeout
  | Tick
  | Emit (s : Side) (e : EventName) (arg : EventArg)
  | RuntimeDestroy (s : Side)
  | Data (s : Side) (chunk : string).

Definition openSocket : Socket :=
  {| destroyed := false; readyState := Open; idleTimeout := 0;
     piped := false; unread := [] |}.

(** One turn of the event loop.  A callback of the dial runs only while the
    dial is pending: after ['connect'] the request is closed and its
    listeners are not called any more, whereas the listeners of a socket
    stay until the socket is gone. *)
Definition step (ev : Env) (st : Conn) : Conn :=
  match ev with
  | Connected proxyHead =>
      match phase st with
      | DirectDialing hostname targetPort head =>
          let k := outbound st in
          directConnected hostname targetPort head
            (set_sock Outbound
               (mkSocket (destroyed k) Open (idleTimeout k) (piped k) (unread k))
               st)
      | ProxyDialing hostname targetPort head =>
          proxyConnected hostname targetPort head proxyHead
            (set_sock Outbound openSocket st)
      | _ => st
      end
  | RequestError err =>
      match phase st with
      | ProxyDialing hostname targetPort _ =>
          (proxyRequestError hostname targetPort err >>> set_phase Finished) st
      | _ => st
      end
  | RequestTimeout =>
      match phase st with
      | ProxyDialing hostname targetPort _ =>
          proxyRequestTimeout hostname targetPort st
      | _ => st
      end
  | Tick =>
      match phase st with
      | ProxyTickPending hostname targetPort => proxyTick hostname targetPort st
      | _ => st
      end
  | Emit s e arg => emit s e arg st
  | RuntimeDestroy s => runtimeDestroy s st
  | Data s chunk => receive s chunk st
  end.

Definition run (evs : list Env) (st : Conn) : Conn :=
  fold_left (fun acc ev => step ev acc) evs st.

(** The connection as the server hands it to [handleConnect]: the client
    socket is there, nothing has been called yet. *)
Definition accepted (clientSocket : Socket) : Conn :=
  {| client := clientSocket; outbound := freshSocket; listeners := [];
     connectionClosed := false; calls := []; dials := []; console := [];
     cleanups := 0; phase := Idle |}.

End Handlers.

(** ** The forward-fetch handler *)

Inductive Body :=
  | Text (s : string)
  | StatusPage (listenPort : Z)
  | NoBody.

(** A response written by the proxy itself: [writeHead] on top of the
    headers set before, then [end]. *)
Record Response := mkResponse {
  statusCode : Z;
  responseHeaders : list (string * string);
  body : Body
}.

Inductive PortValue :=
  | PortString (s : string)
  | PortNumber (n : Z).

(** The [agent] option of the outbound request: an agent for the upstream
    proxy, a new [https.Agent] that verifies the origin, or none. *)
Inductive AgentOption :=
  | UseAgent (a : Agent)
  | NewHttpsAgent
  | NoAgent.

Record RequestOptions := mkRequestOptions {
  o_hostname : string;
  o_port : PortValue;
  o_path : string;
  o_method : string;
  o_headers : gmap string HeaderValue;
  o_rejectUnauthorized : option bool;
  o_agent : AgentOption
}.

(** What the handler does with a request: it answers it, or it sends the
    request on with [http.request] or [https.request]. *)
Inductive Outcome :=
  | Respond (r : Response)
  | Fetch (isHttps : bool) (options : RequestOptions).

Definition validMethods : list string :=
  ["GET"; "POST"; "PUT"; "DELETE"; "HEAD"; "OPTIONS"; "PATCH"].

Definition textPlain : string * string :=
  ("Content-Type", "text/plain; charset=utf-8").

Section ForwardFetch.

Variable this : HttpsProxy.
Variable rt : Runtime.

(** The test for TLS bytes taken for a request: no usable [host] header. *)
Definition suspiciousHost (hs : gmap string HeaderValue) : bool :=
  match hs !! "host" with
  | None => true
  | Some (HArray _) => true
  | Some (HString h) =>
      negb (JS.truthy h) || (255 <? JS.length h) || JS.controlPattern_test h
  end.

(** The headers of the outbound request: a copy of the inbound ones, eight
    names deleted, then [host] set from the URL. *)
Definition outboundHeaders (hs : gmap string HeaderValue) (parsedUrl : URL)
    (isHttps : bool) : gmap string HeaderValue :=
  let hs :=
    delete "sec-websocket-protocol"
      (delete "sec-websocket-version"
         (delete "sec-websocket-key"
            (delete "upgrade"
               (delete "connection"
                  (delete "proxy-authorization"
                     (delete "proxy-connection" (delete "host" hs))))))) in
  if JS.truthy (url_hostname parsedUrl) then
    let p := url_port parsedUrl in
    if JS.truthy p || (negb isHttps && negb (String.eqb p "80")) ||
       (isHttps && negb (String.eqb p "443")) then
      if JS.truthy p then
        <["host" := HString (url_hostname parsedUrl +:+ ":" +:+ p)]> hs
      else <["host" := HString (url_hostname parsedUrl)]> hs
    else <["host" := HString (url_hostname parsedUrl)]> hs
  else hs.

(** [handleHttpRequest]: [preset] are the headers already set on the
    response.  The result is the outcome and what is printed. *)
Definition handleHttpRequest (req : IncomingMessage)
    (preset : list (string * string)) : Outcome * list (Level * string) :=
  match url req with
  | None =>
      (Respond (mkResponse 400 (preset ++ [textPlain]) (Text "缺少 URL")),
       [(LogLevel, "❌ HTTP请求缺少URL")])
  | Some targetUrl =>
      if negb (JS.truthy targetUrl) then
        (Respond (mkResponse 400 (preset ++ [textPlain]) (Text "缺少 URL")),
         [(LogLevel, "❌ HTTP请求缺少URL")])
      else
        let methodName := default "undefined" (method req) in
        if match method req with
           | Some m => negb (JS.truthy m) || negb (existsb (String.eqb m) validMethods)
           | None => true
           end
        then
          (Respond
             (mkResponse 405 (preset ++ [textPlain])
                (Text ("不支持的HTTP方法: " +:+ methodName))),
           [(LogLevel, "❌ 无效的HTTP方法: " +:+ methodName)])
        else if negb (JS.startsWith targetUrl "http://") &&
                negb (JS.startsWith targetUrl "https://") then
          if suspiciousHost (headers req) then
            (Respond
               (mkResponse 400 (preset ++ [textPlain])
                  (Text "Bad Request - 请使用CONNECT方法建立SSL隧道")),
             [(LogLevel, "⚠️  疑似SSL数据被误解析为HTTP请求，拒绝处理")])
          else
            (Respond
               (mkResponse 200
                  (preset ++ [("Content-Type", "text/html; charset=utf-8")])
                  (StatusPage (port this))),
             [])
        else
          let announce :=
            (LogLevel,
             "🌐 " +:+ methodName +:+ " " +:+ targetUrl +:+ " - " +:+
               Date_toISOString rt) in
          match URL_new rt targetUrl with
          | None =>
              (Respond
                 (mkResponse 400 (preset ++ [textPlain])
                    (Text ("无效的URL: " +:+ targetUrl))),
               [announce; (ErrorLevel, "❌ 无效的URL: " +:+ targetUrl)])
          | Some parsedUrl =>
              if negb (String.eqb (protocol parsedUrl) "http:") &&
                 negb (String.eqb (protocol parsedUrl) "https:") then
                (Respond
                   (mkResponse 400 (preset ++ [textPlain])
                      (Text ("不支持的协议: " +:+ protocol parsedUrl))),
                 [announce;
                  (ErrorLevel, "❌ 不支持的协议: " +:+ protocol parsedUrl)])
              else
                let isHttps := String.eqb (protocol parsedUrl) "https:" in
                let '(proxyAgent, printed) :=
                  createProxyAgent this rt targetUrl false in
                (Fetch isHttps
                   {| o_hostname := url_hostname parsedUrl;
                      o_port :=
                        if JS.truthy (url_port parsedUrl)
                        then PortString (url_port parsedUrl)
                        else PortNumber (if isHttps then 443 else 80);
                      o_path := pathname parsedUrl +:+ search parsedUrl;
                      o_method := methodName;
                      o_headers :=
                        outboundHeaders (headers req) parsedUrl isHttps;
                      o_rejectUnauthorized :=
                        if isHttps then Some true else None;
                      o_agent :=
                        match proxyAgent with
                        | Some a => UseAgent a
                        | None => if isHttps then NewHttpsAgent else NoAgent
                        end |},
                 announce :: printed)
          end
  end.

Definition corsHeaders : list (string * string) :=
  [("Access-Control-Allow-Origin", "*");
   ("Access-Control-Allow-Methods", "*");
   ("Access-Control-Allow-Headers", "*")].

(** The listener of ['request'] given to [https.createServer] in
    [start]. *)
Definition requestListener (req : IncomingMessage)
    : Outcome * list (Level * string) :=
  if match method req with
     | Some m => String.eqb m "OPTIONS"
     | None => false
     end
  then (Respond (mkResponse 200 corsHeaders NoBody), [])
  else handleHttpRequest req corsHeaders.

End ForwardFetch.

(** ** The rest of a forwarded request

    What [handleHttpRequest] leaves behind once the request is sent: the
    callback of the response and the listeners of ['error'] and of the
    timeout, all three writing to the response of the client. *)

(** A head written to the client: one of the proxy's own, with its text,
    or the head of the origin passed on. *)
Inductive Head :=
  | OwnHead (status : Z) (hs : list (string * string)) (text : string)
  | ForwardedHead (status : Z) (hs : list (string * string)).

(** The response to the client and the outbound request.  [headersSent] is
    the property of that name; [timeoutListener] says that the callback
    given to [proxyReq.setTimeout], a one-shot listener, is still there. *)
Record Exchange := mkExchange {
  headersSent : bool;
  heads : list Head;
  requestDestroyed : bool;
  timeoutListener : bool;
  printed : list (Level * string)
}.

Definition sentRequest : Exchange :=
  {| headersSent := false; heads := []; requestDestroyed := false;
     timeoutListener := true; printed := [] |}.

Inductive FetchEvent :=
  | FetchResponse (statusCode : option Z) (hs : list (string * string))
  | FetchError (err : ErrorObj)
  | FetchTimeout.

Section Exchange.

Variable rt : Runtime.
Variable targetUrl : string.

(** [res.writeHead]: the head is recorded and [headersSent] is up. *)
Definition writeHead (h : Head) (x : Exchange) : Exchange :=
  mkExchange true (heads x ++ [h]) (requestDestroyed x) (timeoutListener x)
    (printed x).

Definition say (l : Level) (text : string) (x : Exchange) : Exchange :=
  mkExchange (headersSent x) (heads x) (requestDestroyed x)
    (timeoutListener x) (printed x ++ [(l, text)]).

(** The callback of the response: [proxyRes.statusCode || 200]. *)
Definition onResponse (statusCode : option Z) (hs : list (string * string))
    (x : Exchange) : Exchange :=
  writeHead (ForwardedHead (number_or statusCode 200) hs)
    (say LogLevel
       ("📥 响应: " +:+
          match statusCode with
          | Some n => Number_toString rt (Some n)
          | None => "undefined"
          end +:+ " " +:+ targetUrl) x).

(** The listener of ['error'] on the request. *)
Definition onRequestError (err : ErrorObj) (x : Exchange) : Exchange :=
  let x := say ErrorLevel ("❌ 请求错误 " +:+ targetUrl +:+ ": " +:+ message err) x in
  if headersSent x then x
  else writeHead (OwnHead 502 [textPlain] ("代理错误: " +:+ message err)) x.

(** The callback of [proxyReq.setTimeout]. *)
Definition onRequestTimeout (x : Exchange) : Exchange :=
  if timeoutListener x then
    let x := say LogLevel ("⏰ 请求超时 " +:+ targetUrl) x in
    let x :=
      mkExchange (headersSent x) (heads x) true false (printed x) in
    if headersSent x then x
    else writeHead (OwnHead 504 [textPlain] "请求超时") x
  else x.

Definition fetchStep (ev : FetchEvent) (x : Exchange) : Exchange :=
  match ev with
  | FetchResponse statusCode hs => onResponse statusCode hs x
  | FetchError err => onRequestError err x
  | FetchTimeout => onRequestTimeout x
  end.

Definition fetchRun (evs : list FetchEvent) (x : Exchange) : Exchange :=
  fold_left (fun acc ev => fetchStep ev acc) evs x.

End Exchange.

(** ** The listeners of the server for client errors *)

(** The test that both listeners make for a TLS version error. *)
Definition wrongVersion (err : ErrorObj) : bool :=
  codeIs err "EPROTO" || JS.includes (message err) "wrong version number".

(** The listener of ['clientError'].  [hasSocket] is the test [socket &&];
    [socket.end(data)] writes the data and ends the stream. *)
Definition onClientError (err : ErrorObj) (hasSocket : bool) : Conn -> Conn :=
  let isCommonError :=
    anyIncludes (message err)
      ["ECONNRESET"; "Parse Error"; "HPE_INVALID_METHOD"; "socket hang up";
       "wrong version number"; "SSL_ERROR_WANT_READ"; "SSL_ERROR_WANT_WRITE"]
    || codeIs err "EPROTO" in
  (if wrongVersion err then
     console_log "⚠️  SSL协议版本错误 (EPROTO) - 可能原因:" >>>
     console_log "   1. 客户端使用HTTP协议连接HTTPS代理" >>>
     console_log "   2. SSL/TLS版本不兼容" >>>
     console_log "   3. 客户端发送了格式错误的SSL握手数据" >>>
     console_log "💡 建议: 确保客户端使用HTTPS协议连接代理服务器"
   else if negb isCommonError then
     console_error ("❌ 客户端错误: " +:+ message err)
   else
     console_log
       ("⚠️  客户端连接问题 (" +:+ JS.or_default (code err) "CLIENT_ERROR" +:+ ")")) >>>
  fun st =>
    if hasSocket && negb (destroyed (client st)) then
      if wrongVersion err then st
      else
        (write Client ("HTTP/1.1 400 Bad Request" +:+ crlf +:+ crlf) >>>
         end_ Client) st
    else st.

(** The listener of ['tlsClientError']. *)
Definition onTlsClientError (err : ErrorObj) (hasSocket : bool)
    : Conn -> Conn :=
  let isCommonSSLError :=
    anyIncludes (message err)
      ["Client network socket disconnected"; "before secure TLS connection";
       "ECONNRESET"; "PROTOCOL_WRONG_VERSION"; "SSL routines";
       "socket hang up"; "wrong version number"; "SSL_ERROR_WANT_READ";
       "SSL_ERROR_WANT_WRITE"; "TLSV1_ALERT_PROTOCOL_VERSION"]
    || codeIs err "EPROTO" in
  (if wrongVersion err then
     console_log "⚠️  SSL协议版本错误 (EPROTO) - 详细诊断:" >>>
     console_log "   可能原因:" >>>
     console_log "   1. 客户端使用HTTP协议连接HTTPS代理服务器" >>>
     console_log "   2. SSL/TLS版本不兼容 (代理支持TLSv1.2-1.3)" >>>
     console_log "   3. 客户端发送了格式错误的SSL握手数据" >>>
     console_log "   4. 防火墙或中间件篡改了SSL数据包" >>>
     console_log "💡 解决方案:" >>>
     console_log "   - 确保客户端配置使用HTTPS代理 (https://127.0.0.1:10443)" >>>
     console_log "   - 检查客户端SSL/TLS设置，确保支持TLSv1.2或更高版本" >>>
     console_log "   - 使用 openssl s_client 测试SSL连接"
   else if JS.includes (message err) "TLSV1_ALERT_PROTOCOL_VERSION" then
     console_log "⚠️  TLS版本协商失败 - 客户端可能使用了过旧的TLS版本" >>>
     console_log "💡 提示: 代理服务器要求TLSv1.2或更高版本"
   else if negb isCommonSSLError then
     console_error ("❌ TLS客户端错误: " +:+ message err) >>>
     (if JS.includes (message err) "unknown ca" ||
         JS.includes (message err) "self signed" then
        console_error "💡 提示: 客户端不信任代理服务器的CA证书" >>>
        console_error "   解决方案1: 使用 curl --proxy-insecure 参数忽略证书验证" >>>
        console_error "   解决方案2: 使用 --cacert certs/ca.crt 参数指定CA证书" >>>
        console_error "   解决方案3: 将 certs/ca.crt 安装到系统信任的证书存储中"
      else skip)
   else
     console_log
       ("⚠️  SSL握手断开 (" +:+ JS.or_default (code err) "TLS_ERROR" +:+ ")")) >>>
  fun st =>
    if hasSocket && negb (destroyed (client st)) then
      if wrongVersion err then destroy Client st else end_ Client st
    else st.

(** ** The configuration read at start *)

Definition hexDigit_of (c : ascii) : option Z :=
  let n := Z.of_N (N_of_ascii c) in
  if (48 <=? n) && (n <=? 57) then Some (n - 48)
  else if (97 <=? n) && (n <=? 102) then Some (n - 87)
  else if (65 <=? n) && (n <=? 70) then Some (n - 55)
  else None.

Fixpoint parseHexDigits (s : string) (acc : option Z) : option Z :=
  match s with
  | String c s' =>
      match hexDigit_of c with
      | Some d => parseHexDigits s' (Some (16 * default 0 acc + d))
      | None => acc
      end
  | EmptyString => acc
  end.

(** [parseInt(s)] without a radix, on a text of the environment: white
    space is skipped, then base 16 after [0x] or [0X], base 10 otherwise;
    [None] is [NaN].  The result of JavaScript is a double, which is zero,
    or [NaN], exactly when the integer here is. *)
Definition parseIntAuto (s : string) : option Z :=
  let s := trimStart s in
  let '(neg, ds) :=
    match s with
    | String "-"%char r => (true, r)
    | String "+"%char r => (false, r)
    | _ => (false, s)
    end in
  let value :=
    match ds with
    | String "0"%char (String "x"%char r) => parseHexDigits r None
    | String "0"%char (String "X"%char r) => parseHexDigits r None
    | _ => JS.parseDigits ds None
    end in
  match value with
  | Some n => Some (if neg then - n else n)
  | None => None
  end.

(** The proxy that the file builds when it is run: [HTTPS_PROXY_PORT] and
    [PROXY_TIMEOUT] with their defaults, and the six proxy variables. *)
Definition proxyFromEnv (portVar timeoutVar : option string)
    (proxies : list (option string)) : HttpsProxy :=
  constructor (parseIntAuto (JS.or_default portVar "10443"))
    (parseIntAuto (JS.or_default timeoutVar "30000"))
    (detectUpstreamProxy proxies).

(** ** A runtime for the examples

    The parsers are given by their results on the few URLs that the
    examples use, each as Node returns it; numbers are printed in
    decimal, which is what a template literal does for the ports here. *)
Module Example.

Definition decimalDigit (n : Z) : ascii :=
  ascii_of_N (Z.to_N (48 + n mod 10)).

Fixpoint decimalDigits (fuel : nat) (n : Z) (acc : string) : string :=
  match fuel with
  | O => acc
  | S fuel' =>
      let acc' := String (decimalDigit n) acc in
      if n <? 10 then acc' else decimalDigits fuel' (n / 10) acc'
  end.

Definition decimal (n : option Z) : string :=
  match n with
  | None => "NaN"
  | Some z =>
      if z <? 0 then "-" +:+ decimalDigits 20 (- z) "" else decimalDigits 20 z ""
  end.

Definition urls (s : string) : option URL :=
  if String.eqb s "ftp://up.test:21" then
    Some (mkURL "ftp:" "up.test" "21" "/" "")
  else if String.eqb s "http://up.test:8080" then
    Some (mkURL "http:" "up.test" "8080" "/" "")
  else if String.eqb s "http://origin.test/ping" then
    Some (mkURL "http:" "origin.test" "" "/ping" "")
  else if String.eqb s "https://origin.test:443/ping?x=1" then
    Some (mkURL "https:" "origin.test" "" "/ping" "?x=1")
  else if String.eqb s "http://origin.test:8080/ping" then
    Some (mkURL "http:" "origin.test" "8080" "/ping" "")
  else None.

(** [url.parse("//name")] finds no host in a target without colon, at
    sign, or white space: the whole text is a path. *)
Definition legacy (s : string) : UrlWithStringQuery :=
  mkUrlWithStringQuery None None.

Definition node : Runtime :=
  mkRuntime urls legacy decimal "2025-01-01T00:00:00.000Z".

(** No upstream proxy, default port and timeout. *)
Definition direct : HttpsProxy := constructor None None None.

(** An upstream proxy with a scheme that the proxy does not know. *)
Definition viaFtp : HttpsProxy :=
  constructor None None (Some "ftp://up.test:21").

(** An HTTP upstream proxy. *)
Definition viaHttp : HttpsProxy :=
  constructor None None (Some "http://up.test:8080").

Definition connectRequest (target : string) : IncomingMessage :=
  mkIncomingMessage (Some target) (Some "CONNECT")
    {[ "host" := HString target ]}.

Definition econnreset : ErrorObj :=
  mkErrorObj "read ECONNRESET" (Some "ECONNRESET").

(** U+3000, U+00A0 and U+FEFF as the environment holds them, and the
    letter U+00E0, whose last byte is that of U+00A0. *)
Definition ideographicSpace : string :=
  String "227" (String "128" (String "128" "")).
Definition noBreakSpace : string := String "194" (String "160" "").
Definition byteOrderMark : string :=
  String "239" (String "187" (String "191" "")).
Definition aGrave : string := String "195" (String "160" "").

(** [GET http://origin.test:8080/ping] as a client sends it to a proxy. *)
Definition pingRequest : IncomingMessage :=
  mkIncomingMessage (Some "http://origin.test:8080/ping") (Some "GET")
    {[ "host" := HString "proxy";
       "proxy-connection" := HString "keep-alive";
       "accept" := HString "*/*" ]}.

(** The options of the request that the proxy sends for [pingRequest]. *)
Definition pingOptions : RequestOptions :=
  {| o_hostname := "origin.test";
     o_port := PortString "8080";
     o_path := "/ping";
     o_method := "GET";
     o_headers :=
       {[ "accept" := HString "*/*";
          "host" := HString "origin.test:8080" ]};
     o_rejectUnauthorized := None;
     o_agent := NoAgent |}.

(** A request for the proxy itself, as a browser sends it. *)
Definition statusRequest : IncomingMessage :=
  mkIncomingMessage (Some "/") (Some "GET")
    {[ "host" := HString "127.0.0.1:10443" ]}.

(** A WebSocket handshake sent in proxy form. *)
Definition upgradeRequest : IncomingMessage :=
  mkIncomingMessage (Some "http://origin.test/ping") (Some "GET")
    {[ "host" := HString "origin.test";
       "upgrade" := HString "websocket";
       "sec-websocket-key" := HString "dGhlIHNhbXBsZSBub25jZQ==";
       "sec-websocket-extensions" := HString "permessage-deflate" ]}.

End Example.

(** ** Notions used in the results *)

(** The names, other than [host], that [handleHttpRequest] deletes from
    the copy of the inbound headers. *)
Definition strippedHeaders : list string :=
  ["proxy-connection"; "proxy-authorization"; "connection"; "upgrade";
   "sec-websocket-key"; "sec-websocket-version"; "sec-websocket-protocol"].

(** The [host] of a WHATWG URL: the host name, and the port after a colon
    when the URL carries one.  The parser leaves the port empty when it is
    the default port of the scheme. *)
Definition URL_host (u : URL) : string :=
  if JS.truthy (url_port u) then url_hostname u +:+ ":" +:+ url_port u
  else url_hostname u.

(** The calls of [sendConnectError] for the two statuses below. *)
Definition badRequest (message : string) : list Call :=
  [Write Client ("HTTP/1.1 400 Bad Request" +:+ crlf);
   Write Client ("Content-Type: text/plain" +:+ crlf);
   Write Client crlf;
   Write Client message;
   End_ Client].

Definition badGateway (message : string) : list Call :=
  [Write Client ("HTTP/1.1 502 Bad Gateway" +:+ crlf);
   Write Client ("Content-Type: text/plain" +:+ crlf);
   Write Client crlf;
   Write Client message;
   End_ Client].

(** The targets that [handleConnect] lets through, by the host and the
    port taken from them: the host is not empty, is neither of the words
    [null] and [undefined], has only letters, digits, dots and hyphens and
    at most 253 of them; the port is a number from 1 to 65535. *)
Definition validTarget (hostname : string) (targetPort : option Z) : bool :=
  JS.truthy hostname &&
  negb (String.eqb hostname "null") &&
  negb (String.eqb hostname "undefined") &&
  JS.allChars JS.isHostChar hostname &&
  (JS.length hostname <=? 253) &&
  match targetPort with
  | Some p => (1 <=? p) && (p <=? 65535)
  | None => false
  end.

(** The bytes that a list of calls writes to one socket, in order. *)
Fixpoint bytesTo (s : Side) (cs : list Call) : string :=
  match cs with
  | [] => ""
  | Write s' data :: rest =>
      if side_eqb s' s then data +:+ bytesTo s rest else bytesTo s rest
  | _ :: rest => bytesTo s rest
  end.

(** Calls made before the splicing starts: no pipe is installed and no
    chunk is handed from one socket to the other. *)
Definition beforeSplice (c : Call) : bool :=
  match c with
  | Pipe _ | Forward _ _ => false
  | _ => true
  end.

(** The events that end a tunnel: an error, a close, an end or a timeout
    on one of its sockets. *)
Definition terminal (ev : Env) : bool :=
  match ev with
  | Emit _ EvError _ | Emit _ EvClose _ | Emit _ EvEnd _
  | Emit _ EvTimeout _ => true
  | _ => false
  end.

(** The listeners that call [cleanup]. *)
Definition cleans (h : Handler) : bool :=
  match h with
  | ClientError _ _ | ClientClose _ _ | ServerError _ _ | ServerClose _ _
  | ClientTimeout _ _ | ServerTimeout _ _ | ClientEnd | ServerEnd => true
  | _ => false
  end.

(** A permanent listener of the event that calls [cleanup]. *)
Definition guards (s : Side) (e : EventName) (l : Listener) : bool :=
  listens s e l && negb (l_once l) && cleans (l_handler l).

(** A listener of ['timeout'], one-shot or not, that calls [cleanup]. *)
Definition guardsTimeout (s : Side) (l : Listener) : bool :=
  listens s EvTimeout l && cleans (l_handler l).

(** The flag and the counter agree: while the flag is down [cleanup] has
    not run; once it is up [cleanup] has run once and both sockets are
    destroyed. *)
Definition flagInvariant (st : Conn) : Prop :=
  (connectionClosed st = false -> cleanups st = 0%nat) /\
  (connectionClosed st = true ->
   cleanups st = 1%nat /\
   destroyed (client st) = true /\ destroyed (outbound st) = true).

Definition dialOver (p : Phase) : bool :=
  match p with
  | DirectDialing _ _ _ | ProxyDialing _ _ _ => false
  | _ => true
  end.

(** The state of a connection whose tunnel has been set up: the dial is
    over, the listeners of [setupSocketErrorHandlers] are in place (those
    of ['timeout'] at least until [cleanup] has run), and the flag and the
    counter agree. *)
Definition armed (st : Conn) : Prop :=
  dialOver (phase st) = true /\
  (forall s e, e = EvError \/ e = EvClose \/ e = EvEnd ->
               existsb (guards s e) (listeners st) = true) /\
  (connectionClosed st = true \/
   forall s, existsb (guardsTimeout s) (listeners st) = true) /\
  flagInvariant st.

(** Two states that differ at most in what was called and printed. *)
Definition sameCore (st st' : Conn) : Prop :=
  client st' = client st /\ outbound st' = outbound st /\
  listeners st' = listeners st /\
  connectionClosed st' = connectionClosed st /\
  cleanups st' = cleanups st /\ phase st' = phase st.

(** The listeners that write nothing to the client. *)
Definition quiet (h : Handler) : bool :=
  match h with
  | DirectDialError _ _ => false
  | _ => true
  end.

(** A connection on which nothing can write to the client any more but
    the pipe: the dial is over and every listener is quiet. *)
Definition silent (st : Conn) : Prop :=
  dialOver (phase st) = true /\
  forallb (fun l => quiet (l_handler l)) (listeners st) = true.

(** What is assumed of the WHATWG parser in one lemma below: a URL that
    starts with [http://] or [https://] has that scheme. *)
Definition schemeFromPrefix (rt : Runtime) : Prop :=
  forall (s : string) (u : URL),
    URL_new rt s = Some u ->
    (JS.startsWith s "http://" = true -> protocol u = "http:") /\
    (JS.startsWith s "https://" = true -> protocol u = "https:").

(** A proxy variable that [detectUpstreamProxy] passes over: unset, or
    nothing but white space. *)
Definition isBlank (proxy : option string) : bool :=
  match proxy with
  | None => true
  | Some s => negb (JS.truthy (trim s))
  end.

Definition isDigit (c : ascii) : bool :=
  match JS.digit_of c with Some _ => true | None => false end.

(** A text that does not go on with a digit. *)
Definition noLeadingDigit (s : string) : bool :=
  match s with
  | EmptyString => true
  | String c _ => negb (isDigit c)
  end.

(** The lines printed with [console.error]. *)
Definition errorLines (out : list (Level * string)) : list string :=
  omap (fun e => match e.1 with ErrorLevel => Some e.2 | LogLevel => None end)
    out.

(** The number of pipes installed on one socket by a list of calls. *)
Fixpoint pipeCount (s : Side) (cs : list Call) : nat :=
  match cs with
  | [] => 0
  | Pipe s' :: rest =>
      if side_eqb s' s then S (pipeCount s rest) else pipeCount s rest
  | _ :: rest => pipeCount s rest
  end.

(** Whether a pipe can still be installed: only the callback of a
    successful dial and the callback of [process.nextTick] install one. *)
Definition pipePending (p : Phase) : nat :=
  match p with
  | DirectDialing _ _ _ | ProxyDialing _ _ _ | ProxyTickPending _ _ => 1
  | _ => 0
  end.

Definition gatewayTimeout (message : string) : list Call :=
  [Write Client ("HTTP/1.1 504 Gateway Timeout" +:+ crlf);
   Write Client ("Content-Type: text/plain" +:+ crlf);
   Write Client crlf;
   Write Client message;
   End_ Client].

(** The listeners of a tunnel that are given an error: those of
    [setupSocketErrorHandlers] for ['error'] and those of the pipes. *)
Definition errorListener (h : Handler) : bool :=
  match h with
  | ClientError _ _ | ServerError _ _ | PipeError _ _ _ _ => true
  | _ => false
  end.

Definition isFetchResponse (ev : FetchEvent) : bool :=
  match ev with FetchResponse _ _ => true | _ => false end.

Definition isOwnHead (h : Head) : bool :=
  match h with OwnHead _ _ _ => true | ForwardedHead _ _ => false end.

(** The completion callback of a write. *)
Definition isWriteCallback (h : Handler) : bool :=
  match h with ResponseWritten _ _ => true | _ => false end.

(** A listener that is in its place: the completion callback of a write
    is called for that completion, and no other listener is. *)
Definition callbackOnly (l : Listener) : bool :=
  Bool.eqb (isWriteCallback (l_handler l)) (event_eqb (l_event l) EvWritten).

(** What [cleanup] calls on a socket that is not destroyed yet. *)
Definition unpipeAndDestroy (s : Side) : list Call := [Unpipe s; Destroy s].

(** Whether a call is in a list of calls. *)
Definition isUnpipe (s : Side) (c : Call) : bool :=
  match c with Unpipe s' => side_eqb s' s | _ => false end.

(** A tunnel that [cleanup] has closed: the dial is over, the flag is up
    and both sockets are destroyed. *)
Definition closedTunnel (st : Conn) : Prop :=
  dialOver (phase st) = true /\ connectionClosed st = true /\
  destroyed (client st) = true /\ destroyed (outbound st) = true.

Definition isDestroy (c : Call) : bool :=
  match c with Destroy _ => true | _ => false end.

(** The test of [handleHttpRequest] on the method: it is there and it is
    one of the seven. *)
Definition knownMethod (req : IncomingMessage) : bool :=
  match method req with
  | Some m => JS.truthy m && existsb (String.eqb m) validMethods
  | None => false
  end.

(** Evaluation of a handler on a state given by its fields.  Conditions
    that do not compute must be settled before it is called. *)
Ltac conn_eval :=
  cbv beta iota zeta delta
    [step directConnected proxyConnected proxyTick setupSocketErrorHandlers
     handleDirectConnect proxyRequestError proxyRequestTimeout
     sendConnectError cleanup receive runtimeDestroy
     seq when skip write end_ destroy unpipe pipe on setTimeout setKeepAlive
     setNoDelay setMaxListeners call dial print prints console_log
     console_error set_sock set_listeners set_phase mark_closed sock
     client outbound listeners connectionClosed calls dials console cleanups
     phase destroyed readyState idleTimeout piped unread openSocket
     freshSocket negb orb andb Z.eqb].

(** Case analysis on the conditions of the goal that do not compute. *)
Ltac settle_conditions :=
  repeat match goal with
         | |- context [if ?c then _ else _] =>
             lazymatch c with
             | true => fail
             | false => fail
             | _ => destruct c
             end
         end.

(** ** Results *)

(** *** The request listener *)

(** C10: a request with method OPTIONS, whatever its target, is answered
    by the listener itself with status 200, the three permissive CORS
    headers and no body; nothing is fetched and nothing is printed. *)
Theorem options_answered_locally :
  forall (this : HttpsProxy) (rt : Runtime) (req : IncomingMessage),
    method req = Some "OPTIONS" ->
    requestListener this rt req =
      (Respond
         (mkResponse 200
            [("Access-Control-Allow-Origin", "*");
             ("Access-Control-Allow-Methods", "*");
             ("Access-Control-Allow-Headers", "*")]
            NoBody),
       []).
Proof.
  intros this rt req Hm. unfold requestListener. rewrite Hm. reflexivity.
Qed.

Lemma options_answered_locally_witness :
  requestListener Example.direct Example.node
    (mkIncomingMessage (Some "http://origin.test/ping") (Some "OPTIONS") ∅) =
    (Respond
       (mkResponse 200
          [("Access-Control-Allow-Origin", "*");
           ("Access-Control-Allow-Methods", "*");
           ("Access-Control-Allow-Headers", "*")]
          NoBody),
     []).
Proof.
  apply (options_answered_locally Example.direct Example.node
           (mkIncomingMessage (Some "http://origin.test/ping") (Some "OPTIONS") ∅)).
  reflexivity.
Defined.

(** C9: the request [GET ftp://host/] with an ordinary [Host] header is
    answered with status 200 and the status page, not with 400: the test
    on the two prefixes comes before the URL is parsed. *)
Theorem ftp_target_gets_status_page :
  requestListener Example.direct Example.node
    (mkIncomingMessage (Some "ftp://host/") (Some "GET")
       {[ "host" := HString "proxy" ]}) =
    (Respond
       (mkResponse 200
          (corsHeaders ++ [("Content-Type", "text/html; charset=utf-8")])
          (StatusPage 10443)),
     []).
Proof. reflexivity. Qed.

Lemma unprefixed_target_gets_status_page :
  forall (this : HttpsProxy) (rt : Runtime) (req : IncomingMessage)
         (targetUrl m : string) (preset : list (string * string)),
    url req = Some targetUrl ->
    JS.truthy targetUrl = true ->
    method req = Some m ->
    In m validMethods ->
    JS.startsWith targetUrl "http://" = false ->
    JS.startsWith targetUrl "https://" = false ->
    suspiciousHost (headers req) = false ->
    handleHttpRequest this rt req preset =
      (Respond
         (mkResponse 200
            (preset ++ [("Content-Type", "text/html; charset=utf-8")])
            (StatusPage (port this))),
       []).
Proof.
  intros this rt req targetUrl m preset Hu Ht Hm Hin H1 H2 Hs.
  assert (Hv : existsb (String.eqb m) validMethods = true).
  { apply existsb_exists. exists m. split; [exact Hin | apply String.eqb_refl]. }
  assert (Hm' : JS.truthy m = true).
  { destruct m; [| reflexivity]. simpl in Hin. intuition discriminate. }
  unfold handleHttpRequest. rewrite Hu, Ht, Hm, Hm', Hv, H1, H2, Hs.
  reflexivity.
Qed.

(** *** The headers of a forwarded request *)

Lemma outboundHeaders_stripped :
  forall (hs : gmap string HeaderValue) (parsedUrl : URL) (isHttps : bool)
         (name : string),
    In name strippedHeaders ->
    outboundHeaders hs parsedUrl isHttps !! name = None.
Proof.
  intros hs u isHttps name Hin.
  assert (Hne : name <> "host").
  { intros ->. simpl in Hin. intuition discriminate. }
  assert (Hdel :
    delete "sec-websocket-protocol"
      (delete "sec-websocket-version"
         (delete "sec-websocket-key"
            (delete "upgrade"
               (delete "connection"
                  (delete "proxy-authorization"
                     (delete "proxy-connection" (delete "host" hs)))))))
      !! name = None).
  { simpl in Hin.
    destruct Hin as [<- | [<- | [<- | [<- | [<- | [<- | [<- | []]]]]]]];
      repeat (first [ apply lookup_delete_eq
                    | rewrite lookup_delete_ne by discriminate ]). }
  unfold outboundHeaders.
  repeat match goal with
         | |- context [if ?b then _ else _] => destruct b
         end;
    try rewrite lookup_insert_ne by congruence; exact Hdel.
Qed.

Lemma outboundHeaders_host :
  forall (hs : gmap string HeaderValue) (parsedUrl : URL) (isHttps : bool),
    JS.truthy (url_hostname parsedUrl) = true ->
    outboundHeaders hs parsedUrl isHttps !! "host" =
      Some (HString (URL_host parsedUrl)).
Proof.
  intros hs u isHttps Hh. unfold outboundHeaders, URL_host. rewrite Hh.
  destruct (JS.truthy (url_port u)) eqn:Hp; simpl.
  - apply lookup_insert_eq.
  - destruct (_ || _); apply lookup_insert_eq.
Qed.

Lemma outboundHeaders_other :
  forall (hs : gmap string HeaderValue) (parsedUrl : URL) (isHttps : bool)
         (name : string),
    name <> "host" ->
    ~ In name strippedHeaders ->
    outboundHeaders hs parsedUrl isHttps !! name = hs !! name.
Proof.
  intros hs u isHttps name Hne Hnin.
  assert (Hdel :
    delete "sec-websocket-protocol"
      (delete "sec-websocket-version"
         (delete "sec-websocket-key"
            (delete "upgrade"
               (delete "connection"
                  (delete "proxy-authorization"
                     (delete "proxy-connection" (delete "host" hs)))))))
      !! name = hs !! name).
  { simpl in Hnin.
    repeat rewrite lookup_delete_ne by (intros <-; tauto). reflexivity. }
  unfold outboundHeaders.
  repeat match goal with
         | |- context [if ?b then _ else _] => destruct b
         end;
    try rewrite lookup_insert_ne by congruence; exact Hdel.
Qed.

Lemma handleHttpRequest_fetch :
  forall (this : HttpsProxy) (rt : Runtime) (req : IncomingMessage)
         (preset : list (string * string)) (isHttps : bool)
         (options : RequestOptions) (printed : list (Level * string)),
    handleHttpRequest this rt req preset = (Fetch isHttps options, printed) ->
    exists targetUrl parsedUrl,
      url req = Some targetUrl /\
      URL_new rt targetUrl = Some parsedUrl /\
      isHttps = String.eqb (protocol parsedUrl) "https:" /\
      o_headers options = outboundHeaders (headers req) parsedUrl isHttps /\
      o_agent options =
        match (createProxyAgent this rt targetUrl false).1 with
        | Some a => UseAgent a
        | None => if isHttps then NewHttpsAgent else NoAgent
        end.
Proof.
  intros this rt req preset isHttps options printed H.
  unfold handleHttpRequest in H.
  destruct (url req) as [targetUrl |]; [| discriminate].
  destruct (negb (JS.truthy targetUrl)); [discriminate |].
  destruct (match method req with Some _ => _ | None => _ end); [discriminate |].
  destruct (_ && _); [destruct (suspiciousHost _); discriminate |].
  destruct (URL_new rt targetUrl) as [parsedUrl |] eqn:Hp; [| discriminate].
  destruct (_ && _); [discriminate |].
  destruct (createProxyAgent this rt targetUrl false) as [proxyAgent out] eqn:Ha.
  injection H as <- <- <-.
  exists targetUrl, parsedUrl. simpl. rewrite Ha. auto.
Qed.

(** C5, as the code has it: when a request is forwarded, the outbound
    headers contain none of [proxy-connection], [proxy-authorization],
    [connection], [upgrade], [sec-websocket-key], [sec-websocket-version]
    and [sec-websocket-protocol]; the inbound [host] is replaced by the
    host of the parsed target, with the port when the parsed URL carries
    one; every other inbound header is copied unchanged. *)
Theorem forward_headers_sanitized :
  forall (this : HttpsProxy) (rt : Runtime) (req : IncomingMessage)
         (preset : list (string * string)) (isHttps : bool)
         (options : RequestOptions) (printed : list (Level * string)),
    handleHttpRequest this rt req preset = (Fetch isHttps options, printed) ->
    exists targetUrl parsedUrl,
      url req = Some targetUrl /\
      URL_new rt targetUrl = Some parsedUrl /\
      (forall name, In name strippedHeaders ->
                    o_headers options !! name = None) /\
      (url_hostname parsedUrl <> "" ->
       o_headers options !! "host" = Some (HString (URL_host parsedUrl))) /\
      (forall name, name <> "host" -> ~ In name strippedHeaders ->
                    o_headers options !! name = headers req !! name).
Proof.
  intros this rt req preset isHttps options printed H.
  destruct (handleHttpRequest_fetch _ _ _ _ _ _ _ H)
    as (targetUrl & parsedUrl & Hu & Hp & _ & Hh & _).
  exists targetUrl, parsedUrl. rewrite Hh.
  repeat split; auto.
  - intros name Hin. apply outboundHeaders_stripped, Hin.
  - intros Hne. apply outboundHeaders_host.
    destruct (url_hostname parsedUrl); [congruence | reflexivity].
  - intros name Hne Hnin. apply outboundHeaders_other; assumption.
Qed.

Lemma forward_headers_sanitized_witness :
  exists targetUrl parsedUrl,
    url Example.pingRequest = Some targetUrl /\
    URL_new Example.node targetUrl = Some parsedUrl /\
    (forall name, In name strippedHeaders ->
                  o_headers Example.pingOptions !! name = None) /\
    (url_hostname parsedUrl <> "" ->
     o_headers Example.pingOptions !! "host" =
       Some (HString (URL_host parsedUrl))) /\
    (forall name, name <> "host" -> ~ In name strippedHeaders ->
                  o_headers Example.pingOptions !! name =
                    headers Example.pingRequest !! name).
Proof.
  apply (forward_headers_sanitized Example.direct Example.node
           Example.pingRequest corsHeaders false Example.pingOptions
           [(LogLevel,
             "🌐 GET http://origin.test:8080/ping - 2025-01-01T00:00:00.000Z")]).
  reflexivity.
Defined.

(** C5, the claim as written fails: an inbound [sec-websocket-extensions]
    header is in the outbound request with its value unchanged. *)
Lemma sec_websocket_extensions_forwarded :
  exists options printed,
    handleHttpRequest Example.direct Example.node Example.upgradeRequest
      corsHeaders = (Fetch false options, printed) /\
    headers Example.upgradeRequest !! "sec-websocket-extensions" =
      Some (HString "permessage-deflate") /\
    o_headers options !! "sec-websocket-extensions" =
      Some (HString "permessage-deflate").
Proof.
  eexists. eexists. split; [reflexivity |]. split; reflexivity.
Qed.

(** *** An upstream proxy with an unknown scheme *)

Lemma createProxyAgent_unknown_scheme :
  forall (this : HttpsProxy) (rt : Runtime) (up : string) (u : URL)
         (targetUrl : string) (isConnectMethod : bool),
    upstreamProxy this = Some up ->
    JS.truthy up = true ->
    URL_new rt up = Some u ->
    ~ In (protocol u) ["socks5:"; "socks4:"; "http:"; "https:"] ->
    createProxyAgent this rt targetUrl isConnectMethod =
      (None, [(ErrorLevel, "❌ 不支持的上游代理协议: " +:+ protocol u)]).
Proof.
  intros this rt up u targetUrl isConnectMethod Hup Ht Hu Hp.
  unfold createProxyAgent. rewrite Hup, Ht, Hu. simpl negb. cbv iota.
  assert (H5 : String.eqb (protocol u) "socks5:" = false)
    by (apply String.eqb_neq; intros E; apply Hp; rewrite E; simpl; auto).
  assert (H4 : String.eqb (protocol u) "socks4:" = false)
    by (apply String.eqb_neq; intros E; apply Hp; rewrite E; simpl; auto).
  assert (Hh : String.eqb (protocol u) "http:" = false)
    by (apply String.eqb_neq; intros E; apply Hp; rewrite E; simpl; auto).
  assert (Hs : String.eqb (protocol u) "https:" = false)
    by (apply String.eqb_neq; intros E; apply Hp; rewrite E; simpl; auto).
  rewrite H5, H4, Hh, Hs. reflexivity.
Qed.

Lemma createProxyAgent_no_upstream :
  forall (this : HttpsProxy) (rt : Runtime) (targetUrl : string)
         (isConnectMethod : bool),
    upstreamProxy this = None ->
    createProxyAgent this rt targetUrl isConnectMethod = (None, []).
Proof.
  intros this rt targetUrl isConnectMethod H. unfold createProxyAgent.
  rewrite H. reflexivity.
Qed.

(** The outcome of [handleHttpRequest] depends on the proxy only through
    its port and the agent that [createProxyAgent] returns. *)
Lemma handleHttpRequest_agent :
  forall (this this' : HttpsProxy) (rt : Runtime) (req : IncomingMessage)
         (preset : list (string * string)),
    port this = port this' ->
    (forall targetUrl,
       (createProxyAgent this rt targetUrl false).1 =
       (createProxyAgent this' rt targetUrl false).1) ->
    (handleHttpRequest this rt req preset).1 =
    (handleHttpRequest this' rt req preset).1.
Proof.
  intros this this' rt req preset Hport Hagent.
  unfold handleHttpRequest.
  destruct (url req) as [targetUrl |]; [| reflexivity].
  destruct (negb (JS.truthy targetUrl)); [reflexivity |].
  destruct (match method req with Some _ => _ | None => _ end); [reflexivity |].
  destruct (_ && _).
  { destruct (suspiciousHost _); [reflexivity |]. rewrite Hport. reflexivity. }
  destruct (URL_new rt targetUrl) as [parsedUrl |]; [| reflexivity].
  destruct (_ && _); [reflexivity |].
  specialize (Hagent targetUrl).
  destruct (createProxyAgent this rt targetUrl false) as [a o].
  destruct (createProxyAgent this' rt targetUrl false) as [a' o'].
  simpl in Hagent. subst a'. reflexivity.
Qed.

Lemma calls_prints :
  forall (entries : list (Level * string)) (st : Conn),
    calls (prints entries st) = calls st /\
    dials (prints entries st) = dials st /\
    client (prints entries st) = client st.
Proof.
  intros entries st. repeat split; reflexivity.
Qed.

Lemma handleConnectViaProxy_no_agent :
  forall (this : HttpsProxy) (rt : Runtime) (hostname : string)
         (targetPort : Z) (head : string) (st : Conn),
    (forall targetUrl, (createProxyAgent this rt targetUrl true).1 = None) ->
    let st' := handleConnectViaProxy this rt hostname targetPort head st in
    dials st' = dials st /\
    (destroyed (client st) = false ->
     calls st' = (calls st ++ badGateway "无法创建代理连接")%list).
Proof.
  intros this rt hostname targetPort head st Hagent st'. subst st'.
  unfold handleConnectViaProxy.
  specialize (Hagent ("https://" +:+ hostname +:+ ":" +:+ num rt targetPort)).
  destruct (createProxyAgent this rt _ true) as [a o]. simpl in Hagent.
  subst a. unfold seq, sendConnectError, when, console_error.
  simpl.
  destruct (destroyed (client st)); simpl.
  - split; [reflexivity | discriminate].
  - split; [reflexivity |]. intros _. unfold badGateway.
    rewrite <- !app_assoc. reflexivity.
Qed.

Lemma sendConnectError_frame :
  forall (status message : string) (st : Conn),
    dials (sendConnectError status message st) = dials st /\
    phase (sendConnectError status message st) = phase st.
Proof.
  intros status message st. unfold sendConnectError, when.
  destruct (negb (destroyed (client st))); split; reflexivity.
Qed.

Lemma handleConnect_no_agent_no_dial :
  forall (this : HttpsProxy) (rt : Runtime) (up : string)
         (req : IncomingMessage) (head : string) (st : Conn),
    upstreamProxy this = Some up ->
    JS.truthy up = true ->
    (forall targetUrl, (createProxyAgent this rt targetUrl true).1 = None) ->
    dials (handleConnect this rt req head st) = dials st.
Proof.
  intros this rt up req head st Hup Ht Hagent.
  unfold handleConnect. rewrite Hup, Ht.
  destruct (url req) as [target |];
    [| unfold seq; rewrite (proj1 (sendConnectError_frame _ _ _)); reflexivity].
  destruct (negb (JS.truthy target));
    [unfold seq; rewrite (proj1 (sendConnectError_frame _ _ _)); reflexivity |].
  destruct (parseTarget rt target) as [hostname targetPort].
  destruct (_ || _);
    [unfold seq; rewrite (proj1 (sendConnectError_frame _ _ _)); reflexivity |].
  destruct (_ || _);
    [unfold seq; rewrite (proj1 (sendConnectError_frame _ _ _)); reflexivity |].
  destruct targetPort as [p |];
    [| unfold seq; rewrite (proj1 (sendConnectError_frame _ _ _)); reflexivity].
  destruct (_ || _);
    [unfold seq; rewrite (proj1 (sendConnectError_frame _ _ _)); reflexivity |].
  unfold seq at 1. simpl client.
  destruct (destroyed (client st) || negb (isOpen (readyState (client st)))).
  { unfold seq. rewrite (proj1 (sendConnectError_frame _ _ _)). reflexivity. }
  unfold seq.
  rewrite (proj1 (handleConnectViaProxy_no_agent this rt hostname p head _ Hagent)).
  unfold setTimeout, setNoDelay, setKeepAlive. simpl.
  destruct (destroyed (client st)); reflexivity.
Qed.

(** C6, as the code has it: with an upstream URL whose scheme is none of
    http, https, socks4 and socks5, [createProxyAgent] returns no agent
    and prints an error; a forward-fetch request is then handled as with
    no upstream; a CONNECT request is never dialled, and a target that
    passed validation is answered with 502 Bad Gateway. *)
Theorem unknown_upstream_scheme :
  forall (this : HttpsProxy) (rt : Runtime) (up : string) (u : URL),
    upstreamProxy this = Some up ->
    JS.truthy up = true ->
    URL_new rt up = Some u ->
    ~ In (protocol u) ["socks5:"; "socks4:"; "http:"; "https:"] ->
    (forall targetUrl isConnectMethod,
       createProxyAgent this rt targetUrl isConnectMethod =
         (None, [(ErrorLevel, "❌ 不支持的上游代理协议: " +:+ protocol u)])) /\
    (forall req preset,
       (handleHttpRequest this rt req preset).1 =
       (handleHttpRequest (mkHttpsProxy (port this) (timeout this) None)
          rt req preset).1) /\
    (forall req head st,
       dials (handleConnect this rt req head st) = dials st) /\
    (forall hostname targetPort head st,
       destroyed (client st) = false ->
       calls (handleConnectViaProxy this rt hostname targetPort head st) =
         (calls st ++ badGateway "无法创建代理连接")%list).
Proof.
  intros this rt up u Hup Ht Hu Hp.
  assert (Hagent : forall targetUrl isConnectMethod,
             createProxyAgent this rt targetUrl isConnectMethod =
               (None, [(ErrorLevel, "❌ 不支持的上游代理协议: " +:+ protocol u)])).
  { intros. eapply createProxyAgent_unknown_scheme; eassumption. }
  split; [exact Hagent |]. split; [| split].
  - intros req preset. apply handleHttpRequest_agent; [reflexivity |].
    intros targetUrl. rewrite Hagent.
    rewrite createProxyAgent_no_upstream by reflexivity. reflexivity.
  - intros req head st. eapply handleConnect_no_agent_no_dial; eauto.
    intros targetUrl. rewrite Hagent. reflexivity.
  - intros hostname targetPort head st Hd.
    apply (handleConnectViaProxy_no_agent this rt hostname targetPort head st);
      [| exact Hd].
    intros targetUrl. rewrite Hagent. reflexivity.
Qed.

Lemma unknown_upstream_scheme_witness :
  (forall targetUrl isConnectMethod,
     createProxyAgent Example.viaFtp Example.node targetUrl isConnectMethod =
       (None, [(ErrorLevel, "❌ 不支持的上游代理协议: " +:+ "ftp:")])) /\
  (forall req preset,
     (handleHttpRequest Example.viaFtp Example.node req preset).1 =
     (handleHttpRequest
        (mkHttpsProxy (port Example.viaFtp) (timeout Example.viaFtp) None)
        Example.node req preset).1) /\
  (forall req head st,
     dials (handleConnect Example.viaFtp Example.node req head st) = dials st) /\
  (forall hostname targetPort head st,
     destroyed (client st) = false ->
     calls (handleConnectViaProxy Example.viaFtp Example.node hostname
              targetPort head st) =
       (calls st ++ badGateway "无法创建代理连接")%list).
Proof.
  apply (unknown_upstream_scheme Example.viaFtp Example.node
           "ftp://up.test:21" (mkURL "ftp:" "up.test" "21" "/" "")).
  - reflexivity.
  - reflexivity.
  - reflexivity.
  - simpl. intros [H | [H | [H | [H | []]]]]; discriminate H.
Defined.

(** C6, the claim as written fails for CONNECT: with the upstream
    [ftp://up.test:21] the request [CONNECT example.com:443] is answered
    with 502 and nothing is dialled, whereas the proxy without an upstream
    dials the target. *)
Lemma unknown_scheme_connect_refused :
  dials (handleConnect Example.direct Example.node
           (Example.connectRequest "example.com:443") ""
           (accepted openSocket)) = [DialTcp "example.com" 443] /\
  dials (handleConnect Example.viaFtp Example.node
           (Example.connectRequest "example.com:443") ""
           (accepted openSocket)) = [] /\
  calls (handleConnect Example.viaFtp Example.node
           (Example.connectRequest "example.com:443") ""
           (accepted openSocket)) =
    ([SetKeepAlive Client 30000; SetNoDelay Client; SetTimeout Client 60000] ++
     badGateway "无法创建代理连接")%list.
Proof. repeat split; reflexivity. Qed.

(** *** Validation of the CONNECT target *)

Lemma split_head :
  forall (h rest : string),
    JS.includes h ":" = false ->
    JS.split ":"%char (h +:+ ":" +:+ rest) = h :: JS.split ":"%char rest.
Proof.
  induction h as [| c h IH]; intros rest Hc.
  - reflexivity.
  - simpl in Hc. apply orb_false_iff in Hc as [Hp Hc].
    change (String c h +:+ ":" +:+ rest) with (String c (h +:+ ":" +:+ rest)).
    simpl. rewrite (IH rest Hc).
    destruct (Ascii.eqb c ":"%char) eqn:E; [| reflexivity].
    apply Ascii.eqb_eq in E. subst c. simpl in Hp. destruct h; discriminate.
Qed.

Lemma includes_colon :
  forall (h rest : string), JS.includes (h +:+ ":" +:+ rest) ":" = true.
Proof.
  induction h as [| c h IH]; intros rest.
  - simpl. destruct rest; reflexivity.
  - change (String c h +:+ ":" +:+ rest) with (String c (h +:+ ":" +:+ rest)).
    simpl. rewrite IH. apply orb_true_r.
Qed.

(** The host is the text before the first colon, the port is read from
    the text between the first colon and the next one. *)
Lemma parseTarget_host_port :
  forall (rt : Runtime) (h rest : string),
    JS.includes h ":" = false ->
    parseTarget rt (h +:+ ":" +:+ rest) =
      (h, JS.parseInt
            (JS.or_default (JS.split ":"%char rest !! 0%nat) "443")).
Proof.
  intros rt h rest Hc. unfold parseTarget.
  rewrite includes_colon, split_head by exact Hc. reflexivity.
Qed.

(** A target without colon: the legacy parser decides, the whole target
    standing in for a host that it does not find. *)
Lemma parseTarget_bare :
  forall (rt : Runtime) (target : string),
    JS.includes target ":" = false ->
    parseTarget rt target =
      (JS.or_default (legacy_hostname (url_parse rt ("//" +:+ target))) target,
       JS.parseInt
         (JS.or_default (legacy_port (url_parse rt ("//" +:+ target))) "443")).
Proof.
  intros rt target Hc. unfold parseTarget. rewrite Hc. reflexivity.
Qed.







Example null_host_rejected :
  calls (handleConnect Example.direct Example.node
           (Example.connectRequest "null:443") "" (accepted openSocket)) =
    badRequest "无效的hostname: null:443".
Proof. reflexivity. Qed.

Example bare_host_defaults_to_443 :
  dials (handleConnect Example.direct Example.node
           (Example.connectRequest "example.com") "" (accepted openSocket)) =
    [DialTcp "example.com" 443].
Proof. reflexivity. Qed.

(** *** The tunnel *)

Lemma append_assoc :
  forall s1 s2 s3 : string, (s1 +:+ s2) +:+ s3 = s1 +:+ s2 +:+ s3.
Proof.
  induction s1 as [| c s1 IH]; intros s2 s3; [reflexivity |].
  change (String c ((s1 +:+ s2) +:+ s3) = String c (s1 +:+ s2 +:+ s3)).
  f_equal. apply IH.
Qed.

Lemma append_empty : forall s : string, s +:+ "" = s.
Proof.
  induction s as [| c s IH]; [reflexivity |].
  change (String c (s +:+ "") = String c s). f_equal. exact IH.
Qed.

Lemma bytesTo_app :
  forall (s : Side) (l1 l2 : list Call),
    bytesTo s (l1 ++ l2) = bytesTo s l1 +:+ bytesTo s l2.
Proof.
  intros s l1 l2. induction l1 as [| c l1 IH]; [reflexivity |].
  destruct c; simpl; try exact IH.
  destruct (side_eqb s0 s); [| exact IH].
  rewrite IH. symmetry. apply append_assoc.
Qed.

Lemma bytesTo_forward :
  forall (s s' : Side) (chunks : list string) (rest : list Call),
    bytesTo s (map (Forward s') chunks ++ rest) = bytesTo s rest.
Proof.
  intros s s' chunks rest. induction chunks as [| d chunks IH]; [reflexivity |].
  simpl. exact IH.
Qed.

Lemma bytesTo_forward_all :
  forall (s s' : Side) (chunks : list string),
    bytesTo s (map (Forward s') chunks) = "".
Proof.
  intros s s' chunks. induction chunks as [| d chunks IH]; [reflexivity |].
  simpl. exact IH.
Qed.

(** The bytes sent to the client by the callback of a successful dial
    through the upstream. *)
Lemma proxyConnected_bytes :
  forall (this : HttpsProxy) (rt : Runtime) (st : Conn)
         (hostname : string) (targetPort : Z) (head proxyHead : string),
    destroyed (client st) = false ->
    phase st = ProxyDialing hostname targetPort head ->
    bytesTo Client (calls (step this rt (Connected proxyHead) st)) =
      bytesTo Client (calls st) +:+ connectionEstablished +:+ proxyHead.
Proof.
  intros this rt [[cd cr ct cp cu] [od or ot op ou] ls cc cs ds co cl ph]
    hostname targetPort head proxyHead Hc Hp.
  simpl in Hc, Hp. subst cd ph.
  unfold step, phase, proxyConnected, setupSocketErrorHandlers, setTimeout.
  destruct (0 <? JS.length head);
    (destruct (0 <? JS.length proxyHead) eqn:Hph;
     [| assert (proxyHead = "") as ->
          by (destruct proxyHead; [reflexivity | discriminate Hph])]);
    destruct (JS.includes hostname "tradingview" || (targetPort =? 443));
    try destruct (timeout this =? 0);
    conn_eval; rewrite <- !app_assoc; rewrite bytesTo_app; f_equal;
    cbn [app bytesTo side_eqb]; rewrite ?append_empty; reflexivity.
Qed.

(** C2: when the dial succeeds and the client socket is still there, the
    bytes written to the client are exactly the response
    [HTTP/1.1 200 Connection Established] with its four headers and the
    empty line, with HTTPS-Proxy/1.0 as the agent, on the direct path; on
    the upstream path the same, followed only by the bytes that came
    after the reply of the upstream. *)
Theorem connect_success_response :
  forall (this : HttpsProxy) (rt : Runtime) (st : Conn)
         (hostname : string) (targetPort : Z) (head proxyHead : string),
    destroyed (client st) = false ->
    (phase st = DirectDialing hostname targetPort head ->
     bytesTo Client (calls (step this rt (Connected proxyHead) st)) =
       bytesTo Client (calls st) +:+ connectionEstablished) /\
    (phase st = ProxyDialing hostname targetPort head ->
     bytesTo Client (calls (step this rt (Connected proxyHead) st)) =
       bytesTo Client (calls st) +:+ connectionEstablished +:+ proxyHead).
Proof.
  intros this rt st hostname targetPort head proxyHead Hc.
  split; intros Hp.
  - destruct st as [[cd cr ct cp cu] [od or ot op ou] ls cc cs ds co cl ph].
    simpl in Hc, Hp. subst cd ph.
    unfold step, phase, directConnected, setupSocketErrorHandlers, setTimeout.
    destruct (0 <? JS.length head);
      destruct (JS.includes hostname "tradingview" || (targetPort =? 443));
      destruct od; try destruct (timeout this =? 0);
      conn_eval; rewrite <- !app_assoc; rewrite bytesTo_app; f_equal;
      cbn [app bytesTo side_eqb]; rewrite !bytesTo_forward;
      cbn [app bytesTo side_eqb]; rewrite !bytesTo_forward_all;
      reflexivity.
  - apply (proxyConnected_bytes this rt st hostname targetPort head proxyHead
             Hc Hp).
Qed.

Lemma connect_success_response_witness :
  (phase (handleConnect Example.direct Example.node
            (Example.connectRequest "example.com:443") ""
            (accepted openSocket)) = DirectDialing "example.com" 443 "" ->
   bytesTo Client
     (calls (step Example.direct Example.node (Connected "")
               (handleConnect Example.direct Example.node
                  (Example.connectRequest "example.com:443") ""
                  (accepted openSocket)))) =
     bytesTo Client
       (calls (handleConnect Example.direct Example.node
                 (Example.connectRequest "example.com:443") ""
                 (accepted openSocket))) +:+ connectionEstablished) /\
  (phase (handleConnect Example.direct Example.node
            (Example.connectRequest "example.com:443") ""
            (accepted openSocket)) = ProxyDialing "example.com" 443 "" ->
   bytesTo Client
     (calls (step Example.direct Example.node (Connected "")
               (handleConnect Example.direct Example.node
                  (Example.connectRequest "example.com:443") ""
                  (accepted openSocket)))) =
     bytesTo Client
       (calls (handleConnect Example.direct Example.node
                 (Example.connectRequest "example.com:443") ""
                 (accepted openSocket))) +:+ connectionEstablished +:+ "").
Proof.
  apply (connect_success_response Example.direct Example.node
           (handleConnect Example.direct Example.node
              (Example.connectRequest "example.com:443") ""
              (accepted openSocket))
           "example.com" 443 "" "").
  reflexivity.
Defined.

Example direct_response_bytes :
  bytesTo Client
    (calls (run Example.direct Example.node [Connected ""]
              (handleConnect Example.direct Example.node
                 (Example.connectRequest "example.com:443") "hello"
                 (accepted openSocket)))) = connectionEstablished.
Proof. reflexivity. Qed.

Example upstream_response_bytes :
  bytesTo Client
    (calls (run Example.viaHttp Example.node [Connected "early"]
              (handleConnect Example.viaHttp Example.node
                 (Example.connectRequest "example.com:443") "hello"
                 (accepted openSocket)))) =
    connectionEstablished +:+ "early".
Proof. reflexivity. Qed.

(** *** The flag of [cleanup] *)

Lemma sameCore_flagInvariant :
  forall st st', sameCore st st' -> flagInvariant st -> flagInvariant st'.
Proof.
  intros st st' (Hc & Ho & _ & Hf & Hn & _) [H1 H2].
  unfold flagInvariant. rewrite Hc, Ho, Hf, Hn. split; assumption.
Qed.

(** What [cleanup] does to the part of the state that matters. *)
Lemma cleanup_spec :
  forall st,
    flagInvariant st ->
    flagInvariant (cleanup st) /\
    connectionClosed (cleanup st) = true /\
    listeners (cleanup st) = listeners st /\
    phase (cleanup st) = phase st.
Proof.
  intros [[cd cr ct cp cu] [od or ot op ou] ls cc cs ds co cl ph] [H1 H2].
  simpl in H1, H2. unfold cleanup. simpl connectionClosed at 1.
  destruct cc.
  - simpl. destruct (H2 eq_refl) as (? & ? & ?). unfold flagInvariant. simpl.
    repeat split; auto.
  - specialize (H1 eq_refl). subst cl.
    destruct cd, od; conn_eval; unfold flagInvariant; simpl;
      repeat split; auto; discriminate.
Qed.

(** The calls of [cleanup]: a socket that is not destroyed yet is
    unpiped and then destroyed; a second run does nothing. *)
Lemma cleanup_calls :
  forall st,
    calls (cleanup st) =
      (calls st ++
       if connectionClosed st then []
       else
         (if destroyed (client st) then []
          else [Unpipe Client; Destroy Client]) ++
         (if destroyed (outbound st) then []
          else [Unpipe Outbound; Destroy Outbound]))%list.
Proof.
  intros [[cd cr ct cp cu] [od or ot op ou] ls cc cs ds co cl ph].
  unfold cleanup. simpl connectionClosed. simpl destroyed.
  destruct cc; [simpl; rewrite app_nil_r; reflexivity |].
  destruct cd, od; conn_eval; simpl; rewrite <- ?app_assoc, ?app_nil_r;
    reflexivity.
Qed.

Lemma cleanup_after :
  forall st st',
    sameCore st st' ->
    flagInvariant st ->
    flagInvariant (cleanup st') /\
    listeners (cleanup st') = listeners st /\
    phase (cleanup st') = phase st /\
    connectionClosed (cleanup st') = true.
Proof.
  intros st st' Hs Hf.
  destruct (cleanup_spec st' (sameCore_flagInvariant st st' Hs Hf))
    as (H1 & H2 & H3 & H4).
  destruct Hs as (_ & _ & Hl & _ & _ & Hp).
  rewrite H3, H4, Hl, Hp. auto.
Qed.

Lemma sameCore_after :
  forall st st',
    sameCore st st' ->
    flagInvariant st ->
    flagInvariant st' /\
    listeners st' = listeners st /\
    phase st' = phase st /\
    (connectionClosed st = true -> connectionClosed st' = true).
Proof.
  intros st st' Hs Hf. split; [eapply sameCore_flagInvariant; eassumption |].
  destruct Hs as (_ & _ & Hl & Hc & _ & Hp). rewrite Hl, Hc, Hp. auto.
Qed.

(** Every listener keeps the flag and the counter in agreement, leaves
    the listeners and the phase alone, never lowers the flag, and raises
    it when it is one of those that call [cleanup]. *)
Lemma run_handler_spec :
  forall (rt : Runtime) (h : Handler) (arg : EventArg) (st : Conn),
    flagInvariant st ->
    flagInvariant (run_handler rt h arg st) /\
    listeners (run_handler rt h arg st) = listeners st /\
    phase (run_handler rt h arg st) = phase st /\
    (connectionClosed st = true ->
     connectionClosed (run_handler rt h arg st) = true) /\
    (cleans h = true -> connectionClosed (run_handler rt h arg st) = true).
Proof.
  intros rt h arg st Hf.
  assert (Hclean : forall st',
            sameCore st st' ->
            flagInvariant (cleanup st') /\
            listeners (cleanup st') = listeners st /\
            phase (cleanup st') = phase st /\
            (connectionClosed st = true -> connectionClosed (cleanup st') = true) /\
            (true = true -> connectionClosed (cleanup st') = true)).
  { intros st' Hs. destruct (cleanup_after st st' Hs Hf) as (? & ? & ? & ?).
    auto. }
  assert (Hsame : forall st',
            sameCore st st' ->
            flagInvariant st' /\
            listeners st' = listeners st /\
            phase st' = phase st /\
            (connectionClosed st = true -> connectionClosed st' = true) /\
            (false = true -> connectionClosed st' = true)).
  { intros st' Hs. destruct (sameCore_after st st' Hs Hf) as (? & ? & ? & ?).
    split; [| split; [| split; [| split]]]; auto. intros E; discriminate E. }
  destruct h; unfold run_handler, seq; cbn [cleans];
    try (apply Hclean; settle_conditions; repeat split; reflexivity).
  - (* DirectDialError *)
    apply Hsame. unfold sendConnectError, when. settle_conditions;
      repeat split; reflexivity.
  - (* PipeError *)
    apply Hsame. settle_conditions; repeat split; reflexivity.
  - (* ResponseWritten *)
    destruct arg; try (apply Hsame; repeat split; reflexivity).
    destruct st as [[cd cr ct cp cu] [od or ot op ou] ls cc cs ds co cl ph].
    destruct Hf as [H1 H2]. simpl in H1, H2. clear Hclean Hsame.
    conn_eval. unfold flagInvariant. simpl.
    destruct cc; intuition congruence.
Qed.

Lemma fold_handlers_spec :
  forall (rt : Runtime) (arg : EventArg) (fired : list Listener) (st : Conn),
    flagInvariant st ->
    let st' :=
      fold_left (fun acc l => run_handler rt (l_handler l) arg acc) fired st in
    flagInvariant st' /\
    listeners st' = listeners st /\
    phase st' = phase st /\
    (connectionClosed st = true -> connectionClosed st' = true) /\
    (existsb (fun l => cleans (l_handler l)) fired = true ->
     connectionClosed st' = true).
Proof.
  intros rt arg fired. induction fired as [| l fired IH]; intros st Hf; simpl.
  - split; [exact Hf |]. repeat split; auto. intros E; discriminate E.
  - destruct (run_handler_spec rt (l_handler l) arg st Hf)
      as (Hf1 & Hl1 & Hp1 & Hm1 & Hc1).
    destruct (IH _ Hf1) as (Hf2 & Hl2 & Hp2 & Hm2 & Hc2).
    rewrite Hl2, Hp2, Hl1, Hp1. split; [exact Hf2 |]. repeat split; auto.
    intros He. apply orb_true_iff in He as [He | He]; auto.
Qed.

Lemma existsb_filter :
  forall (A : Type) (p q : A -> bool) (l : list A),
    existsb p (List.filter q l) = existsb (fun x => q x && p x) l.
Proof.
  intros A p q l. induction l as [| x l IH]; [reflexivity |].
  simpl. destruct (q x); simpl; rewrite IH; reflexivity.
Qed.

Lemma existsb_kept :
  forall (A : Type) (p q : A -> bool) (l : list A),
    (forall x, p x = true -> q x = true) ->
    existsb p l = true ->
    existsb p (List.filter q l) = true.
Proof.
  intros A p q l Hpq H. rewrite existsb_filter.
  apply existsb_exists in H as (x & Hin & Hx).
  apply existsb_exists. exists x. split; [exact Hin |].
  rewrite (Hpq x Hx), Hx. reflexivity.
Qed.

Lemma existsb_weaken :
  forall (A : Type) (p q : A -> bool) (l : list A),
    (forall x, p x = true -> q x = true) ->
    existsb p l = true ->
    existsb q l = true.
Proof.
  intros A p q l Hpq H. apply existsb_exists in H as (x & Hin & Hx).
  apply existsb_exists. exists x. auto.
Qed.

(** [emit]: the one-shot listeners of the event go, the flag never goes
    down, and it goes up when a listener of the event calls [cleanup]. *)
Lemma emit_spec :
  forall (rt : Runtime) (s : Side) (e : EventName) (arg : EventArg)
         (st : Conn),
    flagInvariant st ->
    flagInvariant (emit rt s e arg st) /\
    listeners (emit rt s e arg st) =
      List.filter (fun l => negb (listens s e l && l_once l)) (listeners st) /\
    phase (emit rt s e arg st) = phase st /\
    (connectionClosed st = true -> connectionClosed (emit rt s e arg st) = true) /\
    (existsb (fun l => listens s e l && cleans (l_handler l)) (listeners st)
       = true ->
     connectionClosed (emit rt s e arg st) = true).
Proof.
  intros rt s e arg st Hf. unfold emit.
  set (kept :=
         List.filter (fun l => negb (listens s e l && l_once l)) (listeners st)).
  assert (Hk : flagInvariant (set_listeners kept st)) by exact Hf.
  destruct (fold_handlers_spec rt arg (List.filter (listens s e) (listeners st))
              (set_listeners kept st) Hk) as (H1 & H2 & H3 & H4 & H5).
  split; [exact H1 |]. repeat split; auto.
  intros He. apply H5. rewrite existsb_filter. exact He.
Qed.

Lemma side_eqb_refl : forall s, side_eqb s s = true.
Proof. destruct s; reflexivity. Qed.

Lemma guards_listens :
  forall s e l, guards s e l = true -> listens s e l && cleans (l_handler l) = true.
Proof.
  intros s e l H. unfold guards in H.
  apply andb_true_iff in H as [H Hc]. apply andb_true_iff in H as [Hl _].
  rewrite Hl, Hc. reflexivity.
Qed.

Lemma guards_kept :
  forall s e s' e' l,
    guards s' e' l = true -> negb (listens s e l && l_once l) = true.
Proof.
  intros s e s' e' l H. unfold guards in H.
  apply andb_true_iff in H as [H _]. apply andb_true_iff in H as [_ Ho].
  destruct (l_once l); [discriminate Ho |]. rewrite andb_false_r. reflexivity.
Qed.

Lemma guardsTimeout_kept :
  forall s s' l,
    guardsTimeout s' l = true ->
    negb (listens s EvWritten l && l_once l) = true.
Proof.
  intros s s' l H. unfold guardsTimeout, listens in *.
  apply andb_true_iff in H as [H _]. apply andb_true_iff in H as [_ He].
  destruct (l_event l); try discriminate He.
  rewrite andb_false_r. reflexivity.
Qed.

Lemma emit_armed :
  forall (rt : Runtime) (s : Side) (e : EventName) (arg : EventArg)
         (st : Conn),
    armed st ->
    armed (emit rt s e arg st) /\
    (connectionClosed st = true -> connectionClosed (emit rt s e arg st) = true) /\
    (e <> EvWritten -> connectionClosed (emit rt s e arg st) = true).
Proof.
  intros rt s e arg st (Hd & Hg & Ht & Hf).
  destruct (emit_spec rt s e arg st Hf) as (Hf' & Hl & Hp & Hm & Hc).
  assert (Hterm : e <> EvWritten -> connectionClosed (emit rt s e arg st) = true).
  { intros Hne. destruct (connectionClosed st) eqn:Hcc; [auto |].
    apply Hc. destruct Ht as [Ht | Ht]; [discriminate Ht |].
    destruct e.
    - eapply existsb_weaken; [apply guards_listens | apply Hg; auto].
    - eapply existsb_weaken; [apply guards_listens | apply Hg; auto].
    - exact (Ht s).
    - eapply existsb_weaken; [apply guards_listens | apply Hg; auto].
    - congruence. }
  split; [| auto].
  unfold armed. rewrite Hl, Hp.
  split; [exact Hd |]. split; [| split; [| exact Hf']].
  - intros s' e' He'. eapply existsb_kept; [apply guards_kept | apply Hg, He'].
  - destruct Ht as [Ht | Ht]; [left; auto |].
    destruct e; try (left; apply Hterm; discriminate).
    right. intros s'.
    eapply existsb_kept; [apply guardsTimeout_kept | apply Ht].
Qed.

(** A step that only adds listeners, destroys sockets or changes what is
    outside the flag keeps a tunnel set up. *)
Lemma armed_extend :
  forall (st st' : Conn) (extra : list Listener),
    armed st ->
    dialOver (phase st') = true ->
    listeners st' = (listeners st ++ extra)%list ->
    connectionClosed st' = connectionClosed st ->
    cleanups st' = cleanups st ->
    (destroyed (client st) = true -> destroyed (client st') = true) ->
    (destroyed (outbound st) = true -> destroyed (outbound st') = true) ->
    armed st'.
Proof.
  intros st st' extra (Hd & Hg & Ht & Hf1 & Hf2) Hp Hl Hc Hn Hdc Hdo.
  unfold armed, flagInvariant. rewrite Hl, Hc, Hn.
  split; [exact Hp |]. split; [| split; [| split]].
  - intros s e He. rewrite existsb_app, (Hg s e He). reflexivity.
  - destruct Ht as [Ht | Ht]; [left; exact Ht |].
    right. intros s. rewrite existsb_app, (Ht s). reflexivity.
  - exact Hf1.
  - intros Hcc. destruct (Hf2 Hcc) as (? & ? & ?). auto.
Qed.

Lemma step_armed :
  forall (this : HttpsProxy) (rt : Runtime) (ev : Env) (st : Conn),
    armed st ->
    armed (step this rt ev st) /\
    (connectionClosed st = true ->
     connectionClosed (step this rt ev st) = true) /\
    (terminal ev = true -> connectionClosed (step this rt ev st) = true).
Proof.
  intros this rt ev st Ha.
  assert (Hd : dialOver (phase st) = true) by apply Ha.
  destruct ev as [proxyHead | err | | | s e arg | s | s chunk].
  - (* Connected *)
    unfold step. destruct (phase st); try discriminate Hd;
      (split; [exact Ha | split; [auto | discriminate]]).
  - (* RequestError *)
    unfold step. destruct (phase st); try discriminate Hd;
      (split; [exact Ha | split; [auto | discriminate]]).
  - (* RequestTimeout *)
    unfold step. destruct (phase st); try discriminate Hd;
      (split; [exact Ha | split; [auto | discriminate]]).
  - (* Tick *)
    unfold step. destruct (phase st) eqn:Hp;
      try (split; [exact Ha | split; [auto | discriminate]]).
    destruct st as [[cd cr ct cp cu] [od or ot op ou] ls cc cs ds co cl ph].
    unfold proxyTick. simpl destroyed.
    destruct (cd || od).
    + conn_eval. split; [| split; [auto | discriminate]].
      apply (armed_extend _ _ [] Ha); try reflexivity; auto.
      simpl. rewrite app_nil_r. reflexivity.
    + conn_eval. split; [| split; [auto | discriminate]].
      eapply (armed_extend _ _ _ Ha); try reflexivity; auto.
      simpl. rewrite <- app_assoc. reflexivity.
  - (* Emit *)
    unfold step. destruct (emit_armed rt s e arg st Ha) as (H1 & H2 & H3).
    split; [exact H1 | split; [exact H2 |]].
    intros Ht. apply H3. destruct e; try discriminate; discriminate Ht.
  - (* RuntimeDestroy *)
    unfold step.
    destruct st as [[cd cr ct cp cu] [od or ot op ou] ls cc cs ds co cl ph].
    destruct s; conn_eval; (split; [| split; [auto | discriminate]]);
      apply (armed_extend _ _ [] Ha); try reflexivity; auto;
      simpl; rewrite app_nil_r; reflexivity.
  - (* Data *)
    unfold step, receive.
    destruct st as [[cd cr ct cp cu] [od or ot op ou] ls cc cs ds co cl ph].
    destruct s; simpl sock; simpl destroyed; simpl piped;
      settle_conditions; conn_eval;
      (split; [| split; [auto | discriminate]]);
      try exact Ha;
      apply (armed_extend _ _ [] Ha); try reflexivity; auto;
      simpl; rewrite app_nil_r; reflexivity.
Qed.

Lemma run_armed :
  forall (this : HttpsProxy) (rt : Runtime) (evs : list Env) (st : Conn),
    armed st ->
    armed (run this rt evs st) /\
    (connectionClosed st = true ->
     connectionClosed (run this rt evs st) = true) /\
    (existsb terminal evs = true ->
     connectionClosed (run this rt evs st) = true).
Proof.
  intros this rt evs. induction evs as [| ev evs IH]; intros st Ha.
  - simpl. split; [exact Ha | split; [auto | discriminate]].
  - destruct (step_armed this rt ev st Ha) as (H1 & H2 & H3).
    destruct (IH _ H1) as (I1 & I2 & I3).
    change (run this rt (ev :: evs) st) with (run this rt evs (step this rt ev st)).
    split; [exact I1 | split; [auto |]].
    intros Ht. simpl in Ht. apply orb_true_iff in Ht as [Ht | Ht]; auto.
Qed.

(** The state right after the callback of a successful dial, the client
    socket being there: the tunnel is set up, the flag is down, and both
    sockets carry the idle time chosen by [setupSocketErrorHandlers]. *)
Lemma connected_armed :
  forall (this : HttpsProxy) (rt : Runtime) (st : Conn)
         (hostname : string) (targetPort : Z) (head proxyHead : string),
    timeout this <> 0 ->
    cleanups st = 0%nat ->
    destroyed (client st) = false ->
    (phase st = DirectDialing hostname targetPort head /\
     destroyed (outbound st) = false) \/
    phase st = ProxyDialing hostname targetPort head ->
    let st' := step this rt (Connected proxyHead) st in
    let timeoutMs :=
      if JS.includes hostname "tradingview" || (targetPort =? 443)
      then 60000 else timeout this in
    armed st' /\
    connectionClosed st' = false /\
    destroyed (client st') = false /\
    destroyed (outbound st') = false /\
    idleTimeout (client st') = timeoutMs /\
    idleTimeout (outbound st') = timeoutMs.
Proof.
  intros this rt [[cd cr ct cp cu] [od or ot op ou] ls cc cs ds co cl ph]
    hostname targetPort head proxyHead Ht Hn Hc Hp.
  simpl in Hn, Hc, Hp. subst cl cd.
  assert (Hz : (timeout this =? 0) = false) by (apply Z.eqb_neq; exact Ht).
  assert (Harmed : forall st' before extra,
            listeners st' =
              (before ++
               [mkListener Client EvError false (ClientError hostname targetPort);
                mkListener Client EvClose false (ClientClose hostname targetPort);
                mkListener Outbound EvError false (ServerError hostname targetPort);
                mkListener Outbound EvClose false (ServerClose hostname targetPort);
                mkListener Client EvTimeout true (ClientTimeout hostname targetPort);
                mkListener Outbound EvTimeout true (ServerTimeout hostname targetPort);
                mkListener Client EvEnd false ClientEnd;
                mkListener Outbound EvEnd false ServerEnd] ++ extra)%list ->
            dialOver (phase st') = true ->
            connectionClosed st' = false ->
            cleanups st' = 0%nat ->
            armed st').
  { intros st' before extra Hl Hd Hcc Hcl. unfold armed, flagInvariant.
    rewrite Hl, Hcc, Hcl. split; [exact Hd |]. split; [| split; [| split]].
    - intros s e He. rewrite !existsb_app. apply orb_true_iff. right.
      apply orb_true_iff. left.
      destruct s; destruct He as [-> | [-> | ->]]; reflexivity.
    - right. intros s. rewrite !existsb_app. apply orb_true_iff. right.
      apply orb_true_iff. left. destruct s; reflexivity.
    - reflexivity.
    - discriminate. }
  destruct Hp as [[Hp Ho] | Hp]; simpl in Hp; subst ph.
  - simpl in Ho. subst od.
    unfold step, phase, directConnected, setupSocketErrorHandlers, setTimeout.
    destruct (0 <? JS.length head);
      destruct (JS.includes hostname "tradingview" || (targetPort =? 443));
      rewrite ?Hz; conn_eval;
      (split;
       [apply (Harmed _ ls
                 [mkListener Client EvError false
                    (PipeError "serverSocket->socket" false hostname targetPort);
                  mkListener Outbound EvError false
                    (PipeError "socket->serverSocket" false hostname targetPort)]);
        try reflexivity; simpl; rewrite <- !app_assoc; reflexivity
       | repeat split; reflexivity]).
  - unfold step, phase, proxyConnected, setupSocketErrorHandlers, setTimeout.
    destruct (0 <? JS.length head); destruct (0 <? JS.length proxyHead);
      destruct (JS.includes hostname "tradingview" || (targetPort =? 443));
      rewrite ?Hz; conn_eval;
      (split;
       [apply (Harmed _
                 (ls ++ [mkListener Client EvWritten true
                           (ResponseWritten hostname targetPort)])%list []);
        try reflexivity; simpl; rewrite <- !app_assoc; reflexivity
       | repeat split; reflexivity]).
Qed.

(** *** The turn in which [cleanup] runs *)

Lemma run_app :
  forall (this : HttpsProxy) (rt : Runtime) (l1 l2 : list Env) (st : Conn),
    run this rt (l1 ++ l2)%list st = run this rt l2 (run this rt l1 st).
Proof. intros this rt l1 l2 st. unfold run. apply fold_left_app. Qed.

(** A listener other than the callback of a write, run while the flag is
    down: either the flag stays down, and then no socket is destroyed or
    unpiped; or [cleanup] runs, and then each socket that was not
    destroyed is unpiped and destroyed, and a socket that was destroyed
    is left as it is. *)
Lemma run_handler_open :
  forall (rt : Runtime) (h : Handler) (arg : EventArg) (st : Conn),
    isWriteCallback h = false ->
    connectionClosed st = false ->
    let st' := run_handler rt h arg st in
    (connectionClosed st' = false /\
     (forall s, destroyed (sock s st') = destroyed (sock s st)) /\
     (forall s, piped (sock s st') = piped (sock s st)) /\
     exists added,
       calls st' = (calls st ++ added)%list /\
       forall s, existsb (isUnpipe s) added = false) \/
    (connectionClosed st' = true /\
     destroyed (client st') = true /\ destroyed (outbound st') = true /\
     forall s,
       (destroyed (sock s st) = false ->
        piped (sock s st') = false /\
        exists pre post,
          calls st' = (calls st ++ pre ++ unpipeAndDestroy s ++ post)%list) /\
       (destroyed (sock s st) = true ->
        piped (sock s st') = piped (sock s st) /\
        exists added,
          calls st' = (calls st ++ added)%list /\
          existsb (isUnpipe s) added = false)).
Proof.
  intros rt h arg [[cd cr ct cp cu] [od or ot op ou] ls cc cs ds co cl ph]
    Hh Hc.
  simpl in Hc. subst cc.
  destruct h; try discriminate Hh; unfold run_handler; cbv zeta;
    destruct cd, od; settle_conditions; conn_eval;
    rewrite <- ?app_assoc; cbn [app];
    first
      [ left; split; [reflexivity |];
        split; [intros []; reflexivity |];
        split; [intros []; reflexivity |];
        first [ exists []; rewrite app_nil_r;
                split; [reflexivity | intros []; reflexivity]
              | eexists; split; [reflexivity | intros []; reflexivity] ]
      | right; split; [reflexivity |];
        split; [reflexivity |]; split; [reflexivity |];
        intros []; (split; intros Hs; simpl in Hs; try discriminate Hs);
        (split; [reflexivity |]);
        first
          [ exists [], []; reflexivity
          | exists [], (unpipeAndDestroy Outbound); reflexivity
          | exists (unpipeAndDestroy Client), []; reflexivity
          | exists []; rewrite app_nil_r; split; reflexivity
          | eexists; split; reflexivity ] ].
Qed.

(** Any listener run after [cleanup]: the flag stays up, the sockets stay
    destroyed and as they are piped, the phase stays, and calls are only
    added, none of them an unpipe. *)
Lemma run_handler_shut :
  forall (rt : Runtime) (h : Handler) (arg : EventArg) (st : Conn),
    connectionClosed st = true ->
    destroyed (client st) = true ->
    destroyed (outbound st) = true ->
    let st' := run_handler rt h arg st in
    connectionClosed st' = true /\
    destroyed (client st') = true /\ destroyed (outbound st') = true /\
    (forall s, piped (sock s st') = piped (sock s st)) /\
    phase st' = phase st /\
    exists added,
      calls st' = (calls st ++ added)%list /\
      forall s, existsb (isUnpipe s) added = false.
Proof.
  intros rt h arg [[cd cr ct cp cu] [od or ot op ou] ls cc cs ds co cl ph]
    Hc Hcd Hod.
  simpl in Hc, Hcd, Hod. subst cc cd od.
  destruct h; destruct arg; unfold run_handler; cbv zeta;
    settle_conditions; conn_eval;
    (split; [reflexivity |]); (split; [reflexivity |]);
    (split; [reflexivity |]); (split; [intros []; reflexivity |]);
    (split; [reflexivity |]);
    first [ exists []; rewrite app_nil_r;
            split; [reflexivity | intros []; reflexivity]
          | eexists; split; [reflexivity | intros []; reflexivity] ].
Qed.

Lemma fold_handlers_shut :
  forall (rt : Runtime) (arg : EventArg) (fired : list Listener) (st : Conn),
    connectionClosed st = true ->
    destroyed (client st) = true ->
    destroyed (outbound st) = true ->
    let st' :=
      fold_left (fun acc l => run_handler rt (l_handler l) arg acc) fired st in
    connectionClosed st' = true /\
    destroyed (client st') = true /\ destroyed (outbound st') = true /\
    (forall s, piped (sock s st') = piped (sock s st)) /\
    phase st' = phase st /\
    exists added,
      calls st' = (calls st ++ added)%list /\
      forall s, existsb (isUnpipe s) added = false.
Proof.
  intros rt arg fired. induction fired as [| l fired IH];
    intros st Hc Hcd Hod; simpl.
  - split; [exact Hc |]. split; [exact Hcd |]. split; [exact Hod |].
    split; [reflexivity |]. split; [reflexivity |].
    exists []. rewrite app_nil_r. split; reflexivity.
  - destruct (run_handler_shut rt (l_handler l) arg st Hc Hcd Hod)
      as (H1 & H2 & H3 & H4 & H5 & a1 & Ha1 & Hu1).
    destruct (IH _ H1 H2 H3) as (I1 & I2 & I3 & I4 & I5 & a2 & Ha2 & Hu2).
    split; [exact I1 |]. split; [exact I2 |]. split; [exact I3 |].
    split; [intros s; rewrite I4; apply H4 |].
    split; [rewrite I5; exact H5 |].
    exists (a1 ++ a2)%list. split.
    + rewrite Ha2, Ha1, app_assoc. reflexivity.
    + intros s. rewrite existsb_app, Hu1, Hu2. reflexivity.
Qed.

(** The listeners of one event, none of them the callback of a write, run
    from a state with the flag down: if the flag is up at the end, each
    socket that was not destroyed has been unpiped and then destroyed,
    and a socket that was destroyed has been left as it was. *)
Lemma fold_handlers_open :
  forall (rt : Runtime) (arg : EventArg) (fired : list Listener) (st : Conn),
    forallb (fun l => negb (isWriteCallback (l_handler l))) fired = true ->
    connectionClosed st = false ->
    let st' :=
      fold_left (fun acc l => run_handler rt (l_handler l) arg acc) fired st in
    connectionClosed st' = true ->
    forall s,
      (destroyed (sock s st) = false ->
       piped (sock s st') = false /\
       exists pre post,
         calls st' = (calls st ++ pre ++ unpipeAndDestroy s ++ post)%list) /\
      (destroyed (sock s st) = true ->
       piped (sock s st') = piped (sock s st) /\
       exists added,
         calls st' = (calls st ++ added)%list /\
         existsb (isUnpipe s) added = false).
Proof.
  intros rt arg fired. induction fired as [| l fired IH];
    intros st Hw Hc; simpl.
  - intros Hc'. congruence.
  - simpl in Hw. apply andb_true_iff in Hw as [Hl Hw].
    apply negb_true_iff in Hl.
    destruct (run_handler_open rt (l_handler l) arg st Hl Hc)
      as [(H1 & H2 & Hp1 & a1 & Ha1 & Hu1) | (H1 & H2 & H3 & H4)].
    + intros Hc' s. destruct (IH _ Hw H1 Hc' s) as [Ialive Idead].
      rewrite H2 in Ialive, Idead. split; intros Hs.
      * destruct (Ialive Hs) as (Hp & pre & post & Hcalls).
        split; [exact Hp |]. exists (a1 ++ pre)%list, post.
        rewrite Hcalls, Ha1, <- !app_assoc. reflexivity.
      * destruct (Idead Hs) as (Hp & added & Hcalls & Hu).
        split; [rewrite Hp; apply Hp1 |]. exists (a1 ++ added)%list. split.
        -- rewrite Hcalls, Ha1, <- !app_assoc. reflexivity.
        -- rewrite existsb_app, Hu1, Hu. reflexivity.
    + intros _ s.
      destruct (fold_handlers_shut rt arg fired _ H1 H2 H3)
        as (_ & _ & _ & I4 & _ & a2 & Ha2 & Hu2).
      destruct (H4 s) as [Halive Hdead]. split; intros Hs.
      * destruct (Halive Hs) as (Hp & pre & post & Hcalls).
        split; [rewrite I4; exact Hp |]. exists pre, (post ++ a2)%list.
        rewrite Ha2, Hcalls, <- !app_assoc. reflexivity.
      * destruct (Hdead Hs) as (Hp & added & Hcalls & Hu).
        split; [rewrite I4; exact Hp |]. exists (added ++ a2)%list. split.
        -- rewrite Ha2, Hcalls, <- !app_assoc. reflexivity.
        -- rewrite existsb_app, Hu, Hu2. reflexivity.
Qed.

(** The callbacks of a write leave the flag as it is. *)
Lemma fold_callbacks_flag :
  forall (rt : Runtime) (arg : EventArg) (fired : list Listener) (st : Conn),
    forallb (fun l => isWriteCallback (l_handler l)) fired = true ->
    connectionClosed
      (fold_left (fun acc l => run_handler rt (l_handler l) arg acc) fired st)
      = connectionClosed st.
Proof.
  intros rt arg fired. induction fired as [| l fired IH]; intros st Hw; simpl.
  - reflexivity.
  - simpl in Hw. apply andb_true_iff in Hw as [Hl Hw].
    rewrite (IH _ Hw).
    destruct (l_handler l); try discriminate Hl.
    destruct arg; reflexivity.
Qed.

Lemma cleanup_listeners :
  forall st, listeners (cleanup st) = listeners st.
Proof.
  intros [[cd cr ct cp cu] [od or ot op ou] ls cc cs ds co cl ph].
  unfold cleanup. simpl connectionClosed.
  destruct cc, cd, od; conn_eval; reflexivity.
Qed.

Lemma run_handler_listeners :
  forall (rt : Runtime) (h : Handler) (arg : EventArg) (st : Conn),
    listeners (run_handler rt h arg st) = listeners st.
Proof.
  intros rt h arg st.
  destruct h; unfold run_handler, seq;
    try (settle_conditions; rewrite cleanup_listeners; reflexivity).
  - unfold sendConnectError, when. settle_conditions; reflexivity.
  - settle_conditions; reflexivity.
  - destruct arg; reflexivity.
Qed.

Lemma fold_handlers_listeners :
  forall (rt : Runtime) (arg : EventArg) (fired : list Listener) (st : Conn),
    listeners
      (fold_left (fun acc l => run_handler rt (l_handler l) arg acc) fired st)
      = listeners st.
Proof.
  intros rt arg fired. induction fired as [| l fired IH]; intros st; simpl.
  - reflexivity.
  - rewrite IH. apply run_handler_listeners.
Qed.

Lemma forallb_kept :
  forall (A : Type) (p q : A -> bool) (l : list A),
    forallb p l = true -> forallb p (List.filter q l) = true.
Proof.
  intros A p q l. induction l as [| x l IH]; [auto |].
  simpl. intros H. apply andb_true_iff in H as [Hx Hl].
  destruct (q x); simpl; [rewrite Hx |]; auto.
Qed.

(** Every turn of the event loop keeps the listeners in their places. *)
Lemma step_callbackOnly :
  forall (this : HttpsProxy) (rt : Runtime) (ev : Env) (st : Conn),
    forallb callbackOnly (listeners st) = true ->
    forallb callbackOnly (listeners (step this rt ev st)) = true.
Proof.
  intros this rt ev st H.
  destruct ev as [proxyHead | err | | | s e arg | s | s chunk].
  - destruct st as [[cd cr ct cp cu] [od or ot op ou] ls cc cs ds co cl ph].
    simpl in H. unfold step, phase. destruct ph; try exact H.
    + unfold directConnected, setupSocketErrorHandlers, setTimeout.
      destruct cd, od; settle_conditions; conn_eval;
        rewrite <- ?app_assoc, ?forallb_app, ?H; reflexivity.
    + unfold proxyConnected, setupSocketErrorHandlers, setTimeout.
      destruct cd; settle_conditions; conn_eval;
        rewrite <- ?app_assoc, ?forallb_app, ?H; reflexivity.
  - destruct st as [[cd cr ct cp cu] [od or ot op ou] ls cc cs ds co cl ph].
    simpl in H. unfold step, phase. destruct ph; try exact H.
    destruct cd; conn_eval; exact H.
  - destruct st as [[cd cr ct cp cu] [od or ot op ou] ls cc cs ds co cl ph].
    simpl in H. unfold step, phase. destruct ph; try exact H.
    destruct cd; conn_eval; exact H.
  - destruct st as [[cd cr ct cp cu] [od or ot op ou] ls cc cs ds co cl ph].
    simpl in H. unfold step, phase. destruct ph; try exact H.
    unfold proxyTick. simpl destroyed.
    destruct (cd || od); conn_eval;
      rewrite <- ?app_assoc, ?forallb_app, ?H; reflexivity.
  - unfold step, emit. rewrite fold_handlers_listeners.
    apply forallb_kept, H.
  - destruct st as [[cd cr ct cp cu] [od or ot op ou] ls cc cs ds co cl ph].
    destruct s; exact H.
  - destruct st as [[cd cr ct cp cu] [od or ot op ou] ls cc cs ds co cl ph].
    unfold step, receive.
    destruct s; simpl sock; simpl destroyed; simpl piped;
      settle_conditions; exact H.
Qed.

Lemma run_callbackOnly :
  forall (this : HttpsProxy) (rt : Runtime) (evs : list Env) (st : Conn),
    forallb callbackOnly (listeners st) = true ->
    forallb callbackOnly (listeners (run this rt evs st)) = true.
Proof.
  intros this rt evs. induction evs as [| ev evs IH]; intros st H.
  - exact H.
  - change (run this rt (ev :: evs) st)
      with (run this rt evs (step this rt ev st)).
    apply IH, step_callbackOnly, H.
Qed.

(** The listeners of an event other than the completion of a write hold
    no callback of a write; those of the completion are all callbacks. *)
Lemma fired_no_callback :
  forall (s : Side) (e : EventName) (ls : list Listener),
    forallb callbackOnly ls = true ->
    e <> EvWritten ->
    forallb (fun l => negb (isWriteCallback (l_handler l)))
      (List.filter (listens s e) ls) = true.
Proof.
  intros s e ls H He. induction ls as [| l ls IH]; [reflexivity |].
  simpl in H. apply andb_true_iff in H as [Hl H].
  simpl. destruct (listens s e l) eqn:Hls; [| exact (IH H)].
  simpl. rewrite (IH H), andb_true_r.
  unfold listens in Hls. apply andb_true_iff in Hls as [_ Hev].
  unfold callbackOnly in Hl.
  destruct (isWriteCallback (l_handler l)); [| reflexivity].
  destruct (l_event l), e; try discriminate; congruence.
Qed.

Lemma fired_callbacks :
  forall (s : Side) (ls : list Listener),
    forallb callbackOnly ls = true ->
    forallb (fun l => isWriteCallback (l_handler l))
      (List.filter (listens s EvWritten) ls) = true.
Proof.
  intros s ls H. induction ls as [| l ls IH]; [reflexivity |].
  simpl in H. apply andb_true_iff in H as [Hl H].
  simpl. destruct (listens s EvWritten l) eqn:Hls; [| exact (IH H)].
  simpl. rewrite (IH H), andb_true_r.
  unfold listens in Hls. apply andb_true_iff in Hls as [_ Hev].
  unfold callbackOnly in Hl. rewrite Hev in Hl.
  destruct (isWriteCallback (l_handler l)); [reflexivity | discriminate Hl].
Qed.

(** The turn in which the flag goes up, in a tunnel that is set up: each
    socket that was not destroyed when the turn began is unpiped and then
    destroyed in it, and a socket that was destroyed is left as it was. *)
Lemma closing_turn :
  forall (this : HttpsProxy) (rt : Runtime) (ev : Env) (st : Conn),
    dialOver (phase st) = true ->
    forallb callbackOnly (listeners st) = true ->
    connectionClosed st = false ->
    connectionClosed (step this rt ev st) = true ->
    forall s,
      (destroyed (sock s st) = false ->
       piped (sock s (step this rt ev st)) = false /\
       exists pre post,
         calls (step this rt ev st) =
           (calls st ++ pre ++ unpipeAndDestroy s ++ post)%list) /\
      (destroyed (sock s st) = true ->
       piped (sock s (step this rt ev st)) = piped (sock s st) /\
       exists added,
         calls (step this rt ev st) = (calls st ++ added)%list /\
         existsb (isUnpipe s) added = false).
Proof.
  intros this rt ev st Hd Ht Hc Hc'.
  destruct ev as [proxyHead | err | | | s e arg | s | s chunk].
  - unfold step in Hc'. destruct (phase st); try discriminate Hd; congruence.
  - unfold step in Hc'. destruct (phase st); try discriminate Hd; congruence.
  - unfold step in Hc'. destruct (phase st); try discriminate Hd; congruence.
  - destruct st as [[cd cr ct cp cu] [od or ot op ou] ls cc cs ds co cl ph].
    simpl in Hc. subst cc. exfalso. revert Hc'. unfold step, phase.
    destruct ph; try discriminate.
    unfold proxyTick. simpl destroyed.
    destruct (cd || od); conn_eval; discriminate.
  - unfold step, emit in *.
    destruct (event_eqb e EvWritten) eqn:He.
    + destruct e; try discriminate He. exfalso.
      rewrite fold_callbacks_flag in Hc'; [simpl in Hc'; congruence |].
      apply fired_callbacks, Ht.
    + assert (Hne : e <> EvWritten) by (intros ->; discriminate He).
      intros s0.
      exact (fold_handlers_open rt arg
               (List.filter (listens s e) (listeners st))
               (set_listeners
                  (List.filter (fun l => negb (listens s e l && l_once l))
                     (listeners st)) st)
               (fired_no_callback s e (listeners st) Ht Hne) Hc Hc' s0).
  - destruct st as [[cd cr ct cp cu] [od or ot op ou] ls cc cs ds co cl ph].
    simpl in Hc. subst cc. exfalso. revert Hc'.
    destruct s; conn_eval; discriminate.
  - destruct st as [[cd cr ct cp cu] [od or ot op ou] ls cc cs ds co cl ph].
    simpl in Hc. subst cc. exfalso. revert Hc'. unfold step, receive.
    destruct s; simpl sock; simpl destroyed; simpl piped;
      settle_conditions; conn_eval; discriminate.
Qed.

(** After [cleanup], no turn changes how a socket is piped, and none
    calls an unpipe. *)
Lemma step_shut :
  forall (this : HttpsProxy) (rt : Runtime) (ev : Env) (st : Conn),
    dialOver (phase st) = true ->
    connectionClosed st = true ->
    destroyed (client st) = true ->
    destroyed (outbound st) = true ->
    let st' := step this rt ev st in
    dialOver (phase st') = true /\
    connectionClosed st' = true /\
    destroyed (client st') = true /\ destroyed (outbound st') = true /\
    (forall s, piped (sock s st') = piped (sock s st)) /\
    exists added,
      calls st' = (calls st ++ added)%list /\
      forall s, existsb (isUnpipe s) added = false.
Proof.
  intros this rt ev st Hd Hc Hcd Hod st'. subst st'.
  assert (Hnil : exists added,
             calls st = (calls st ++ added)%list /\
             forall s, existsb (isUnpipe s) added = false).
  { exists []. rewrite app_nil_r. split; reflexivity. }
  destruct ev as [proxyHead | err | | | s e arg | s | s chunk].
  - unfold step. destruct (phase st) eqn:Hph; try discriminate Hd;
      rewrite ?Hph; auto 10.
  - unfold step. destruct (phase st) eqn:Hph; try discriminate Hd;
      rewrite ?Hph; auto 10.
  - unfold step. destruct (phase st) eqn:Hph; try discriminate Hd;
      rewrite ?Hph; auto 10.
  - destruct st as [[cd cr ct cp cu] [od or ot op ou] ls cc cs ds co cl ph].
    simpl in Hd, Hc, Hcd, Hod. subst cc cd od. unfold step, phase.
    destruct ph; try discriminate Hd; conn_eval;
      (split; [reflexivity |]); (split; [reflexivity |]);
      (split; [reflexivity |]); (split; [reflexivity |]);
      (split; [intros []; reflexivity | exact Hnil]).
  - unfold step, emit.
    destruct (fold_handlers_shut rt arg
                (List.filter (listens s e) (listeners st))
                (set_listeners
                   (List.filter (fun l => negb (listens s e l && l_once l))
                      (listeners st)) st) Hc Hcd Hod)
      as (H1 & H2 & H3 & H4 & Hp & Hadded).
    rewrite Hp.
    split; [exact Hd |]. split; [exact H1 |]. split; [exact H2 |].
    split; [exact H3 |]. split; [| exact Hadded].
    intros s'. rewrite H4. destruct s'; reflexivity.
  - destruct st as [[cd cr ct cp cu] [od or ot op ou] ls cc cs ds co cl ph].
    simpl in Hd, Hc, Hcd, Hod. subst cc cd od.
    destruct s; conn_eval;
      (split; [exact Hd |]); (split; [reflexivity |]);
      (split; [reflexivity |]); (split; [reflexivity |]);
      (split; [intros []; reflexivity | exact Hnil]).
  - destruct st as [[cd cr ct cp cu] [od or ot op ou] ls cc cs ds co cl ph].
    simpl in Hd, Hc, Hcd, Hod. subst cc cd od.
    destruct s; conn_eval;
      (split; [exact Hd |]); (split; [reflexivity |]);
      (split; [reflexivity |]); (split; [reflexivity |]);
      (split; [intros []; reflexivity | exact Hnil]).
Qed.

Lemma run_shut :
  forall (this : HttpsProxy) (rt : Runtime) (evs : list Env) (st : Conn),
    dialOver (phase st) = true ->
    connectionClosed st = true ->
    destroyed (client st) = true ->
    destroyed (outbound st) = true ->
    (forall s, piped (sock s (run this rt evs st)) = piped (sock s st)) /\
    exists added,
      calls (run this rt evs st) = (calls st ++ added)%list /\
      forall s, existsb (isUnpipe s) added = false.
Proof.
  intros this rt evs. induction evs as [| ev evs IH];
    intros st Hd Hc Hcd Hod.
  - split; [reflexivity |]. exists []. simpl. rewrite app_nil_r.
    split; reflexivity.
  - change (run this rt (ev :: evs) st)
      with (run this rt evs (step this rt ev st)).
    destruct (step_shut this rt ev st Hd Hc Hcd Hod)
      as (H1 & H2 & H3 & H4 & H5 & a1 & Ha1 & Hu1).
    destruct (IH _ H1 H2 H3 H4) as (I5 & a2 & Ha2 & Hu2).
    split; [intros s; rewrite I5; apply H5 |].
    exists (a1 ++ a2)%list. split.
    + rewrite Ha2, Ha1, app_assoc. reflexivity.
    + intros s. rewrite existsb_app, Hu1, Hu2. reflexivity.
Qed.

(** A run that raises the flag has a first turn that does. *)
Lemma first_closing_turn :
  forall (this : HttpsProxy) (rt : Runtime) (evs : list Env) (st : Conn),
    connectionClosed st = false ->
    connectionClosed (run this rt evs st) = true ->
    exists before ev after,
      evs = (before ++ ev :: after)%list /\
      connectionClosed (run this rt before st) = false /\
      connectionClosed (step this rt ev (run this rt before st)) = true.
Proof.
  intros this rt evs. induction evs as [| ev evs IH]; intros st Hc Hc'.
  - simpl in Hc'. congruence.
  - change (run this rt (ev :: evs) st)
      with (run this rt evs (step this rt ev st)) in Hc'.
    destruct (connectionClosed (step this rt ev st)) eqn:Hs.
    + exists [], ev, evs. auto.
    + destruct (IH _ Hs Hc') as (before & ev' & after & -> & H1 & H2).
      exists (ev :: before), ev', after. auto.
Qed.

(** C1, as the code has it: a connection whose dial succeeds while the
    client socket is there gets its tunnel set up; whatever the runtime
    does afterwards, the body of [cleanup] runs at most once, and as soon
    as an error, close, end or timeout event has fired on either socket
    it has run exactly once, the flag is up and both sockets are
    destroyed.  It runs in one turn of the event loop: a socket that is
    not destroyed when that turn begins is unpiped and then destroyed by
    it, and is not piped any more at the end of the run; a socket that is
    already destroyed then is left as it is, and is never unpiped. *)
Theorem cleanup_runs_exactly_once :
  forall (this : HttpsProxy) (rt : Runtime) (st : Conn)
         (hostname : string) (targetPort : Z) (head proxyHead : string)
         (evs : list Env),
    timeout this <> 0 ->
    cleanups st = 0%nat ->
    destroyed (client st) = false ->
    (phase st = DirectDialing hostname targetPort head /\
     destroyed (outbound st) = false) \/
    phase st = ProxyDialing hostname targetPort head ->
    let st' := run this rt (Connected proxyHead :: evs) st in
    (cleanups st' <= 1)%nat /\
    (existsb terminal evs = true ->
     cleanups st' = 1%nat /\
     connectionClosed st' = true /\
     destroyed (client st') = true /\
     destroyed (outbound st') = true) /\
    (existsb terminal evs = true ->
     forallb callbackOnly (listeners st) = true ->
     exists before ev after,
       evs = (before ++ ev :: after)%list /\
       let mid := run this rt (Connected proxyHead :: before) st in
       connectionClosed mid = false /\
       connectionClosed (step this rt ev mid) = true /\
       forall s,
         (destroyed (sock s mid) = false ->
          piped (sock s st') = false /\
          exists pre post,
            calls st' =
              (calls mid ++ pre ++ unpipeAndDestroy s ++ post)%list) /\
         (destroyed (sock s mid) = true ->
          piped (sock s st') = piped (sock s mid) /\
          exists added,
            calls st' = (calls mid ++ added)%list /\
            existsb (isUnpipe s) added = false)).
Proof.
  intros this rt st hostname targetPort head proxyHead evs Ht Hn Hc Hp st'.
  destruct (connected_armed this rt st hostname targetPort head proxyHead
              Ht Hn Hc Hp) as (Ha & Hopen & _).
  destruct (run_armed this rt evs _ Ha) as ((_ & _ & _ & Hf1 & Hf2) & _ & Hterm).
  change (run this rt evs (step this rt (Connected proxyHead) st)) with st'
    in Hf1, Hf2, Hterm.
  split; [| split].
  - destruct (connectionClosed st') eqn:Hcc.
    + destruct (Hf2 eq_refl) as (-> & _). lia.
    + rewrite (Hf1 eq_refl). lia.
  - intros He. specialize (Hterm He). destruct (Hf2 Hterm) as (? & ? & ?).
    auto.
  - intros He Hl. specialize (Hterm He).
    destruct (first_closing_turn this rt evs _ Hopen Hterm)
      as (before & ev & after & Hevs & Hmid & Hturn).
    exists before, ev, after. split; [exact Hevs |].
    change (run this rt (Connected proxyHead :: before) st)
      with (run this rt before (step this rt (Connected proxyHead) st)).
    set (mid := run this rt before (step this rt (Connected proxyHead) st))
      in *.
    cbv zeta. split; [exact Hmid |]. split; [exact Hturn |].
    destruct (run_armed this rt before _ Ha) as (Hmida & _).
    fold mid in Hmida.
    assert (Hmidl : forallb callbackOnly (listeners mid) = true).
    { apply run_callbackOnly, step_callbackOnly, Hl. }
    destruct (step_armed this rt ev mid Hmida)
      as ((Hd & _ & _ & _ & Hflag) & _).
    destruct (Hflag Hturn) as (_ & Hcd & Hod).
    destruct (run_shut this rt after _ Hd Hturn Hcd Hod)
      as (Hpiped & later & Hlater & Hnone).
    assert (Hst' : st' = run this rt after (step this rt ev mid)).
    { subst st' mid.
      change (run this rt (Connected proxyHead :: evs) st)
        with (run this rt evs (step this rt (Connected proxyHead) st)).
      rewrite Hevs, run_app. reflexivity. }
    intros s.
    destruct (closing_turn this rt ev mid (proj1 Hmida) Hmidl Hmid Hturn s)
      as [Halive Hdead].
    rewrite Hst', Hpiped, Hlater. split; intros Hs.
    + destruct (Halive Hs) as (Hunpiped & pre & post & Hcalls).
      split; [exact Hunpiped |]. exists pre, (post ++ later)%list.
      rewrite Hcalls, <- !app_assoc. reflexivity.
    + destruct (Hdead Hs) as (Hsame & added & Hcalls & Hu).
      split; [exact Hsame |]. exists (added ++ later)%list. split.
      * rewrite Hcalls, <- !app_assoc. reflexivity.
      * rewrite existsb_app, Hu, Hnone. reflexivity.
Qed.

Lemma cleanup_runs_exactly_once_witness :
  let evs :=
    [Data Outbound "payload"; RuntimeDestroy Outbound;
     Emit Outbound EvError (ArgError Example.econnreset);
     Emit Outbound EvClose (ArgClose true);
     Emit Client EvClose (ArgClose false)] in
  let st :=
    handleConnect Example.direct Example.node
      (Example.connectRequest "example.com:443") "hello"
      (accepted openSocket) in
  let st' := run Example.direct Example.node (Connected "" :: evs) st in
  (cleanups st' <= 1)%nat /\
  (existsb terminal evs = true ->
   cleanups st' = 1%nat /\
   connectionClosed st' = true /\
   destroyed (client st') = true /\
   destroyed (outbound st') = true) /\
  (existsb terminal evs = true ->
   forallb callbackOnly (listeners st) = true ->
   exists before ev after,
     evs = (before ++ ev :: after)%list /\
     let mid :=
       run Example.direct Example.node (Connected "" :: before) st in
     connectionClosed mid = false /\
     connectionClosed (step Example.direct Example.node ev mid) = true /\
     forall s,
       (destroyed (sock s mid) = false ->
        piped (sock s st') = false /\
        exists pre post,
          calls st' =
            (calls mid ++ pre ++ unpipeAndDestroy s ++ post)%list) /\
       (destroyed (sock s mid) = true ->
        piped (sock s st') = piped (sock s mid) /\
        exists added,
          calls st' = (calls mid ++ added)%list /\
          existsb (isUnpipe s) added = false)).
Proof.
  apply (cleanup_runs_exactly_once Example.direct Example.node
           (handleConnect Example.direct Example.node
              (Example.connectRequest "example.com:443") "hello"
              (accepted openSocket))
           "example.com" 443 "hello" "").
  - discriminate.
  - reflexivity.
  - reflexivity.
  - left. split; reflexivity.
Defined.

(** C1, the claim as written fails: when the transport has destroyed the
    outbound socket before its ['error'] event is delivered, as it does
    for a socket that fails, [cleanup] runs once and unpipes and destroys
    the client socket, but it makes no call on the outbound socket: that
    endpoint is destroyed without having been unpiped. *)
Lemma cleanup_skips_destroyed_endpoint :
  let st' :=
    run Example.direct Example.node
      [Connected ""; RuntimeDestroy Outbound;
       Emit Outbound EvError (ArgError Example.econnreset)]
      (handleConnect Example.direct Example.node
         (Example.connectRequest "example.com:443") ""
         (accepted openSocket)) in
  cleanups st' = 1%nat /\
  destroyed (client st') = true /\
  destroyed (outbound st') = true /\
  existsb (isUnpipe Client) (calls st') = true /\
  existsb (isUnpipe Outbound) (calls st') = false /\
  piped (client st') = false /\
  piped (outbound st') = true.
Proof. repeat split; reflexivity. Qed.

(** On both dial paths the listeners present when the dial is pending are
    in their places, as the last part of the theorem asks. *)
Example dial_listeners_in_place :
  forallb callbackOnly
    (listeners
       (handleConnect Example.direct Example.node
          (Example.connectRequest "example.com:443") ""
          (accepted openSocket))) = true /\
  forallb callbackOnly
    (listeners
       (handleConnect Example.viaHttp Example.node
          (Example.connectRequest "example.com:443") ""
          (accepted openSocket))) = true.
Proof. split; reflexivity. Qed.

Example upstream_cleanup_once :
  let st' :=
    run Example.viaHttp Example.node
      [Connected ""; Emit Client EvEnd ArgNone; Tick;
       Emit Client EvTimeout ArgNone; Emit Outbound EvClose (ArgClose false)]
      (handleConnect Example.viaHttp Example.node
         (Example.connectRequest "example.com:443") ""
         (accepted openSocket)) in
  cleanups st' = 1%nat /\
  calls st' =
    [SetKeepAlive Client 30000; SetNoDelay Client; SetTimeout Client 60000;
     SetNoDelay Client; SetNoDelay Outbound; SetKeepAlive Client 30000;
     SetKeepAlive Outbound 30000; SetTimeout Client 120000;
     SetTimeout Outbound 120000; SetMaxListeners Client 20;
     SetMaxListeners Outbound 20; Write Client connectionEstablished;
     SetTimeout Client 60000; SetTimeout Outbound 60000;
     Unpipe Client; Destroy Client; Unpipe Outbound; Destroy Outbound].
Proof. split; reflexivity. Qed.

(** *** The idle time of a tunnel *)

(** C8, as the code has it: after a successful dial both sockets carry
    the idle time set by [setupSocketErrorHandlers], which replaces the
    120 s set just before: 60 s when the port is 443 or the host name
    contains tradingview, the configured timeout (30 s by default)
    otherwise; a timeout event on either socket then runs [cleanup], which
    destroys both sockets. *)
Theorem splice_idle_timeout :
  forall (this : HttpsProxy) (rt : Runtime) (st : Conn)
         (hostname : string) (targetPort : Z) (head proxyHead : string)
         (s : Side),
    timeout this <> 0 ->
    cleanups st = 0%nat ->
    destroyed (client st) = false ->
    (phase st = DirectDialing hostname targetPort head /\
     destroyed (outbound st) = false) \/
    phase st = ProxyDialing hostname targetPort head ->
    let st' := step this rt (Connected proxyHead) st in
    let timeoutMs :=
      if JS.includes hostname "tradingview" || (targetPort =? 443)
      then 60000 else timeout this in
    let st'' := step this rt (Emit s EvTimeout ArgNone) st' in
    idleTimeout (client st') = timeoutMs /\
    idleTimeout (outbound st') = timeoutMs /\
    cleanups st'' = 1%nat /\
    destroyed (client st'') = true /\
    destroyed (outbound st'') = true.
Proof.
  intros this rt st hostname targetPort head proxyHead s Ht Hn Hc Hp
    st' timeoutMs st''.
  destruct (connected_armed this rt st hostname targetPort head proxyHead
              Ht Hn Hc Hp) as (Ha & _ & _ & _ & Htc & Hto).
  destruct (step_armed this rt (Emit s EvTimeout ArgNone) _ Ha)
    as ((_ & _ & _ & _ & Hf) & _ & Hterm).
  split; [exact Htc |]. split; [exact Hto |].
  apply Hf. apply Hterm. reflexivity.
Qed.

Lemma splice_idle_timeout_witness :
  let st :=
    handleConnect Example.direct Example.node
      (Example.connectRequest "example.com:8080") ""
      (accepted openSocket) in
  let st' := step Example.direct Example.node (Connected "") st in
  let timeoutMs :=
    if JS.includes "example.com" "tradingview" || (8080 =? 443)
    then 60000 else timeout Example.direct in
  let st'' :=
    step Example.direct Example.node (Emit Outbound EvTimeout ArgNone) st' in
  idleTimeout (client st') = timeoutMs /\
  idleTimeout (outbound st') = timeoutMs /\
  cleanups st'' = 1%nat /\
  destroyed (client st'') = true /\
  destroyed (outbound st'') = true.
Proof.
  apply (splice_idle_timeout Example.direct Example.node
           (handleConnect Example.direct Example.node
              (Example.connectRequest "example.com:8080") ""
              (accepted openSocket))
           "example.com" 8080 "" "" Outbound).
  - discriminate.
  - reflexivity.
  - reflexivity.
  - left. split; reflexivity.
Defined.

(** C8, the claim as written fails: with the default configuration the
    sockets of a tunnel to port 443 have an idle time of 60 s, not 120 s,
    and those of a tunnel to port 8080 one of 30 s, not 60 s. *)
Lemma idle_timeout_is_60s_and_30s :
  (let st :=
     run Example.direct Example.node [Connected ""]
       (handleConnect Example.direct Example.node
          (Example.connectRequest "example.com:443") ""
          (accepted openSocket)) in
   idleTimeout (client st) = 60000 /\ idleTimeout (outbound st) = 60000) /\
  (let st :=
     run Example.direct Example.node [Connected ""]
       (handleConnect Example.direct Example.node
          (Example.connectRequest "example.com:8080") ""
          (accepted openSocket)) in
   idleTimeout (client st) = 30000 /\ idleTimeout (outbound st) = 30000).
Proof. repeat split; reflexivity. Qed.

(** *** Errors after the tunnel is established *)

(** C7: on the direct path, an error of the outbound socket after the
    response 200 makes the listener registered by [handleDirectConnect]
    write a 502 response into the tunnel: the bytes sent to the client are
    the response 200 followed by the response 502. *)
Theorem direct_tunnel_error_writes_502 :
  bytesTo Client
    (calls
       (run Example.direct Example.node
          [Connected ""; RuntimeDestroy Outbound;
           Emit Outbound EvError (ArgError Example.econnreset)]
          (handleConnect Example.direct Example.node
             (Example.connectRequest "example.com:443") ""
             (accepted openSocket)))) =
    connectionEstablished +:+
    "HTTP/1.1 502 Bad Gateway" +:+ crlf +:+
    "Content-Type: text/plain" +:+ crlf +:+
    crlf +:+
    "连接目标服务器失败: read ECONNRESET".
Proof. reflexivity. Qed.

(** The same events on the upstream path write nothing after the
    response 200. *)
Example upstream_tunnel_error_is_silent :
  bytesTo Client
    (calls
       (run Example.viaHttp Example.node
          [Connected ""; Tick; RuntimeDestroy Outbound;
           Emit Outbound EvError (ArgError Example.econnreset)]
          (handleConnect Example.viaHttp Example.node
             (Example.connectRequest "example.com:443") ""
             (accepted openSocket)))) =
    connectionEstablished.
Proof. reflexivity. Qed.

(** *** The order of the first bytes *)

Lemma length_pos : forall s : string, s <> "" -> (0 <? JS.length s) = true.
Proof.
  intros s Hs. destruct s; [congruence |]. unfold JS.length. simpl String.length.
  apply Z.ltb_lt. lia.
Qed.

(** A listener only adds calls. *)
Lemma run_handler_extends :
  forall (rt : Runtime) (h : Handler) (arg : EventArg) (st : Conn),
    exists added, calls (run_handler rt h arg st) = (calls st ++ added)%list.
Proof.
  intros rt h arg st.
  destruct h; unfold run_handler, seq;
    try (rewrite cleanup_calls; settle_conditions; eexists; reflexivity).
  - (* DirectDialError *)
    unfold sendConnectError, when, console_error.
    destruct (negb (destroyed (client (print ErrorLevel _ st)))).
    + conn_eval. rewrite <- !app_assoc. eexists. reflexivity.
    + exists []. rewrite app_nil_r. reflexivity.
  - (* PipeError *)
    settle_conditions; exists []; rewrite app_nil_r; reflexivity.
  - (* ResponseWritten *)
    destruct arg; try (exists []; rewrite app_nil_r; reflexivity).
    eexists. reflexivity.
Qed.

Lemma fold_handlers_extends :
  forall (rt : Runtime) (arg : EventArg) (fired : list Listener) (st : Conn),
    exists added,
      calls (fold_left (fun acc l => run_handler rt (l_handler l) arg acc)
               fired st) = (calls st ++ added)%list.
Proof.
  intros rt arg fired. induction fired as [| l fired IH]; intros st.
  - exists []. rewrite app_nil_r. reflexivity.
  - simpl. destruct (IH (run_handler rt (l_handler l) arg st)) as [a2 H2].
    destruct (run_handler_extends rt (l_handler l) arg st) as [a1 H1].
    exists (a1 ++ a2)%list. rewrite H2, H1, app_assoc. reflexivity.
Qed.

(** Every turn of the event loop only adds calls. *)
Lemma step_extends :
  forall (this : HttpsProxy) (rt : Runtime) (ev : Env) (st : Conn),
    exists added, calls (step this rt ev st) = (calls st ++ added)%list.
Proof.
  intros this rt ev st.
  assert (Hnil : exists added, calls st = (calls st ++ added)%list)
    by (exists []; rewrite app_nil_r; reflexivity).
  destruct ev as [proxyHead | err | | | s e arg | s | s chunk].
  - (* Connected *)
    destruct st as [[cd cr ct cp cu] [od or ot op ou] ls cc cs ds co cl ph].
    unfold step, phase. destruct ph; try exact Hnil.
    + unfold directConnected, setupSocketErrorHandlers, setTimeout.
      destruct cd, od; settle_conditions; conn_eval; rewrite <- ?app_assoc;
        eexists; reflexivity.
    + unfold proxyConnected, setupSocketErrorHandlers, setTimeout.
      destruct cd; settle_conditions; conn_eval; rewrite <- ?app_assoc;
        eexists; reflexivity.
  - (* RequestError *)
    destruct st as [[cd cr ct cp cu] [od or ot op ou] ls cc cs ds co cl ph].
    unfold step, phase. destruct ph; try exact Hnil.
    destruct cd; conn_eval; rewrite <- ?app_assoc; try exact Hnil;
      eexists; reflexivity.
  - (* RequestTimeout *)
    destruct st as [[cd cr ct cp cu] [od or ot op ou] ls cc cs ds co cl ph].
    unfold step, phase. destruct ph; try exact Hnil.
    destruct cd; conn_eval; rewrite <- ?app_assoc; try exact Hnil;
      eexists; reflexivity.
  - (* Tick *)
    destruct st as [[cd cr ct cp cu] [od or ot op ou] ls cc cs ds co cl ph].
    unfold step, phase. destruct ph; try exact Hnil.
    destruct cd, od; conn_eval; rewrite <- ?app_assoc; try exact Hnil;
      eexists; reflexivity.
  - (* Emit *)
    unfold step, emit.
    apply (fold_handlers_extends rt arg _
             (set_listeners
                (List.filter (fun l => negb (listens s e l && l_once l))
                   (listeners st)) st)).
  - (* RuntimeDestroy *)
    destruct s; exact Hnil.
  - (* Data *)
    unfold step, receive. destruct s; settle_conditions; try exact Hnil;
      eexists; reflexivity.
Qed.

Lemma run_extends :
  forall (this : HttpsProxy) (rt : Runtime) (evs : list Env) (st : Conn),
    exists added, calls (run this rt evs st) = (calls st ++ added)%list.
Proof.
  intros this rt evs. induction evs as [| ev evs IH]; intros st.
  - exists []. rewrite app_nil_r. reflexivity.
  - change (run this rt (ev :: evs) st)
      with (run this rt evs (step this rt ev st)).
    destruct (IH (step this rt ev st)) as [a2 H2].
    destruct (step_extends this rt ev st) as [a1 H1].
    exists (a1 ++ a2)%list. rewrite H2, H1, app_assoc. reflexivity.
Qed.

(** C3: after a successful dial, the bytes that came after the CONNECT
    request are written to the outbound socket before any pipe is
    installed and while the client has been sent nothing but the response
    200; on the upstream path the bytes that came after the reply of the
    upstream are written to the client before any pipe is installed, and
    after the former.  Whatever happens later only adds calls. *)
Theorem head_before_splice :
  forall (this : HttpsProxy) (rt : Runtime) (st : Conn)
         (hostname : string) (targetPort : Z) (head proxyHead : string)
         (evs : list Env),
    destroyed (client st) = false ->
    phase st = DirectDialing hostname targetPort head \/
    phase st = ProxyDialing hostname targetPort head ->
    let st' := run this rt (Connected proxyHead :: evs) st in
    (head <> "" ->
     exists before after,
       calls st' = (calls st ++ before ++ Write Outbound head :: after)%list /\
       forallb beforeSplice before = true /\
       bytesTo Client before = connectionEstablished) /\
    (phase st = ProxyDialing hostname targetPort head ->
     proxyHead <> "" ->
     exists before after,
       calls st' =
         (calls st ++ before ++ Write Client proxyHead :: after)%list /\
       forallb beforeSplice before = true /\
       bytesTo Client before = connectionEstablished /\
       (head <> "" -> In (Write Outbound head) before)).
Proof.
  intros this rt st hostname targetPort head proxyHead evs Hc Hp st'.
  subst st'.
  change (run this rt (Connected proxyHead :: evs) st)
    with (run this rt evs (step this rt (Connected proxyHead) st)).
  destruct (run_extends this rt evs (step this rt (Connected proxyHead) st))
    as [added ->].
  destruct st as [[cd cr ct cp cu] [od or ot op ou] ls cc cs ds co cl ph].
  simpl in Hc, Hp. subst cd.
  split.
  - intros Hh. pose proof (length_pos head Hh) as Hlen.
    destruct Hp as [Hp | Hp]; subst ph.
    + exists
        [Write Client ("HTTP/1.1 200 Connection Established" +:+ crlf);
         Write Client ("Proxy-agent: HTTPS-Proxy/1.0" +:+ crlf);
         Write Client ("Connection: keep-alive" +:+ crlf);
         Write Client ("Keep-Alive: timeout=60, max=1000" +:+ crlf);
         Write Client ("Proxy-Connection: keep-alive" +:+ crlf);
         Write Client crlf;
         SetKeepAlive Client 30000; SetKeepAlive Outbound 30000;
         SetNoDelay Client; SetNoDelay Outbound;
         SetTimeout Client 120000; SetTimeout Outbound 120000;
         SetMaxListeners Client 20; SetMaxListeners Outbound 20].
      unfold step, phase, directConnected, setupSocketErrorHandlers, setTimeout.
      rewrite Hlen.
      destruct od; settle_conditions; conn_eval; rewrite <- !app_assoc;
        (eexists; split; [simpl; reflexivity | split; reflexivity]).
    + exists
        [SetNoDelay Client; SetNoDelay Outbound;
         SetKeepAlive Client 30000; SetKeepAlive Outbound 30000;
         SetTimeout Client 120000; SetTimeout Outbound 120000;
         SetMaxListeners Client 20; SetMaxListeners Outbound 20;
         Write Client connectionEstablished].
      unfold step, phase, proxyConnected, setupSocketErrorHandlers, setTimeout.
      rewrite Hlen.
      settle_conditions; conn_eval; rewrite <- !app_assoc;
        (eexists; split; [simpl; reflexivity | split; reflexivity]).
  - intros Hph Hne. clear Hp. simpl in Hph. subst ph.
    pose proof (length_pos proxyHead Hne) as Hlen.
    destruct head as [| c head].
    + exists
        [SetNoDelay Client; SetNoDelay Outbound;
         SetKeepAlive Client 30000; SetKeepAlive Outbound 30000;
         SetTimeout Client 120000; SetTimeout Outbound 120000;
         SetMaxListeners Client 20; SetMaxListeners Outbound 20;
         Write Client connectionEstablished].
      unfold step, phase, proxyConnected, setupSocketErrorHandlers, setTimeout.
      rewrite Hlen. change (0 <? JS.length "") with false.
      settle_conditions; conn_eval; rewrite <- !app_assoc;
        (eexists; split; [simpl; reflexivity |];
         split; [reflexivity |]; split; [reflexivity | congruence]).
    + exists
        [SetNoDelay Client; SetNoDelay Outbound;
         SetKeepAlive Client 30000; SetKeepAlive Outbound 30000;
         SetTimeout Client 120000; SetTimeout Outbound 120000;
         SetMaxListeners Client 20; SetMaxListeners Outbound 20;
         Write Client connectionEstablished;
         Write Outbound (String c head)].
      unfold step, phase, proxyConnected, setupSocketErrorHandlers, setTimeout.
      rewrite Hlen, (length_pos (String c head)) by discriminate.
      settle_conditions; conn_eval; rewrite <- !app_assoc;
        (eexists; split; [simpl; reflexivity |];
         split; [reflexivity |]; split; [reflexivity |]).
      all: intros _; simpl; auto 12.
Qed.

Lemma head_before_splice_witness :
  let st' :=
    run Example.viaHttp Example.node
      (Connected "early" :: [Tick; Data Outbound "payload"])
      (handleConnect Example.viaHttp Example.node
         (Example.connectRequest "example.com:443") "hello"
         (accepted openSocket)) in
  ("hello" <> "" ->
   exists before after,
     calls st' =
       (calls (handleConnect Example.viaHttp Example.node
                 (Example.connectRequest "example.com:443") "hello"
                 (accepted openSocket)) ++
        before ++ Write Outbound "hello" :: after)%list /\
     forallb beforeSplice before = true /\
     bytesTo Client before = connectionEstablished) /\
  (phase (handleConnect Example.viaHttp Example.node
            (Example.connectRequest "example.com:443") "hello"
            (accepted openSocket)) = ProxyDialing "example.com" 443 "hello" ->
   "early" <> "" ->
   exists before after,
     calls st' =
       (calls (handleConnect Example.viaHttp Example.node
                 (Example.connectRequest "example.com:443") "hello"
                 (accepted openSocket)) ++
        before ++ Write Client "early" :: after)%list /\
     forallb beforeSplice before = true /\
     bytesTo Client before = connectionEstablished /\
     ("hello" <> "" -> In (Write Outbound "hello") before)).
Proof.
  apply (head_before_splice Example.viaHttp Example.node
           (handleConnect Example.viaHttp Example.node
              (Example.connectRequest "example.com:443") "hello"
              (accepted openSocket))
           "example.com" 443 "hello" "early" [Tick; Data Outbound "payload"]).
  - reflexivity.
  - right. reflexivity.
Defined.

Example upstream_first_bytes :
  calls
    (run Example.viaHttp Example.node
       [Data Outbound "more"; Connected "early"; Tick; Data Outbound "payload"]
       (handleConnect Example.viaHttp Example.node
          (Example.connectRequest "example.com:443") "hello"
          (accepted openSocket))) =
    [SetKeepAlive Client 30000; SetNoDelay Client; SetTimeout Client 60000;
     SetNoDelay Client; SetNoDelay Outbound; SetKeepAlive Client 30000;
     SetKeepAlive Outbound 30000; SetTimeout Client 120000;
     SetTimeout Outbound 120000; SetMaxListeners Client 20;
     SetMaxListeners Outbound 20; Write Client connectionEstablished;
     Write Outbound "hello"; Write Client "early";
     SetTimeout Client 60000; SetTimeout Outbound 60000;
     Pipe Outbound; Pipe Client; Forward Outbound "payload"].
Proof. reflexivity. Qed.

(** *** The upstream path stays silent *)

Lemma cleanup_frame :
  forall st,
    listeners (cleanup st) = listeners st /\
    phase (cleanup st) = phase st /\
    bytesTo Client (calls (cleanup st)) = bytesTo Client (calls st).
Proof.
  intros st. rewrite cleanup_calls, bytesTo_app.
  destruct st as [[cd cr ct cp cu] [od or ot op ou] ls cc cs ds co cl ph].
  unfold cleanup. simpl connectionClosed. simpl destroyed.
  destruct cc, cd, od; conn_eval; repeat split; try reflexivity;
    cbn [bytesTo app]; apply append_empty.
Qed.

Lemma run_handler_quiet :
  forall (rt : Runtime) (h : Handler) (arg : EventArg) (st : Conn),
    quiet h = true ->
    listeners (run_handler rt h arg st) = listeners st /\
    phase (run_handler rt h arg st) = phase st /\
    bytesTo Client (calls (run_handler rt h arg st)) =
      bytesTo Client (calls st).
Proof.
  intros rt h arg st Hq.
  destruct h; try discriminate Hq; unfold run_handler, seq;
    try (settle_conditions;
         match goal with
         | |- context [cleanup ?x] =>
             destruct (cleanup_frame x) as (-> & -> & ->)
         end;
         repeat split; reflexivity).
  - (* PipeError *)
    settle_conditions; repeat split; reflexivity.
  - (* ResponseWritten *)
    destruct arg; repeat split; try reflexivity.
    unfold destroy, call. simpl calls. rewrite bytesTo_app.
    apply append_empty.
Qed.

Lemma fold_handlers_quiet :
  forall (rt : Runtime) (arg : EventArg) (fired : list Listener) (st : Conn),
    forallb (fun l => quiet (l_handler l)) fired = true ->
    let st' :=
      fold_left (fun acc l => run_handler rt (l_handler l) arg acc) fired st in
    listeners st' = listeners st /\
    phase st' = phase st /\
    bytesTo Client (calls st') = bytesTo Client (calls st).
Proof.
  intros rt arg fired. induction fired as [| l fired IH]; intros st Hq; simpl.
  - auto.
  - simpl in Hq. apply andb_true_iff in Hq as [Hl Hq].
    destruct (run_handler_quiet rt (l_handler l) arg st Hl) as (H1 & H2 & H3).
    destruct (IH (run_handler rt (l_handler l) arg st) Hq) as (I1 & I2 & I3).
    rewrite I1, I2, I3, H1, H2, H3. auto.
Qed.

Lemma forallb_filter :
  forall (A : Type) (p q : A -> bool) (l : list A),
    forallb p l = true -> forallb p (List.filter q l) = true.
Proof.
  intros A p q l. induction l as [| x l IH]; [auto |].
  simpl. intros H. apply andb_true_iff in H as [Hx Hl].
  destruct (q x); simpl; [rewrite Hx |]; auto.
Qed.

Lemma step_silent :
  forall (this : HttpsProxy) (rt : Runtime) (ev : Env) (st : Conn),
    silent st ->
    silent (step this rt ev st) /\
    bytesTo Client (calls (step this rt ev st)) = bytesTo Client (calls st).
Proof.
  intros this rt ev st Hs. pose proof Hs as [Hd Hq].
  destruct ev as [proxyHead | err | | | s e arg | s | s chunk].
  - unfold step. destruct (phase st); try discriminate Hd;
      (split; [exact Hs | reflexivity]).
  - unfold step. destruct (phase st); try discriminate Hd;
      (split; [exact Hs | reflexivity]).
  - unfold step. destruct (phase st); try discriminate Hd;
      (split; [exact Hs | reflexivity]).
  - (* Tick *)
    destruct st as [[cd cr ct cp cu] [od or ot op ou] ls cc cs ds co cl ph].
    simpl in Hd, Hq. unfold step, phase.
    destruct ph; try discriminate Hd;
      try (split; [exact Hs | reflexivity]).
    unfold proxyTick, silent. simpl destroyed.
    destruct (cd || od); conn_eval; simpl.
    + split; [split; [reflexivity | exact Hq] | reflexivity].
    + split.
      * split; [reflexivity |].
        rewrite <- app_assoc, forallb_app, Hq. reflexivity.
      * rewrite <- !app_assoc, bytesTo_app. cbn [app bytesTo].
        rewrite bytesTo_forward. cbn [bytesTo].
        rewrite bytesTo_forward_all. apply append_empty.
  - (* Emit *)
    unfold step, emit.
    destruct (fold_handlers_quiet rt arg
                (List.filter (listens s e) (listeners st))
                (set_listeners
                   (List.filter
                      (fun l => negb (listens s e l && l_once l))
                      (listeners st)) st)
                (forallb_filter _ _ _ _ Hq)) as (H1 & H2 & H3).
    unfold silent. rewrite H1, H2, H3.
    split; [split; [exact Hd | apply forallb_filter, Hq] | reflexivity].
  - (* RuntimeDestroy *)
    destruct s; (split; [exact Hs | reflexivity]).
  - (* Data *)
    unfold step, receive.
    destruct s; settle_conditions;
      (split; [exact Hs |]); try reflexivity;
      unfold call; simpl calls; rewrite bytesTo_app; apply append_empty.
Qed.

Lemma run_silent :
  forall (this : HttpsProxy) (rt : Runtime) (evs : list Env) (st : Conn),
    silent st ->
    bytesTo Client (calls (run this rt evs st)) = bytesTo Client (calls st).
Proof.
  intros this rt evs. induction evs as [| ev evs IH]; intros st Hs.
  - reflexivity.
  - change (run this rt (ev :: evs) st)
      with (run this rt evs (step this rt ev st)).
    destruct (step_silent this rt ev st Hs) as (Hs' & Hb).
    rewrite (IH _ Hs'), Hb. reflexivity.
Qed.

(** On the upstream path the client is sent, over the whole life of the
    tunnel, the response 200, the bytes that came after the reply of the
    upstream, and nothing else from the handlers: no error response
    follows the 200, whatever fails later. *)
Lemma upstream_tunnel_stays_silent :
  forall (this : HttpsProxy) (rt : Runtime) (st : Conn)
         (hostname : string) (targetPort : Z) (head proxyHead : string)
         (evs : list Env),
    destroyed (client st) = false ->
    phase st = ProxyDialing hostname targetPort head ->
    forallb (fun l => quiet (l_handler l)) (listeners st) = true ->
    bytesTo Client (calls (run this rt (Connected proxyHead :: evs) st)) =
      bytesTo Client (calls st) +:+ connectionEstablished +:+ proxyHead.
Proof.
  intros this rt st hostname targetPort head proxyHead evs Hc Hp Hq.
  change (run this rt (Connected proxyHead :: evs) st)
    with (run this rt evs (step this rt (Connected proxyHead) st)).
  rewrite run_silent.
  - apply (proxyConnected_bytes this rt st hostname targetPort head
             proxyHead Hc Hp).
  - destruct st as [[cd cr ct cp cu] [od or ot op ou] ls cc cs ds co cl ph].
    simpl in Hc, Hp, Hq. subst cd ph.
    unfold step, phase, proxyConnected, setupSocketErrorHandlers, setTimeout,
      silent.
    settle_conditions; conn_eval; simpl;
      (split; [reflexivity |]);
      rewrite <- !app_assoc, forallb_app, Hq; reflexivity.
Qed.

(** *** The answers 400 of the forward-fetch handler *)

(** With a parser that gives a URL starting with [http://] or
    [https://] that scheme, the answer 400 for an unsupported protocol is
    never given: every answer 400 of [handleHttpRequest] is one of the
    other three. *)
Lemma unsupported_protocol_answer_unreachable :
  forall (this : HttpsProxy) (rt : Runtime) (req : IncomingMessage)
         (preset : list (string * string)) (r : Response)
         (printed : list (Level * string)),
    schemeFromPrefix rt ->
    handleHttpRequest this rt req preset = (Respond r, printed) ->
    statusCode r = 400 ->
    body r = Text "缺少 URL" \/
    body r = Text "Bad Request - 请使用CONNECT方法建立SSL隧道" \/
    exists targetUrl, body r = Text ("无效的URL: " +:+ targetUrl).
Proof.
  intros this rt req preset r printed Hparser H Hs.
  unfold handleHttpRequest in H.
  destruct (url req) as [targetUrl |];
    [| injection H as <- _; left; reflexivity].
  destruct (negb (JS.truthy targetUrl));
    [injection H as <- _; left; reflexivity |].
  destruct (match method req with Some _ => _ | None => _ end);
    [injection H as <- _; discriminate Hs |].
  destruct (negb (JS.startsWith targetUrl "http://") &&
            negb (JS.startsWith targetUrl "https://")) eqn:Hprefix.
  { destruct (suspiciousHost _); injection H as <- _;
      [right; left; reflexivity | discriminate Hs]. }
  destruct (URL_new rt targetUrl) as [parsedUrl |] eqn:Hp;
    [| injection H as <- _; right; right; exists targetUrl; reflexivity].
  destruct (Hparser targetUrl parsedUrl Hp) as [Hhttp Hhttps].
  destruct (negb (String.eqb (protocol parsedUrl) "http:") &&
            negb (String.eqb (protocol parsedUrl) "https:")) eqn:Hproto.
  - exfalso.
    apply andb_true_iff in Hproto as [H1 H2].
    apply negb_true_iff, String.eqb_neq in H1.
    apply negb_true_iff, String.eqb_neq in H2.
    apply andb_false_iff in Hprefix as [Hx | Hx];
      apply negb_false_iff in Hx; auto.
  - destruct (createProxyAgent this rt targetUrl false). discriminate H.
Qed.

(** *** The upstream resolver *)

Example first_proxy_variable_wins :
  detectUpstreamProxy
    [None; Some "  "; Some " http://up.test:8080 "; Some "socks5://other:1080";
     None; None] = Some "http://up.test:8080".
Proof. reflexivity. Qed.

Lemma constructor_timeout_nonzero :
  forall (optPort optTimeout : option Z) (upstream : option string),
    timeout (constructor optPort optTimeout upstream) <> 0.
Proof.
  intros optPort [t |] upstream; simpl; [| discriminate].
  destruct (t =? 0) eqn:E; [discriminate | apply Z.eqb_neq, E].
Qed.

(** * Further properties of the code *)

(** ** The upstream resolver and the configuration *)

Lemma trim_truthy :
  forall s : string, JS.truthy (trim s) = true -> JS.truthy s = true.
Proof. intros s. destruct s; [discriminate | reflexivity]. Qed.

(** X1: the proxy variables are read in their order of priority: the
    first one that is set and not blank is returned, trimmed, and those
    after it are not looked at. *)
Theorem detectUpstreamProxy_first_wins :
  forall (before rest : list (option string)) (proxy : string),
    forallb isBlank before = true ->
    JS.truthy (trim proxy) = true ->
    detectUpstreamProxy (before ++ Some proxy :: rest) = Some (trim proxy).
Proof.
  intros before rest proxy Hb Hp.
  induction before as [| o before IH]; simpl.
  - rewrite (trim_truthy proxy Hp), Hp. reflexivity.
  - simpl in Hb. apply andb_true_iff in Hb as [Ho Hb].
    destruct o as [s |]; [| exact (IH Hb)].
    simpl in Ho. apply negb_true_iff in Ho. rewrite Ho, andb_false_r.
    exact (IH Hb).
Qed.

Lemma detectUpstreamProxy_first_wins_witness :
  detectUpstreamProxy
    ([None; Some "   "; Some Example.ideographicSpace] ++
     Some (" socks5://127.0.0.1:1080" +:+ Example.noBreakSpace) ::
     [Some "http://later:1"; None]) =
    Some (trim (" socks5://127.0.0.1:1080" +:+ Example.noBreakSpace)).
Proof.
  apply (detectUpstreamProxy_first_wins
           [None; Some "   "; Some Example.ideographicSpace]
           [Some "http://later:1"; None]
           (" socks5://127.0.0.1:1080" +:+ Example.noBreakSpace));
    reflexivity.
Defined.

Example trim_examples :
  trim (Example.byteOrderMark +:+ " http://up.test:8080" +:+
        Example.noBreakSpace +:+ Example.ideographicSpace) =
    "http://up.test:8080" /\
  trim (" caf" +:+ Example.aGrave +:+ " ") = "caf" +:+ Example.aGrave /\
  detectUpstreamProxy
    [Some Example.ideographicSpace; Some "http://up.test:8080"] =
    Some "http://up.test:8080".
Proof. repeat split; reflexivity. Qed.

(** X2: the resolver finds no upstream exactly when every variable is
    unset or blank; what it finds is never empty and is the trimmed value
    of one of the variables. *)
Theorem detectUpstreamProxy_result :
  forall proxies : list (option string),
    (detectUpstreamProxy proxies = None <-> forallb isBlank proxies = true) /\
    (forall found,
       detectUpstreamProxy proxies = Some found ->
       JS.truthy found = true /\
       exists proxy, In (Some proxy) proxies /\ found = trim proxy).
Proof.
  induction proxies as [| o proxies [IH1 IH2]]; simpl.
  - split; [tauto | discriminate].
  - destruct o as [s |]; simpl.
    + destruct (JS.truthy (trim s)) eqn:Ht.
      * rewrite (trim_truthy s Ht). simpl. split.
        -- split; discriminate.
        -- intros found H. injection H as <-. split; [exact Ht |].
           exists s. auto.
      * rewrite andb_false_r. simpl. split; [exact IH1 |].
        intros found H. destruct (IH2 found H) as (Hf & p & Hin & Hp).
        split; [exact Hf |]. exists p. auto.
    + split; [exact IH1 |].
      intros found H. destruct (IH2 found H) as (Hf & p & Hin & Hp).
      split; [exact Hf |]. exists p. auto.
Qed.

(** X3: whatever the environment holds, the proxy that is started has a
    port and a timeout that are not zero; a variable that is unset, empty,
    not a number or zero gives the default, 10443 and 30000. *)
Theorem proxyFromEnv_defaults :
  forall (portVar timeoutVar : option string) (proxies : list (option string)),
    port (proxyFromEnv portVar timeoutVar proxies) <> 0 /\
    timeout (proxyFromEnv portVar timeoutVar proxies) <> 0 /\
    (JS.or_default portVar "" = "" \/
     parseIntAuto (JS.or_default portVar "10443") = None \/
     parseIntAuto (JS.or_default portVar "10443") = Some 0 ->
     port (proxyFromEnv portVar timeoutVar proxies) = 10443) /\
    (JS.or_default timeoutVar "" = "" \/
     parseIntAuto (JS.or_default timeoutVar "30000") = None \/
     parseIntAuto (JS.or_default timeoutVar "30000") = Some 0 ->
     timeout (proxyFromEnv portVar timeoutVar proxies) = 30000).
Proof.
  intros portVar timeoutVar proxies.
  assert (Hnz : forall x d, d <> 0 -> number_or x d <> 0).
  { intros [n |] d Hd; simpl; [| exact Hd].
    destruct (n =? 0) eqn:E; [exact Hd | apply Z.eqb_neq, E]. }
  assert (Hdef : forall v d,
            JS.or_default v "" = "" -> JS.or_default v d = d).
  { intros [s |] d; simpl; [| reflexivity].
    destruct s; simpl; [reflexivity | discriminate]. }
  unfold proxyFromEnv, constructor. simpl port. simpl timeout.
  split; [apply Hnz; discriminate |]. split; [apply Hnz; discriminate |].
  split.
  - intros [H | [H | H]].
    + rewrite (Hdef _ "10443" H). reflexivity.
    + rewrite H. reflexivity.
    + rewrite H. reflexivity.
  - intros [H | [H | H]].
    + rewrite (Hdef _ "30000" H). reflexivity.
    + rewrite H. reflexivity.
    + rewrite H. reflexivity.
Qed.

Example proxyFromEnv_examples :
  port (proxyFromEnv (Some "8443") (Some "abc") []) = 8443 /\
  timeout (proxyFromEnv (Some "8443") (Some "abc") []) = 30000 /\
  port (proxyFromEnv (Some "0x10") (Some " 60000ms") []) = 16 /\
  timeout (proxyFromEnv (Some "0x10") (Some " 60000ms") []) = 60000 /\
  timeout (proxyFromEnv None (Some (Example.ideographicSpace +:+ "60000")) [])
    = 60000.
Proof. repeat split; reflexivity. Qed.

(** ** The CONNECT handler *)

(** X4: a CONNECT request whose client socket is already destroyed is
    dropped: whatever the target, nothing is written, nothing is dialled,
    and no socket, listener or phase changes. *)
Theorem handleConnect_destroyed_client :
  forall (this : HttpsProxy) (rt : Runtime) (req : IncomingMessage)
         (head : string) (st : Conn),
    destroyed (client st) = true ->
    calls (handleConnect this rt req head st) = calls st /\
    dials (handleConnect this rt req head st) = dials st /\
    sameCore st (handleConnect this rt req head st).
Proof.
  intros this rt req head st Hd.
  assert (R : forall text status msg,
             let st' := (console_error text >>> sendConnectError status msg) st in
             calls st' = calls st /\ dials st' = dials st /\ sameCore st st').
  { intros text status msg. unfold seq, sendConnectError, when, console_error.
    simpl. rewrite Hd. simpl. repeat split; reflexivity. }
  unfold handleConnect.
  destruct (url req) as [target |]; [| apply R].
  destruct (negb (JS.truthy target)); [apply R |].
  destruct (parseTarget rt target) as [hostname targetPort].
  destruct (_ || _); [apply R |].
  destruct (_ || _); [apply R |].
  destruct targetPort as [p |]; [| apply R].
  destruct (_ || _); [apply R |].
  unfold seq at 1. unfold console_log. simpl. rewrite Hd. simpl.
  unfold seq, sendConnectError, when, console_error. simpl. rewrite Hd. simpl.
  repeat split; reflexivity.
Qed.

Lemma handleConnect_destroyed_client_witness :
  calls (handleConnect Example.direct Example.node
           (Example.connectRequest "example.com:443") "hello"
           (accepted (mkSocket true Closed 0 false []))) =
    calls (accepted (mkSocket true Closed 0 false [])) /\
  dials (handleConnect Example.direct Example.node
           (Example.connectRequest "example.com:443") "hello"
           (accepted (mkSocket true Closed 0 false []))) =
    dials (accepted (mkSocket true Closed 0 false [])) /\
  sameCore (accepted (mkSocket true Closed 0 false []))
    (handleConnect Example.direct Example.node
       (Example.connectRequest "example.com:443") "hello"
       (accepted (mkSocket true Closed 0 false []))).
Proof.
  apply (handleConnect_destroyed_client Example.direct Example.node
           (Example.connectRequest "example.com:443") "hello"
           (accepted (mkSocket true Closed 0 false []))).
  reflexivity.
Defined.

(** X5: [handleConnect] dials at most once, and only for a target that is
    valid on a client socket that is open and not destroyed; in every
    other case the list of dials is left as it was. *)
Theorem handleConnect_dials_only_valid :
  forall (this : HttpsProxy) (rt : Runtime) (req : IncomingMessage)
         (head : string) (st : Conn),
    dials (handleConnect this rt req head st) = dials st \/
    exists target d,
      url req = Some target /\
      validTarget (parseTarget rt target).1 (parseTarget rt target).2 = true /\
      destroyed (client st) = false /\
      readyState (client st) = Open /\
      dials (handleConnect this rt req head st) = (dials st ++ [d])%list.
Proof.
  intros this rt req head st.
  assert (R : forall text status msg,
             dials ((console_error text >>> sendConnectError status msg) st) =
               dials st).
  { intros text status msg. unfold seq.
    rewrite (proj1 (sendConnectError_frame _ _ _)). reflexivity. }
  unfold handleConnect.
  destruct (url req) as [target |] eqn:Hu; [| left; apply R].
  destruct (negb (JS.truthy target)); [left; apply R |].
  destruct (parseTarget rt target) as [hostname targetPort] eqn:Hpt.
  destruct (JS.truthy hostname) eqn:H1; [| left; apply R].
  destruct (String.eqb hostname "null") eqn:H2; [left; apply R |].
  destruct (String.eqb hostname "undefined") eqn:H3; [left; apply R |].
  simpl.
  destruct (JS.hostPattern_test hostname) eqn:H4; [| left; apply R].
  simpl.
  destruct (253 <? JS.length hostname) eqn:H5; [left; apply R |].
  destruct targetPort as [p |]; [| left; apply R].
  destruct ((p <=? 0) || (65535 <? p)) eqn:H6; [left; apply R |].
  unfold JS.hostPattern_test in H4. rewrite H1 in H4. simpl in H4.
  apply orb_false_iff in H6 as [H6 H7].
  destruct st as [[cd cr ct cp cu] [od or ot op ou] ls cc cs ds co cl ph].
  unfold seq at 1. unfold console_log, print. simpl.
  destruct cd; simpl.
  { left. unfold seq, sendConnectError, when, console_error. reflexivity. }
  destruct (isOpen cr) eqn:Hr; simpl.
  2:{ left. unfold seq, sendConnectError, when, console_error. reflexivity. }
  assert (cr = Open) as -> by (destruct cr; try discriminate Hr; reflexivity).
  assert (Hv : validTarget (parseTarget rt target).1
                 (parseTarget rt target).2 = true).
  { rewrite Hpt. unfold validTarget. simpl. rewrite H1, H2, H3, H4. simpl.
    apply andb_true_iff. split; [lia |].
    apply andb_true_iff. split; lia. }
  destruct (match upstreamProxy this with
            | Some up => JS.truthy up
            | None => false
            end).
  - unfold seq at 1 2 3. unfold handleConnectViaProxy.
    destruct (createProxyAgent this rt _ true) as [[a |] o].
    + right. exists target, (DialAgent a hostname p (timeout this)).
      split; [reflexivity |]. split; [exact Hv |].
      split; [reflexivity |]. split; [reflexivity |].
      conn_eval. reflexivity.
    + left. conn_eval. reflexivity.
  - right. exists target, (DialTcp hostname p).
    split; [reflexivity |]. split; [exact Hv |].
    split; [reflexivity |]. split; [reflexivity |].
    conn_eval. reflexivity.
Qed.

(** X6: a valid target on a client socket that is not destroyed but not
    open either is answered with 400 Bad Request, and nothing is
    dialled. *)
Theorem handleConnect_client_not_open :
  forall (this : HttpsProxy) (rt : Runtime) (req : IncomingMessage)
         (target head : string) (st : Conn),
    url req = Some target ->
    JS.truthy target = true ->
    validTarget (parseTarget rt target).1 (parseTarget rt target).2 = true ->
    destroyed (client st) = false ->
    readyState (client st) <> Open ->
    calls (handleConnect this rt req head st) =
      (calls st ++ badRequest "客户端连接状态异常")%list /\
    dials (handleConnect this rt req head st) = dials st.
Proof.
  intros this rt req target head st Hu Ht Hv Hd Hr.
  unfold handleConnect. rewrite Hu, Ht. simpl negb. cbv iota.
  destruct (parseTarget rt target) as [hostname targetPort].
  unfold validTarget in Hv. simpl in Hv.
  repeat (apply andb_true_iff in Hv as [Hv ?]).
  destruct targetPort as [p |]; [| discriminate].
  rewrite Hv.
  destruct (String.eqb hostname "null"); [discriminate |].
  destruct (String.eqb hostname "undefined"); [discriminate |].
  unfold JS.hostPattern_test. rewrite Hv.
  match goal with H : JS.allChars _ _ = true |- _ => rewrite H end.
  assert (Hlen : (253 <? JS.length hostname) = false) by lia.
  assert (Hp : ((p <=? 0) || (65535 <? p)) = false) by lia.
  simpl. rewrite Hlen, Hp.
  destruct st as [[cd cr ct cp cu] [od or ot op ou] ls cc cs ds co cl ph].
  simpl in Hd, Hr. subst cd.
  unfold seq at 1. unfold console_log, print. simpl.
  destruct cr; try congruence;
    unfold seq, sendConnectError, when, console_error; simpl;
    unfold badRequest; rewrite <- !app_assoc; split; reflexivity.
Qed.

Lemma handleConnect_client_not_open_witness :
  calls (handleConnect Example.direct Example.node
           (Example.connectRequest "example.com:443") ""
           (accepted (mkSocket false ReadOnly 0 false []))) =
    (calls (accepted (mkSocket false ReadOnly 0 false [])) ++
     badRequest "客户端连接状态异常")%list /\
  dials (handleConnect Example.direct Example.node
           (Example.connectRequest "example.com:443") ""
           (accepted (mkSocket false ReadOnly 0 false []))) =
    dials (accepted (mkSocket false ReadOnly 0 false [])).
Proof.
  apply (handleConnect_client_not_open Example.direct Example.node
           (Example.connectRequest "example.com:443") "example.com:443" ""
           (accepted (mkSocket false ReadOnly 0 false [])));
    try reflexivity.
  discriminate.
Defined.

Lemma split_no_separator :
  forall s : string, JS.includes s ":" = false -> JS.split ":"%char s = [s].
Proof.
  induction s as [| c s IH]; intros Hc; [reflexivity |].
  simpl in Hc. apply orb_false_iff in Hc as [Hp Hc].
  simpl. rewrite (IH Hc).
  destruct (Ascii.eqb c ":"%char) eqn:E; [| reflexivity].
  apply Ascii.eqb_eq in E. subst c. simpl in Hp. destruct s; discriminate.
Qed.

(** X7: of a target with several colons only the first two fields count:
    what follows the second colon changes neither the host nor the
    port. *)
Theorem parseTarget_ignores_later_fields :
  forall (rt : Runtime) (h p rest : string),
    JS.includes h ":" = false ->
    JS.includes p ":" = false ->
    parseTarget rt (h +:+ ":" +:+ p +:+ ":" +:+ rest) =
      parseTarget rt (h +:+ ":" +:+ p).
Proof.
  intros rt h p rest Hh Hp.
  rewrite (parseTarget_host_port rt h (p +:+ ":" +:+ rest) Hh).
  rewrite (parseTarget_host_port rt h p Hh).
  rewrite (split_head p rest Hp), (split_no_separator p Hp). reflexivity.
Qed.

Lemma parseTarget_ignores_later_fields_witness :
  parseTarget Example.node ("example.com" +:+ ":" +:+ "8443" +:+ ":" +:+ "x:y") =
    parseTarget Example.node ("example.com" +:+ ":" +:+ "8443").
Proof.
  apply (parseTarget_ignores_later_fields Example.node "example.com" "8443"
           "x:y"); reflexivity.
Defined.

Lemma digit_cases :
  forall c : ascii,
    isDigit c = true ->
    In c ["0"; "1"; "2"; "3"; "4"; "5"; "6"; "7"; "8"; "9"]%char.
Proof.
  intros [b0 b1 b2 b3 b4 b5 b6 b7] H.
  destruct b0, b1, b2, b3, b4, b5, b6, b7; try discriminate H;
    simpl; auto 12.
Qed.

Lemma parseDigits_prefix :
  forall (ds rest : string) (acc : option Z),
    JS.allChars isDigit ds = true ->
    noLeadingDigit rest = true ->
    JS.parseDigits (ds +:+ rest) acc = JS.parseDigits ds acc.
Proof.
  induction ds as [| c ds IH]; intros rest acc Hd Hr.
  - change ("" +:+ rest) with rest. destruct rest as [| c rest]; [reflexivity |].
    simpl in Hr |- *. unfold isDigit in Hr.
    destruct (JS.digit_of c); [discriminate Hr | reflexivity].
  - change (String c ds +:+ rest) with (String c (ds +:+ rest)).
    simpl in Hd |- *. apply andb_true_iff in Hd as [_ Hd].
    destruct (JS.digit_of c); [apply IH; assumption | reflexivity].
Qed.

Lemma parseInt_prefix :
  forall (c : ascii) (ds rest : string),
    JS.allChars isDigit (String c ds) = true ->
    noLeadingDigit rest = true ->
    JS.parseInt (String c ds +:+ rest) = JS.parseInt (String c ds).
Proof.
  intros c ds rest Hd Hr.
  pose proof (parseDigits_prefix (String c ds) rest None Hd Hr) as Hp.
  change (String c ds +:+ rest) with (String c (ds +:+ rest)) in Hp |- *.
  simpl in Hd. apply andb_true_iff in Hd as [Hc _].
  destruct (digit_cases c Hc)
    as [<- | [<- | [<- | [<- | [<- | [<- | [<- | [<- | [<- | [<- | []]]]]]]]]]];
    unfold JS.parseInt; cbn [JS.skipWhiteSpace];
    repeat match goal with
           | |- context [JS.isWhiteSpace ?d] =>
               change (JS.isWhiteSpace d) with false
           end;
    cbv beta iota zeta; rewrite Hp; reflexivity.
Qed.

Lemma digits_colon_free :
  forall s : string, JS.allChars isDigit s = true -> JS.includes s ":" = false.
Proof.
  induction s as [| c s IH]; intros Hd; [reflexivity |].
  simpl in Hd. apply andb_true_iff in Hd as [Hc Hd].
  simpl. rewrite (IH Hd), orb_false_r.
  destruct (digit_cases c Hc)
    as [<- | [<- | [<- | [<- | [<- | [<- | [<- | [<- | [<- | [<- | []]]]]]]]]]];
    reflexivity.
Qed.

(** X8: the port is read with [parseInt]: digits followed by anything
    that is not a digit are taken for the number that the digits spell,
    so [host:443abc] has the host and the port of [host:443]. *)
Theorem parseTarget_port_trailing_text :
  forall (rt : Runtime) (h : string) (c : ascii) (ds rest : string),
    JS.includes h ":" = false ->
    JS.includes (String c ds +:+ rest) ":" = false ->
    JS.allChars isDigit (String c ds) = true ->
    noLeadingDigit rest = true ->
    parseTarget rt (h +:+ ":" +:+ String c ds +:+ rest) =
      parseTarget rt (h +:+ ":" +:+ String c ds).
Proof.
  intros rt h c ds rest Hh Hc Hd Hr.
  pose proof (digits_colon_free (String c ds) Hd) as Hds.
  rewrite (parseTarget_host_port rt h (String c ds +:+ rest) Hh).
  rewrite (parseTarget_host_port rt h (String c ds) Hh).
  rewrite (split_no_separator _ Hc), (split_no_separator _ Hds).
  simpl lookup. unfold JS.or_default.
  change (String c ds +:+ rest) with (String c (ds +:+ rest)).
  simpl JS.truthy. cbv iota.
  change (String c (ds +:+ rest)) with (String c ds +:+ rest).
  rewrite (parseInt_prefix c ds rest Hd Hr). reflexivity.
Qed.

Lemma parseTarget_port_trailing_text_witness :
  parseTarget Example.node ("example.com" +:+ ":" +:+ String "4" "43" +:+ "abc") =
    parseTarget Example.node ("example.com" +:+ ":" +:+ String "4" "43").
Proof.
  apply (parseTarget_port_trailing_text Example.node "example.com" "4"%char
           "43" "abc"); reflexivity.
Defined.

(** ** The dial and its failures *)

(** X9: on the direct path, an error of the outbound socket before it is
    connected is answered with 502 Bad Gateway, the message of the error
    in the body, and the client stream is ended; [cleanup] does not
    run. *)
Theorem direct_dial_failure :
  forall (this : HttpsProxy) (rt : Runtime) (hostname : string)
         (targetPort : Z) (head : string) (st0 : Conn) (err : ErrorObj),
    listeners st0 = [] ->
    destroyed (client st0) = false ->
    let st := handleDirectConnect this hostname targetPort head st0 in
    let st' := step this rt (Emit Outbound EvError (ArgError err)) st in
    calls st' =
      (calls st ++ badGateway ("连接目标服务器失败: " +:+ message err))%list /\
    cleanups st' = cleanups st0 /\
    phase st' = phase st.
Proof.
  intros this rt hostname targetPort head
    [[cd cr ct cp cu] [od or ot op ou] ls cc cs ds co cl ph] err Hl Hd.
  simpl in Hl, Hd. subst ls cd.
  cbv zeta. unfold step, emit, handleDirectConnect. conn_eval.
  cbn [app List.filter listens side_eqb event_eqb l_side l_event l_once andb
       negb fold_left l_handler].
  unfold run_handler. conn_eval. unfold badGateway.
  rewrite <- !app_assoc. repeat split; reflexivity.
Qed.

Lemma direct_dial_failure_witness :
  let st :=
    handleDirectConnect Example.direct "example.com" 443 ""
      (accepted openSocket) in
  let st' :=
    step Example.direct Example.node
      (Emit Outbound EvError (ArgError Example.econnreset)) st in
  calls st' =
    (calls st ++
     badGateway ("连接目标服务器失败: " +:+ message Example.econnreset))%list /\
  cleanups st' = cleanups (accepted openSocket) /\
  phase st' = phase st.
Proof.
  apply (direct_dial_failure Example.direct Example.node "example.com" 443 ""
           (accepted openSocket) Example.econnreset); reflexivity.
Defined.

(** X10: on the direct path nothing listens to a timeout, a close or an
    end of either socket while the dial is pending: such an event, and an
    error of the client socket, leave the connection as it is, so a dial
    that times out is not answered. *)
Theorem direct_dial_timeout_unanswered :
  forall (this : HttpsProxy) (rt : Runtime) (hostname : string)
         (targetPort : Z) (head : string) (st0 : Conn)
         (s : Side) (e : EventName) (arg : EventArg),
    listeners st0 = [] ->
    side_eqb s Outbound && event_eqb e EvError = false ->
    let st := handleDirectConnect this hostname targetPort head st0 in
    step this rt (Emit s e arg) st = st.
Proof.
  intros this rt hostname targetPort head
    [[cd cr ct cp cu] [od or ot op ou] ls cc cs ds co cl ph] s e arg Hl Hs.
  simpl in Hl. subst ls.
  cbv zeta. unfold step, emit, handleDirectConnect. conn_eval.
  cbn [app List.filter listens l_side l_event l_once].
  destruct s, e; try discriminate Hs; reflexivity.
Qed.

Lemma direct_dial_timeout_unanswered_witness :
  let st :=
    handleDirectConnect Example.direct "example.com" 443 ""
      (accepted openSocket) in
  step Example.direct Example.node (Emit Outbound EvTimeout ArgNone) st = st.
Proof.
  apply (direct_dial_timeout_unanswered Example.direct Example.node
           "example.com" 443 "" (accepted openSocket) Outbound EvTimeout
           ArgNone); reflexivity.
Defined.

(** X11: on the upstream path, while the dial is pending, an error of the
    request is answered with 502 Bad Gateway and a timeout with 504
    Gateway Timeout; neither dials again. *)
Theorem upstream_dial_failure :
  forall (this : HttpsProxy) (rt : Runtime) (st : Conn)
         (hostname : string) (targetPort : Z) (head : string)
         (err : ErrorObj),
    phase st = ProxyDialing hostname targetPort head ->
    destroyed (client st) = false ->
    calls (step this rt (RequestError err) st) =
      (calls st ++ badGateway ("代理连接失败: " +:+ message err))%list /\
    calls (step this rt RequestTimeout st) =
      (calls st ++ gatewayTimeout "代理连接超时")%list /\
    dials (step this rt (RequestError err) st) = dials st /\
    dials (step this rt RequestTimeout st) = dials st.
Proof.
  intros this rt [[cd cr ct cp cu] [od or ot op ou] ls cc cs ds co cl ph]
    hostname targetPort head err Hp Hd.
  simpl in Hp, Hd. subst ph cd.
  conn_eval. unfold badGateway, gatewayTimeout. rewrite <- !app_assoc.
  repeat split; reflexivity.
Qed.

Lemma upstream_dial_failure_witness :
  let st :=
    handleConnect Example.viaHttp Example.node
      (Example.connectRequest "example.com:443") "" (accepted openSocket) in
  calls (step Example.viaHttp Example.node (RequestError Example.econnreset) st) =
    (calls st ++
     badGateway ("代理连接失败: " +:+ message Example.econnreset))%list /\
  calls (step Example.viaHttp Example.node RequestTimeout st) =
    (calls st ++ gatewayTimeout "代理连接超时")%list /\
  dials (step Example.viaHttp Example.node (RequestError Example.econnreset) st) =
    dials st /\
  dials (step Example.viaHttp Example.node RequestTimeout st) = dials st.
Proof.
  apply (upstream_dial_failure Example.viaHttp Example.node
           (handleConnect Example.viaHttp Example.node
              (Example.connectRequest "example.com:443") ""
              (accepted openSocket))
           "example.com" 443 "" Example.econnreset); reflexivity.
Defined.

(** X12: when the dial succeeds but the client socket is destroyed by
    then, on either path the outbound socket is destroyed and that is
    all: nothing is written, no listener is added, no pipe is installed,
    and no callback is left pending. *)
Theorem client_gone_at_connect :
  forall (this : HttpsProxy) (rt : Runtime) (st : Conn)
         (hostname : string) (targetPort : Z) (head proxyHead : string),
    destroyed (client st) = true ->
    phase st = DirectDialing hostname targetPort head \/
    phase st = ProxyDialing hostname targetPort head ->
    let st' := step this rt (Connected proxyHead) st in
    calls st' = (calls st ++ [Destroy Outbound])%list /\
    destroyed (outbound st') = true /\
    listeners st' = listeners st /\
    phase st' = Finished.
Proof.
  intros this rt [[cd cr ct cp cu] [od or ot op ou] ls cc cs ds co cl ph]
    hostname targetPort head proxyHead Hd Hp.
  simpl in Hd, Hp. subst cd.
  destruct Hp as [-> | ->]; conn_eval; repeat split; reflexivity.
Qed.

Lemma client_gone_at_connect_witness :
  let st :=
    step Example.direct Example.node (RuntimeDestroy Client)
      (handleConnect Example.direct Example.node
         (Example.connectRequest "example.com:443") ""
         (accepted openSocket)) in
  let st' := step Example.direct Example.node (Connected "") st in
  calls st' = (calls st ++ [Destroy Outbound])%list /\
  destroyed (outbound st') = true /\
  listeners st' = listeners st /\
  phase st' = Finished.
Proof.
  apply (client_gone_at_connect Example.direct Example.node
           (step Example.direct Example.node (RuntimeDestroy Client)
              (handleConnect Example.direct Example.node
                 (Example.connectRequest "example.com:443") ""
                 (accepted openSocket)))
           "example.com" 443 "" "").
  - reflexivity.
  - left. reflexivity.
Defined.

(** ** The pipes of a tunnel *)

Lemma pipeCount_app :
  forall (s : Side) (l1 l2 : list Call),
    pipeCount s (l1 ++ l2) = (pipeCount s l1 + pipeCount s l2)%nat.
Proof.
  intros s l1 l2. induction l1 as [| c l1 IH]; [reflexivity |].
  destruct c; simpl; try exact IH.
  destruct (side_eqb s0 s); simpl; rewrite IH; reflexivity.
Qed.

Lemma pipeCount_forward :
  forall (s s' : Side) (chunks : list string),
    pipeCount s (map (Forward s') chunks) = 0%nat.
Proof.
  intros s s' chunks. induction chunks as [| d chunks IH]; [reflexivity |].
  simpl. exact IH.
Qed.

Lemma cleanup_pipes :
  forall (s : Side) (st : Conn),
    pipeCount s (calls (cleanup st)) = pipeCount s (calls st).
Proof.
  intros s st. rewrite cleanup_calls, pipeCount_app.
  destruct (connectionClosed st), (destroyed (client st)),
    (destroyed (outbound st)); simpl; lia.
Qed.

Lemma run_handler_pipes :
  forall (rt : Runtime) (h : Handler) (arg : EventArg) (st : Conn) (s : Side),
    phase (run_handler rt h arg st) = phase st /\
    pipeCount s (calls (run_handler rt h arg st)) = pipeCount s (calls st).
Proof.
  intros rt h arg st s.
  destruct h; unfold run_handler, seq;
    try (settle_conditions;
         rewrite cleanup_pipes;
         match goal with
         | |- context [cleanup ?x] =>
             rewrite (proj1 (proj2 (cleanup_frame x)))
         end;
         split; reflexivity).
  - (* DirectDialError *)
    unfold sendConnectError, when, console_error.
    destruct (negb (destroyed (client (print ErrorLevel _ st))));
      [| split; reflexivity].
    split; [reflexivity |].
    unfold seq, write, end_, call. simpl calls.
    rewrite !pipeCount_app. simpl. lia.
  - (* PipeError *)
    settle_conditions; split; reflexivity.
  - (* ResponseWritten *)
    destruct arg; try (split; reflexivity).
    split; [reflexivity |].
    unfold destroy, call. simpl calls. rewrite pipeCount_app. simpl. lia.
Qed.

Lemma fold_handlers_pipes :
  forall (rt : Runtime) (arg : EventArg) (fired : list Listener) (st : Conn)
         (s : Side),
    let st' :=
      fold_left (fun acc l => run_handler rt (l_handler l) arg acc) fired st in
    phase st' = phase st /\
    pipeCount s (calls st') = pipeCount s (calls st).
Proof.
  intros rt arg fired. induction fired as [| l fired IH]; intros st s; simpl.
  - auto.
  - destruct (IH (run_handler rt (l_handler l) arg st) s) as [H1 H2].
    destruct (run_handler_pipes rt (l_handler l) arg st s) as [H3 H4].
    rewrite H1, H2, H3, H4. auto.
Qed.

(** One turn of the event loop installs a pipe on a socket only by using
    up the callback that was pending. *)
Lemma step_pipes :
  forall (this : HttpsProxy) (rt : Runtime) (ev : Env) (st : Conn) (s : Side),
    (pipeCount s (calls (step this rt ev st)) +
     pipePending (phase (step this rt ev st)) <=
     pipeCount s (calls st) + pipePending (phase st))%nat.
Proof.
  intros this rt ev st s.
  destruct ev as [proxyHead | err | | | s' e arg | s' | s' chunk].
  - (* Connected *)
    destruct st as [[cd cr ct cp cu] [od or ot op ou] ls cc cs ds co cl ph].
    unfold step, phase. destruct ph; try (simpl; lia).
    + unfold directConnected, setupSocketErrorHandlers, setTimeout.
      destruct cd, od; settle_conditions; conn_eval;
        rewrite !pipeCount_app; destruct s;
        cbn [pipeCount side_eqb pipePending];
        rewrite ?pipeCount_forward; lia.
    + unfold proxyConnected, setupSocketErrorHandlers, setTimeout.
      destruct cd; settle_conditions; conn_eval;
        rewrite !pipeCount_app; destruct s;
        cbn [pipeCount side_eqb pipePending]; lia.
  - (* RequestError *)
    destruct st as [[cd cr ct cp cu] [od or ot op ou] ls cc cs ds co cl ph].
    unfold step, phase. destruct ph; try (simpl; lia).
    destruct cd; conn_eval; rewrite ?pipeCount_app;
      cbn [pipeCount pipePending]; lia.
  - (* RequestTimeout *)
    destruct st as [[cd cr ct cp cu] [od or ot op ou] ls cc cs ds co cl ph].
    unfold step, phase. destruct ph; try (simpl; lia).
    destruct cd; conn_eval; rewrite ?pipeCount_app;
      cbn [pipeCount pipePending]; lia.
  - (* Tick *)
    destruct st as [[cd cr ct cp cu] [od or ot op ou] ls cc cs ds co cl ph].
    unfold step, phase. destruct ph; try (simpl; lia).
    destruct cd, od; conn_eval; rewrite ?pipeCount_app; destruct s;
      cbn [pipeCount side_eqb pipePending];
      rewrite ?pipeCount_forward; lia.
  - (* Emit *)
    unfold step, emit.
    destruct (fold_handlers_pipes rt arg
                (List.filter (listens s' e) (listeners st))
                (set_listeners
                   (List.filter
                      (fun l => negb (listens s' e l && l_once l))
                      (listeners st)) st) s) as [H1 H2].
    rewrite H1, H2. simpl. lia.
  - (* RuntimeDestroy *)
    destruct s'; simpl; lia.
  - (* Data *)
    unfold step, receive. destruct s'; settle_conditions; simpl;
      rewrite ?pipeCount_app; simpl; lia.
Qed.

Lemma pipes_count_bound :
  forall (this : HttpsProxy) (rt : Runtime) (evs : list Env) (st : Conn)
         (s : Side),
    (pipeCount s (calls (run this rt evs st)) <=
     pipeCount s (calls st) + pipePending (phase st))%nat.
Proof.
  intros this rt evs. induction evs as [| ev evs IH]; intros st s.
  - simpl. lia.
  - change (run this rt (ev :: evs) st)
      with (run this rt evs (step this rt ev st)).
    pose proof (IH (step this rt ev st) s).
    pose proof (step_pipes this rt ev st s). lia.
Qed.

(** X13: over the whole life of a connection each socket is piped into
    its peer at most once: a run adds a pipe on a socket only if a
    callback of the dial was still pending, and then one at most. *)
Theorem pipes_installed_at_most_once :
  forall (this : HttpsProxy) (rt : Runtime) (evs : list Env) (st : Conn)
         (s : Side),
    (pipeCount s (calls (run this rt evs st)) <=
     pipeCount s (calls st) + pipePending (phase st))%nat.
Proof.
  intros this rt evs. induction evs as [| ev evs IH]; intros st s.
  - simpl. lia.
  - change (run this rt (ev :: evs) st)
      with (run this rt evs (step this rt ev st)).
    pose proof (IH (step this rt ev st) s).
    pose proof (step_pipes this rt ev st s). lia.
Qed.

(** X14: on the upstream path, if either socket is destroyed when the
    callback of [process.nextTick] runs, no pipe is installed then, and
    none ever after. *)
Theorem no_splice_after_dead_tick :
  forall (this : HttpsProxy) (rt : Runtime) (evs : list Env) (st : Conn)
         (hostname : string) (targetPort : Z) (s : Side),
    phase st = ProxyTickPending hostname targetPort ->
    destroyed (client st) || destroyed (outbound st) = true ->
    pipeCount s (calls (run this rt (Tick :: evs) st)) =
      pipeCount s (calls st).
Proof.
  intros this rt evs st hostname targetPort s Hp Hd.
  change (run this rt (Tick :: evs) st)
    with (run this rt evs (step this rt Tick st)).
  assert (Hstep : calls (step this rt Tick st) = calls st /\
                  phase (step this rt Tick st) = Finished).
  { unfold step. rewrite Hp. unfold proxyTick. rewrite Hd.
    split; reflexivity. }
  destruct Hstep as [Hc Hph].
  pose proof (pipes_count_bound this rt evs (step this rt Tick st) s) as Hle.
  rewrite Hph in Hle. change (pipePending Finished) with 0%nat in Hle.
  destruct (run_extends this rt evs (step this rt Tick st)) as [added Ha].
  rewrite Ha in Hle |- *. rewrite Hc in Hle |- *.
  rewrite pipeCount_app in Hle |- *. lia.
Qed.

Lemma no_splice_after_dead_tick_witness :
  pipeCount Outbound
    (calls
       (run Example.viaHttp Example.node (Tick :: [Data Outbound "late"])
          (run Example.viaHttp Example.node
             [Connected ""; RuntimeDestroy Outbound]
             (handleConnect Example.viaHttp Example.node
                (Example.connectRequest "example.com:443") ""
                (accepted openSocket))))) =
    pipeCount Outbound
      (calls
         (run Example.viaHttp Example.node
            [Connected ""; RuntimeDestroy Outbound]
            (handleConnect Example.viaHttp Example.node
               (Example.connectRequest "example.com:443") ""
               (accepted openSocket)))).
Proof.
  apply (no_splice_after_dead_tick Example.viaHttp Example.node
           [Data Outbound "late"]
           (run Example.viaHttp Example.node
              [Connected ""; RuntimeDestroy Outbound]
              (handleConnect Example.viaHttp Example.node
                 (Example.connectRequest "example.com:443") ""
                 (accepted openSocket)))
           "example.com" 443 Outbound); reflexivity.
Defined.

(** ** The answers of the request listener *)

(** X16: a request with a target is answered with 405 exactly when its
    method is missing or is not one of GET, POST, PUT, DELETE, HEAD,
    OPTIONS and PATCH; the target is not looked at before. *)
Theorem method_not_allowed :
  forall (this : HttpsProxy) (rt : Runtime) (req : IncomingMessage)
         (preset : list (string * string)) (targetUrl : string),
    url req = Some targetUrl ->
    JS.truthy targetUrl = true ->
    ((exists r out,
        handleHttpRequest this rt req preset = (Respond r, out) /\
        statusCode r = 405) <->
     knownMethod req = false).
Proof.
  intros this rt req preset targetUrl Hu Ht.
  unfold handleHttpRequest, knownMethod. rewrite Hu, Ht.
  assert (Hno : (exists (r : Response) (out : list (Level * string)),
                   (Respond
                      (mkResponse 405 (preset ++ [textPlain])
                         (Text ("不支持的HTTP方法: " +:+
                                default "undefined" (method req)))),
                    [(LogLevel,
                      "❌ 无效的HTTP方法: " +:+
                      default "undefined" (method req))]) = (Respond r, out) /\
                   statusCode r = 405)).
  { eexists. eexists. split; reflexivity. }
  destruct (method req) as [m |]; [| simpl; split; [reflexivity | intros _; exact Hno]].
  destruct (JS.truthy m), (existsb (String.eqb m) validMethods); simpl;
    try (split; [reflexivity | intros _; exact Hno]).
  split; [| discriminate]. intros (r & out & H & Hs).
  destruct (_ && _).
  { destruct (suspiciousHost _); injection H as <- _; discriminate Hs. }
  destruct (URL_new rt targetUrl) as [parsedUrl |];
    [| injection H as <- _; discriminate Hs].
  destruct (_ && _); [injection H as <- _; discriminate Hs |].
  destruct (createProxyAgent this rt targetUrl false). discriminate H.
Qed.

Lemma method_not_allowed_witness :
  (exists r out,
     handleHttpRequest Example.direct Example.node
       (mkIncomingMessage (Some "http://origin.test/ping") (Some "TRACE") ∅)
       corsHeaders = (Respond r, out) /\
     statusCode r = 405) <->
  knownMethod
    (mkIncomingMessage (Some "http://origin.test/ping") (Some "TRACE") ∅) =
    false.
Proof.
  apply (method_not_allowed Example.direct Example.node
           (mkIncomingMessage (Some "http://origin.test/ping") (Some "TRACE") ∅)
           corsHeaders "http://origin.test/ping"); reflexivity.
Defined.

(** X17: a request with a known method whose target starts with neither
    [http://] nor [https://] is never sent on: it is answered with 400
    when it has no usable [host] header (none, several, an empty one, one
    of more than 255 characters or with a control or high character), and
    with the status page, 200, otherwise. *)
Theorem origin_form_request :
  forall (this : HttpsProxy) (rt : Runtime) (req : IncomingMessage)
         (preset : list (string * string)) (targetUrl : string),
    url req = Some targetUrl ->
    JS.truthy targetUrl = true ->
    knownMethod req = true ->
    JS.startsWith targetUrl "http://" = false ->
    JS.startsWith targetUrl "https://" = false ->
    exists r out,
      handleHttpRequest this rt req preset = (Respond r, out) /\
      statusCode r = (if suspiciousHost (headers req) then 400 else 200) /\
      (suspiciousHost (headers req) = false <->
       exists h, headers req !! "host" = Some (HString h) /\
                 h <> "" /\ JS.length h <= 255 /\
                 JS.controlPattern_test h = false).
Proof.
  intros this rt req preset targetUrl Hu Ht Hm H1 H2.
  unfold handleHttpRequest, knownMethod in *. rewrite Hu, Ht, H1, H2.
  destruct (method req) as [m |]; [| discriminate Hm].
  apply andb_true_iff in Hm as [Hm1 Hm2]. rewrite Hm1, Hm2. simpl.
  assert (Hchar :
    suspiciousHost (headers req) = false <->
    exists h, headers req !! "host" = Some (HString h) /\
              h <> "" /\ JS.length h <= 255 /\
              JS.controlPattern_test h = false).
  { unfold suspiciousHost. split.
    - destruct (headers req !! "host") as [[h | vs] |]; try discriminate.
      intros H. apply orb_false_iff in H as [H Hc].
      apply orb_false_iff in H as [Hn Hl].
      exists h. split; [reflexivity |]. split; [| split; [lia | exact Hc]].
      intros ->. discriminate Hn.
    - intros (h & -> & Hn & Hl & Hc). rewrite Hc.
      destruct h; [congruence |]. simpl JS.truthy. simpl negb.
      assert ((255 <? JS.length (String a h)) = false) as -> by lia.
      reflexivity. }
  destruct (suspiciousHost (headers req)); eexists; eexists;
    (split; [reflexivity | split; [reflexivity | exact Hchar]]).
Qed.

Lemma origin_form_request_witness :
  exists r out,
    handleHttpRequest Example.direct Example.node Example.statusRequest
      corsHeaders = (Respond r, out) /\
    statusCode r =
      (if suspiciousHost (headers Example.statusRequest) then 400 else 200) /\
    (suspiciousHost (headers Example.statusRequest) = false <->
     exists h,
       headers Example.statusRequest !! "host" = Some (HString h) /\
       h <> "" /\ JS.length h <= 255 /\ JS.controlPattern_test h = false).
Proof.
  apply (origin_form_request Example.direct Example.node
           Example.statusRequest corsHeaders "/"); reflexivity.
Defined.

(** ** The forwarded request *)

(** X18: a request is sent on only if its target starts with [http://] or
    [https://], its method is one of the seven, and the target parses to
    a URL with one of these two schemes; the request sent has that
    method, the host name of the URL, and its path followed by its
    query. *)
Theorem fetch_only_when :
  forall (this : HttpsProxy) (rt : Runtime) (req : IncomingMessage)
         (preset : list (string * string)) (isHttps : bool)
         (options : RequestOptions) (out : list (Level * string)),
    handleHttpRequest this rt req preset = (Fetch isHttps options, out) ->
    exists targetUrl m parsedUrl,
      url req = Some targetUrl /\
      (JS.startsWith targetUrl "http://" = true \/
       JS.startsWith targetUrl "https://" = true) /\
      method req = Some m /\ In m validMethods /\
      URL_new rt targetUrl = Some parsedUrl /\
      (protocol parsedUrl = "http:" /\ isHttps = false \/
       protocol parsedUrl = "https:" /\ isHttps = true) /\
      o_method options = m /\
      o_hostname options = url_hostname parsedUrl /\
      o_path options = pathname parsedUrl +:+ search parsedUrl.
Proof.
  intros this rt req preset isHttps options out H.
  unfold handleHttpRequest in H.
  destruct (url req) as [targetUrl |]; [| discriminate].
  destruct (negb (JS.truthy targetUrl)); [discriminate |].
  destruct (method req) as [m |]; [| discriminate].
  destruct (negb (JS.truthy m) || negb (existsb (String.eqb m) validMethods))
    eqn:Hm; [discriminate |].
  apply orb_false_iff in Hm as [_ Hm]. apply negb_false_iff in Hm.
  apply existsb_exists in Hm as (m' & Hin & Heq).
  apply String.eqb_eq in Heq. subst m'.
  destruct (negb (JS.startsWith targetUrl "http://") &&
            negb (JS.startsWith targetUrl "https://")) eqn:Hprefix.
  { destruct (suspiciousHost _); discriminate. }
  destruct (URL_new rt targetUrl) as [parsedUrl |] eqn:Hurl; [| discriminate].
  destruct (negb (String.eqb (protocol parsedUrl) "http:") &&
            negb (String.eqb (protocol parsedUrl) "https:")) eqn:Hproto;
    [discriminate |].
  destruct (createProxyAgent this rt targetUrl false) as [a o].
  injection H as <- <- _.
  exists targetUrl, m, parsedUrl. simpl.
  split; [reflexivity |]. split.
  { apply andb_false_iff in Hprefix as [Hx | Hx];
      apply negb_false_iff in Hx; auto. }
  split; [reflexivity |]. split; [exact Hin |]. split; [exact Hurl |].
  split; [| auto].
  destruct (String.eqb (protocol parsedUrl) "https:") eqn:Hs.
  - right. split; [apply String.eqb_eq, Hs | reflexivity].
  - left. rewrite andb_true_r in Hproto. apply negb_false_iff in Hproto.
    split; [apply String.eqb_eq, Hproto | reflexivity].
Qed.

Lemma fetch_only_when_witness :
  exists targetUrl m parsedUrl,
    url Example.pingRequest = Some targetUrl /\
    (JS.startsWith targetUrl "http://" = true \/
     JS.startsWith targetUrl "https://" = true) /\
    method Example.pingRequest = Some m /\ In m validMethods /\
    URL_new Example.node targetUrl = Some parsedUrl /\
    (protocol parsedUrl = "http:" /\ false = false \/
     protocol parsedUrl = "https:" /\ false = true) /\
    o_method Example.pingOptions = m /\
    o_hostname Example.pingOptions = url_hostname parsedUrl /\
    o_path Example.pingOptions = pathname parsedUrl +:+ search parsedUrl.
Proof.
  apply (fetch_only_when Example.direct Example.node Example.pingRequest
           corsHeaders false Example.pingOptions
           [(LogLevel,
             "🌐 GET http://origin.test:8080/ping - 2025-01-01T00:00:00.000Z")]).
  reflexivity.
Defined.

(** X19: the transport of a request sent on.  The port is the port of
    the URL that the target parses to, or 443 for [https:] and 80 for
    [http:] when that URL has none.  A request to an [https:] origin
    always asks for the certificate of the origin to be verified, a
    request to an [http:] origin never sets that option.  The agent is
    the one that [createProxyAgent] makes for the target, which is always
    made from the configured upstream; without one, an [https:] request
    gets a new agent and an [http:] request none. *)
Theorem fetch_transport :
  forall (this : HttpsProxy) (rt : Runtime) (req : IncomingMessage)
         (preset : list (string * string)) (isHttps : bool)
         (options : RequestOptions) (out : list (Level * string)),
    handleHttpRequest this rt req preset = (Fetch isHttps options, out) ->
    exists targetUrl parsedUrl,
      url req = Some targetUrl /\
      URL_new rt targetUrl = Some parsedUrl /\
      o_port options =
        (if JS.truthy (url_port parsedUrl)
         then PortString (url_port parsedUrl)
         else PortNumber (if isHttps then 443 else 80)) /\
      o_rejectUnauthorized options = (if isHttps then Some true else None) /\
      o_agent options =
        match (createProxyAgent this rt targetUrl false).1 with
        | Some a => UseAgent a
        | None => if isHttps then NewHttpsAgent else NoAgent
        end /\
      (forall a,
         o_agent options = UseAgent a ->
         exists up,
           upstreamProxy this = Some up /\
           (a = SocksProxyAgent up \/ a = HttpProxyAgent up \/
            a = HttpsProxyAgent up)) /\
      (upstreamProxy this = None ->
       o_agent options = if isHttps then NewHttpsAgent else NoAgent).
Proof.
  intros this rt req preset isHttps options out H.
  unfold handleHttpRequest in H.
  destruct (url req) as [targetUrl |]; [| discriminate].
  destruct (negb (JS.truthy targetUrl)); [discriminate |].
  destruct (match method req with Some _ => _ | None => _ end); [discriminate |].
  destruct (_ && _); [destruct (suspiciousHost _); discriminate |].
  destruct (URL_new rt targetUrl) as [parsedUrl |] eqn:Hurl; [| discriminate].
  destruct (_ && _); [discriminate |].
  destruct (createProxyAgent this rt targetUrl false) as [a o] eqn:Ha.
  injection H as <- <- _.
  exists targetUrl, parsedUrl. rewrite Ha. simpl.
  split; [reflexivity |]. split; [exact Hurl |]. split; [reflexivity |].
  split; [reflexivity |]. split; [reflexivity |]. split.
  - intros a' Hagent.
    assert (Hsome : a = Some a').
    { destruct a as [a0 |]; [congruence |].
      destruct (String.eqb (protocol parsedUrl) "https:"); discriminate. }
    subst a. clear Hagent.
    unfold createProxyAgent in Ha.
    destruct (upstreamProxy this) as [up |]; [| discriminate].
    exists up. split; [reflexivity |].
    destruct (negb (JS.truthy up)); [discriminate |].
    destruct (URL_new rt up) as [u |]; [| discriminate].
    destruct (_ || _); [injection Ha as <- _; auto |].
    destruct (String.eqb (protocol u) "http:");
      [injection Ha as <- _; auto |].
    destruct (String.eqb (protocol u) "https:"); [| discriminate].
    rewrite Hurl in Ha.
    destruct (String.eqb (protocol parsedUrl) "https:");
      injection Ha as <- _; auto.
  - intros Hup. rewrite (createProxyAgent_no_upstream this rt _ _ Hup) in Ha.
    injection Ha as <- _. reflexivity.
Qed.

Lemma fetch_transport_witness :
  exists targetUrl parsedUrl,
    url Example.pingRequest = Some targetUrl /\
    URL_new Example.node targetUrl = Some parsedUrl /\
    o_port Example.pingOptions =
      (if JS.truthy (url_port parsedUrl)
       then PortString (url_port parsedUrl)
       else PortNumber (if false then 443 else 80)) /\
    o_rejectUnauthorized Example.pingOptions =
      (if false then Some true else None) /\
    o_agent Example.pingOptions =
      match (createProxyAgent Example.direct Example.node targetUrl false).1
      with
      | Some a => UseAgent a
      | None => if false then NewHttpsAgent else NoAgent
      end /\
    (forall a,
       o_agent Example.pingOptions = UseAgent a ->
       exists up,
         upstreamProxy Example.direct = Some up /\
         (a = SocksProxyAgent up \/ a = HttpProxyAgent up \/
          a = HttpsProxyAgent up)) /\
    (upstreamProxy Example.direct = None ->
     o_agent Example.pingOptions = if false then NewHttpsAgent else NoAgent).
Proof.
  apply (fetch_transport Example.direct Example.node Example.pingRequest
           corsHeaders false Example.pingOptions
           [(LogLevel,
             "🌐 GET http://origin.test:8080/ping - 2025-01-01T00:00:00.000Z")]).
  reflexivity.
Defined.

(** ** The upstream proxy *)

(** X20: an upstream value that is not a URL is treated like an unknown
    scheme: no agent is made; a forwarded request
    is handled as with no upstream; a CONNECT request is never dialled,
    and one that passed validation is answered with 502 Bad Gateway. *)
Theorem unparsable_upstream :
  forall (this : HttpsProxy) (rt : Runtime) (up : string),
    upstreamProxy this = Some up ->
    JS.truthy up = true ->
    URL_new rt up = None ->
    (forall targetUrl isConnectMethod,
       (createProxyAgent this rt targetUrl isConnectMethod).1 = None) /\
    (forall req preset,
       (handleHttpRequest this rt req preset).1 =
       (handleHttpRequest (mkHttpsProxy (port this) (timeout this) None)
          rt req preset).1) /\
    (forall req head st,
       dials (handleConnect this rt req head st) = dials st) /\
    (forall hostname targetPort head st,
       destroyed (client st) = false ->
       calls (handleConnectViaProxy this rt hostname targetPort head st) =
         (calls st ++ badGateway "无法创建代理连接")%list).
Proof.
  intros this rt up Hup Ht Hu.
  assert (Hagent : forall targetUrl isConnectMethod,
             createProxyAgent this rt targetUrl isConnectMethod =
               (None, [(ErrorLevel, "❌ 解析或创建上游代理Agent失败:")])).
  { intros. unfold createProxyAgent. rewrite Hup, Ht, Hu. reflexivity. }
  split; [intros; rewrite Hagent; reflexivity |]. split; [| split].
  - intros req preset. apply handleHttpRequest_agent; [reflexivity |].
    intros targetUrl. rewrite Hagent.
    rewrite createProxyAgent_no_upstream by reflexivity. reflexivity.
  - intros req head st. eapply handleConnect_no_agent_no_dial; eauto.
    intros targetUrl. rewrite Hagent. reflexivity.
  - intros hostname targetPort head st Hd.
    apply (handleConnectViaProxy_no_agent this rt hostname targetPort head st);
      [| exact Hd].
    intros targetUrl. rewrite Hagent. reflexivity.
Qed.

Lemma unparsable_upstream_witness :
  (forall targetUrl isConnectMethod,
     (createProxyAgent (constructor None None (Some "127.0.0.1:10808"))
        Example.node targetUrl isConnectMethod).1 = None) /\
  (forall req preset,
     (handleHttpRequest (constructor None None (Some "127.0.0.1:10808"))
        Example.node req preset).1 =
     (handleHttpRequest
        (mkHttpsProxy
           (port (constructor None None (Some "127.0.0.1:10808")))
           (timeout (constructor None None (Some "127.0.0.1:10808"))) None)
        Example.node req preset).1) /\
  (forall req head st,
     dials (handleConnect (constructor None None (Some "127.0.0.1:10808"))
              Example.node req head st) = dials st) /\
  (forall hostname targetPort head st,
     destroyed (client st) = false ->
     calls (handleConnectViaProxy
              (constructor None None (Some "127.0.0.1:10808")) Example.node
              hostname targetPort head st) =
       (calls st ++ badGateway "无法创建代理连接")%list).
Proof.
  apply (unparsable_upstream (constructor None None (Some "127.0.0.1:10808"))
           Example.node "127.0.0.1:10808"); reflexivity.
Defined.



(** ** The answer to a forwarded request *)

Lemma fetchStep_after_head :
  forall (rt : Runtime) (targetUrl : string) (ev : FetchEvent) (x : Exchange),
    headersSent x = true ->
    headersSent (fetchStep rt targetUrl ev x) = true /\
    heads (fetchStep rt targetUrl ev x) =
      (heads x ++
       match ev with
       | FetchResponse statusCode hs =>
           [ForwardedHead (number_or statusCode 200) hs]
       | _ => []
       end)%list.
Proof.
  intros rt targetUrl ev [sent hs rd tl pr] Hsent. simpl in Hsent. subst sent.
  destruct ev as [statusCode hs' | err |]; simpl.
  - split; reflexivity.
  - unfold onRequestError. simpl. rewrite app_nil_r. split; reflexivity.
  - unfold onRequestTimeout. simpl. rewrite app_nil_r.
    destruct tl; simpl; split; reflexivity.
Qed.

Lemma fetchRun_after_head :
  forall (rt : Runtime) (targetUrl : string) (evs : list FetchEvent)
         (x : Exchange),
    headersSent x = true ->
    exists rest,
      heads (fetchRun rt targetUrl evs x) = (heads x ++ rest)%list /\
      forallb (fun h => negb (isOwnHead h)) rest = true /\
      (forallb (fun e => negb (isFetchResponse e)) evs = true -> rest = []).
Proof.
  intros rt targetUrl evs. induction evs as [| ev evs IH]; intros x Hsent.
  - exists []. simpl. rewrite app_nil_r. auto.
  - destruct (fetchStep_after_head rt targetUrl ev x Hsent) as [Hs Hh].
    destruct (IH _ Hs) as (rest & Hrest & Hown & Hnone).
    change (fetchRun rt targetUrl (ev :: evs) x)
      with (fetchRun rt targetUrl evs (fetchStep rt targetUrl ev x)).
    rewrite Hrest, Hh, <- app_assoc.
    eexists. split; [reflexivity |]. split.
    + rewrite forallb_app, Hown, andb_true_r. destruct ev; reflexivity.
    + intros Hno. simpl in Hno. apply andb_true_iff in Hno as [He Hno].
      rewrite (Hnone Hno). destruct ev; [discriminate He | reflexivity ..].
Qed.

(** X22: the first thing that happens to the request sent decides the
    head the client gets: the head of the origin, with status 200 when the
    origin gave none, or 502 with the message of the error, or 504.
    Whatever follows, an error or a timeout writes no further head; when
    no response follows a failure, the client gets that one head and no
    other. *)
Theorem first_event_decides_head :
  forall (rt : Runtime) (targetUrl : string) (ev : FetchEvent)
         (evs : list FetchEvent),
    exists rest,
      heads (fetchRun rt targetUrl (ev :: evs) sentRequest) =
        match ev with
        | FetchResponse statusCode hs =>
            ForwardedHead (number_or statusCode 200) hs
        | FetchError err =>
            OwnHead 502 [textPlain] ("代理错误: " +:+ message err)
        | FetchTimeout => OwnHead 504 [textPlain] "请求超时"
        end :: rest /\
      forallb (fun h => negb (isOwnHead h)) rest = true /\
      (forallb (fun e => negb (isFetchResponse e)) evs = true -> rest = []).
Proof.
  intros rt targetUrl ev evs.
  change (fetchRun rt targetUrl (ev :: evs) sentRequest)
    with (fetchRun rt targetUrl evs (fetchStep rt targetUrl ev sentRequest)).
  assert (Hsent : headersSent (fetchStep rt targetUrl ev sentRequest) = true)
    by (destruct ev; reflexivity).
  destruct (fetchRun_after_head rt targetUrl evs _ Hsent)
    as (rest & Hrest & Hown & Hnone).
  exists rest. rewrite Hrest. split; [| auto].
  destruct ev; reflexivity.
Qed.

Lemma fetchStep_heads :
  forall (rt : Runtime) (targetUrl : string) (ev : FetchEvent) (x : Exchange),
    exists added,
      heads (fetchStep rt targetUrl ev x) = (heads x ++ added)%list /\
      forall status hs text,
        In (OwnHead status hs text) added ->
        (status = 502 \/ status = 504) /\ hs = [textPlain].
Proof.
  intros rt targetUrl ev [sent hs rd tl pr].
  assert (Hnone : forall status hs' text,
            In (OwnHead status hs' text) [] ->
            (status = 502 \/ status = 504) /\ hs' = [textPlain])
    by (intros ? ? ? []).
  destruct ev as [statusCode hs' | err |].
  - eexists. split; [reflexivity |].
    intros status hs0 text [H | []]. discriminate H.
  - unfold fetchStep, onRequestError. simpl.
    destruct sent; simpl.
    + exists []. rewrite app_nil_r. auto.
    + eexists. split; [reflexivity |].
      intros status hs0 text [H | []]. injection H as <- <- _. auto.
  - unfold fetchStep, onRequestTimeout. simpl.
    destruct tl; simpl; [| exists []; rewrite app_nil_r; auto].
    destruct sent; simpl.
    + exists []. rewrite app_nil_r. auto.
    + eexists. split; [reflexivity |].
      intros status hs0 text [H | []]. injection H as <- <- _. auto.
Qed.

(** X15: the answers of its own that the proxy gives to a request other
    than CONNECT.  An answer given at once by the listener of requests (to
    OPTIONS, to a request that is rejected, or the status page) has status
    200, 400 or 405 and its headers start with the three CORS headers set
    by the listener.  A head of its own written later, by the listeners of
    the request sent on, has status 502 or 504 and is written with the
    plain-text content type; every other head written then is the head
    of the origin. *)
Theorem local_responses :
  forall (this : HttpsProxy) (rt : Runtime),
    (forall (req : IncomingMessage) (r : Response)
            (out : list (Level * string)),
       requestListener this rt req = (Respond r, out) ->
       (statusCode r = 200 \/ statusCode r = 400 \/ statusCode r = 405) /\
       exists rest, responseHeaders r = (corsHeaders ++ rest)%list) /\
    (forall (targetUrl : string) (evs : list FetchEvent)
            (status : Z) (hs : list (string * string)) (text : string),
       In (OwnHead status hs text)
          (heads (fetchRun rt targetUrl evs sentRequest)) ->
       (status = 502 \/ status = 504) /\ hs = [textPlain]).
Proof.
  intros this rt. split.
  - intros req r out H. unfold requestListener in H.
    destruct (match method req with Some m => _ | None => false end).
    { injection H as <- _. split; [auto | exists []; reflexivity]. }
    unfold handleHttpRequest in H.
    destruct (url req) as [targetUrl |];
      [| injection H as <- _; split; [auto | eexists; reflexivity]].
    destruct (negb (JS.truthy targetUrl));
      [injection H as <- _; split; [auto | eexists; reflexivity] |].
    destruct (match method req with Some _ => _ | None => _ end);
      [injection H as <- _; split; [auto | eexists; reflexivity] |].
    destruct (_ && _).
    { destruct (suspiciousHost _); injection H as <- _;
        (split; [auto | eexists; reflexivity]). }
    destruct (URL_new rt targetUrl) as [parsedUrl |];
      [| injection H as <- _; split; [auto | eexists; reflexivity]].
    destruct (_ && _);
      [injection H as <- _; split; [auto | eexists; reflexivity] |].
    destruct (createProxyAgent this rt targetUrl false). discriminate H.
  - intros targetUrl evs.
    assert (Hgen : forall x,
              (forall status hs text,
                 In (OwnHead status hs text) (heads x) ->
                 (status = 502 \/ status = 504) /\ hs = [textPlain]) ->
              forall status hs text,
                In (OwnHead status hs text)
                   (heads (fetchRun rt targetUrl evs x)) ->
                (status = 502 \/ status = 504) /\ hs = [textPlain]).
    { induction evs as [| ev evs IH]; intros x Hx; [exact Hx |].
      change (fetchRun rt targetUrl (ev :: evs) x)
        with (fetchRun rt targetUrl evs (fetchStep rt targetUrl ev x)).
      apply IH.
      destruct (fetchStep_heads rt targetUrl ev x) as (added & -> & Hadded).
      intros status hs text Hin. apply in_app_or in Hin as [Hin | Hin]; eauto. }
    apply Hgen. intros status hs text [].
Qed.

Example own_heads_after_failures :
  heads (fetchRun Example.node "http://origin.test/"
           [FetchTimeout; FetchError Example.econnreset] sentRequest) =
    [OwnHead 504 [textPlain] "请求超时"] /\
  heads (fetchRun Example.node "http://origin.test/"
           [FetchError Example.econnreset; FetchTimeout] sentRequest) =
    [OwnHead 502 [textPlain] "代理错误: read ECONNRESET"].
Proof. split; reflexivity. Qed.

(** ** Errors of clients reported by the server *)

(** X23: the listener of ['clientError'] never destroys the socket and
    never dials.  A socket that is there and not destroyed is sent the
    one line [HTTP/1.1 400 Bad Request] and ended, unless the error is a
    TLS version error: then, as without a socket, nothing at all is done
    to it. *)
Theorem client_error_answer :
  forall (err : ErrorObj) (hasSocket : bool) (st : Conn),
    let st' := onClientError err hasSocket st in
    calls st' =
      (calls st ++
       if hasSocket && negb (destroyed (client st)) && negb (wrongVersion err)
       then [Write Client ("HTTP/1.1 400 Bad Request" +:+ crlf +:+ crlf);
             End_ Client]
       else [])%list /\
    client st' = client st /\
    dials st' = dials st.
Proof.
  intros err hasSocket
    [[cd cr ct cp cu] [od or ot op ou] ls cc cs ds co cl ph].
  unfold onClientError. simpl client. simpl destroyed.
  destruct (wrongVersion err) eqn:Hw; destruct hasSocket, cd;
    cbn [andb negb orb]; cbv zeta; settle_conditions; conn_eval;
    rewrite ?app_nil_r, <- ?app_assoc;
    (split; [reflexivity | split; reflexivity]).
Qed.

(** X24: the listener of ['tlsClientError'] writes nothing to the socket.
    A socket that is there and not destroyed is destroyed for a TLS
    version error and ended for any other error; without such a socket
    nothing is called. *)
Theorem tls_client_error_closes :
  forall (err : ErrorObj) (hasSocket : bool) (st : Conn),
    let st' := onTlsClientError err hasSocket st in
    calls st' =
      (calls st ++
       if hasSocket && negb (destroyed (client st))
       then [if wrongVersion err then Destroy Client else End_ Client]
       else [])%list /\
    destroyed (client st') =
      destroyed (client st) || (hasSocket && wrongVersion err) /\
    dials st' = dials st.
Proof.
  intros err hasSocket
    [[cd cr ct cp cu] [od or ot op ou] ls cc cs ds co cl ph].
  unfold onTlsClientError. simpl client. simpl destroyed.
  destruct (wrongVersion err) eqn:Hw; destruct hasSocket, cd;
    cbn [andb negb orb]; cbv zeta; settle_conditions; conn_eval;
    rewrite ?app_nil_r; (split; [reflexivity | split; reflexivity]).
Qed.

Lemma cleanup_console :
  forall st, console (cleanup st) = console st.
Proof.
  intros [[cd cr ct cp cu] [od or ot op ou] ls cc cs ds co cl ph].
  unfold cleanup. simpl connectionClosed.
  destruct cc, cd, od; conn_eval; reflexivity.
Qed.

Lemma anyIncludes_weaken :
  forall (msg : string) (l1 l2 : list string),
    anyIncludes msg l1 = true ->
    (forall s, In s l1 -> In s l2) ->
    anyIncludes msg l2 = true.
Proof.
  unfold anyIncludes. intros msg l1 l2 H Hsub.
  apply existsb_exists in H as (s & Hin & Hs).
  apply existsb_exists. exists s. auto.
Qed.

Lemma errorLines_log :
  forall (out : list (Level * string)) (text : string),
    errorLines (out ++ [(LogLevel, text)]) = errorLines out.
Proof.
  intros out text. unfold errorLines. rewrite omap_app. simpl.
  apply app_nil_r.
Qed.

Lemma run_handler_benign :
  forall (rt : Runtime) (h : Handler) (err : ErrorObj) (st : Conn),
    quiet h = true ->
    isWriteCallback h = false ->
    anyIncludes (message err) ["ECONNRESET"; "EPIPE"; "ENOTCONN"] = true ->
    errorLines (console (run_handler rt h (ArgError err) st)) =
      errorLines (console st).
Proof.
  intros rt h err st Hq Hw Hc.
  destruct h as [| hostname targetPort | hostname targetPort
                 | hostname targetPort | hostname targetPort
                 | hostname targetPort | hostname targetPort | |
                 | label tls hostname targetPort |];
    try discriminate Hq; try discriminate Hw; unfold run_handler; cbv zeta;
    change (errorOf (ArgError err)) with err;
    change (hadErrorOf (ArgError err)) with false; cbv iota.
  - rewrite (anyIncludes_weaken _ _
               ["ECONNRESET"; "EPIPE"; "ENOTCONN";
                "Client network socket disconnected";
                "before secure TLS connection"; "socket hang up";
                "PROTOCOL_WRONG_VERSION"; "SSL routines"; "ETIMEDOUT"] Hc)
      by (simpl; intuition).
    cbn [negb]. unfold seq. rewrite cleanup_console.
    destruct (_ && _); apply errorLines_log.
  - unfold seq, skip. apply (f_equal errorLines), cleanup_console.
  - rewrite (anyIncludes_weaken _ _
               ["ECONNRESET"; "EPIPE"; "ENOTCONN"; "socket hang up"] Hc)
      by (simpl; intuition).
    cbn [negb]. unfold seq. rewrite cleanup_console. reflexivity.
  - unfold seq, skip. apply (f_equal errorLines), cleanup_console.
  - unfold seq. rewrite cleanup_console. apply errorLines_log.
  - unfold seq. rewrite cleanup_console. apply errorLines_log.
  - apply (f_equal errorLines), cleanup_console.
  - apply (f_equal errorLines), cleanup_console.
  - assert (Hl : anyIncludes (message err)
                   (["ECONNRESET"; "EPIPE"; "ENOTCONN";
                     "Client network socket disconnected"] ++
                    (if tls then ["before secure TLS connection"] else []))
                 = true).
    { apply (anyIncludes_weaken _ _ _ Hc).
      intros s Hs. apply in_or_app. left. simpl in *. intuition. }
    rewrite Hl. reflexivity.
Qed.

Lemma fold_handlers_benign :
  forall (rt : Runtime) (err : ErrorObj) (fired : list Listener) (st : Conn),
    forallb (fun l => quiet (l_handler l)) fired = true ->
    forallb (fun l => negb (isWriteCallback (l_handler l))) fired = true ->
    anyIncludes (message err) ["ECONNRESET"; "EPIPE"; "ENOTCONN"] = true ->
    errorLines
      (console
         (fold_left
            (fun acc l => run_handler rt (l_handler l) (ArgError err) acc)
            fired st)) = errorLines (console st).
Proof.
  intros rt err fired. induction fired as [| l fired IH];
    intros st Hq Hw Hc; simpl.
  - reflexivity.
  - simpl in Hq, Hw.
    apply andb_true_iff in Hq as [Hql Hq].
    apply andb_true_iff in Hw as [Hwl Hw]. apply negb_true_iff in Hwl.
    rewrite (IH _ Hq Hw Hc).
    apply run_handler_benign; assumption.
Qed.

Lemma run_keeps_silent :
  forall (this : HttpsProxy) (rt : Runtime) (evs : list Env) (st : Conn),
    silent st -> silent (run this rt evs st).
Proof.
  intros this rt evs. induction evs as [| ev evs IH]; intros st Hs.
  - exact Hs.
  - change (run this rt (ev :: evs) st)
      with (run this rt evs (step this rt ev st)).
    apply IH, (step_silent this rt ev st Hs).
Qed.

(** X25: the listeners that [setupSocketErrorHandlers] and the pipes
    register for ['error'] print nothing with [console.error] for an
    error whose message names ECONNRESET, EPIPE or ENOTCONN; so in a
    tunnel through the upstream, whatever happened before, such an error
    of either socket adds no line of [console.error].  The listener that
    [handleDirectConnect] registers on the outbound socket is not of
    these: it prints every error it is given with [console.error]. *)
Theorem benign_tunnel_errors_not_reported :
  forall (this : HttpsProxy) (rt : Runtime) (err : ErrorObj),
    anyIncludes (message err) ["ECONNRESET"; "EPIPE"; "ENOTCONN"] = true ->
    (forall (h : Handler) (st : Conn),
       errorListener h = true ->
       errorLines (console (run_handler rt h (ArgError err) st)) =
         errorLines (console st)) /\
    (forall (st : Conn) (hostname : string) (targetPort : Z)
            (head proxyHead : string) (evs : list Env) (s : Side),
       phase st = ProxyDialing hostname targetPort head ->
       listeners st = [] ->
       let mid := run this rt (Connected proxyHead :: evs) st in
       errorLines
         (console (step this rt (Emit s EvError (ArgError err)) mid)) =
         errorLines (console mid)) /\
    (forall (hostname : string) (targetPort : Z) (st : Conn),
       errorLines
         (console
            (run_handler rt (DirectDialError hostname targetPort)
               (ArgError err) st)) =
         (errorLines (console st) ++
          ["❌ 直接连接错误 " +:+ authority rt hostname targetPort +:+ ": " +:+
             message err])%list).
Proof.
  intros this rt err Hc. split; [| split].
  - intros h st Hh. apply run_handler_benign; [| | exact Hc];
      destruct h; try discriminate Hh; reflexivity.
  - intros st hostname targetPort head proxyHead evs s Hp Hl mid.
    assert (Hsilent : silent (step this rt (Connected proxyHead) st)).
    { destruct st as [[cd cr ct cp cu] [od or ot op ou] ls cc cs ds co cl ph].
      simpl in Hp, Hl. subst ph ls.
      unfold step, phase, proxyConnected, setupSocketErrorHandlers,
        setTimeout, silent.
      destruct cd; settle_conditions; conn_eval; simpl; split; reflexivity. }
    assert (Hplaces :
              forallb callbackOnly
                (listeners (step this rt (Connected proxyHead) st)) = true).
    { apply step_callbackOnly. rewrite Hl. reflexivity. }
    assert (Hmids : silent mid)
      by exact (run_keeps_silent this rt evs _ Hsilent).
    assert (Hmidl : forallb callbackOnly (listeners mid) = true)
      by exact (run_callbackOnly this rt evs _ Hplaces).
    destruct Hmids as [_ Hquiet].
    unfold step, emit.
    rewrite fold_handlers_benign; [reflexivity | | | exact Hc].
    + apply forallb_filter, Hquiet.
    + apply fired_no_callback; [exact Hmidl | discriminate].
  - intros hostname targetPort st.
    unfold run_handler. cbv zeta. change (errorOf (ArgError err)) with err.
    unfold seq, sendConnectError, when, console_error.
    destruct (negb (destroyed (client (print ErrorLevel _ st))));
      [conn_eval |]; unfold errorLines; simpl;
      rewrite omap_app; reflexivity.
Qed.

Lemma benign_tunnel_errors_not_reported_witness :
  (forall (h : Handler) (st : Conn),
     errorListener h = true ->
     errorLines
       (console (run_handler Example.node h (ArgError Example.econnreset) st))
       = errorLines (console st)) /\
  (forall (st : Conn) (hostname : string) (targetPort : Z)
          (head proxyHead : string) (evs : list Env) (s : Side),
     phase st = ProxyDialing hostname targetPort head ->
     listeners st = [] ->
     let mid :=
       run Example.viaHttp Example.node (Connected proxyHead :: evs) st in
     errorLines
       (console
          (step Example.viaHttp Example.node
             (Emit s EvError (ArgError Example.econnreset)) mid)) =
       errorLines (console mid)) /\
  (forall (hostname : string) (targetPort : Z) (st : Conn),
     errorLines
       (console
          (run_handler Example.node (DirectDialError hostname targetPort)
             (ArgError Example.econnreset) st)) =
       (errorLines (console st) ++
        ["❌ 直接连接错误 " +:+ authority Example.node hostname targetPort +:+
           ": " +:+ message Example.econnreset])%list).
Proof.
  apply (benign_tunnel_errors_not_reported Example.viaHttp Example.node
           Example.econnreset).
  reflexivity.
Defined.

Example direct_tunnel_prints_benign_error :
  let st :=
    run Example.direct Example.node [Connected ""]
      (handleConnect Example.direct Example.node
         (Example.connectRequest "example.com:443") ""
         (accepted openSocket)) in
  errorLines
    (console
       (step Example.direct Example.node
          (Emit Outbound EvError (ArgError Example.econnreset)) st)) =
    (errorLines (console st) ++
     ["❌ 直接连接错误 example.com:443: read ECONNRESET"])%list.
Proof. reflexivity. Qed.

(** X26: the two listeners of the server for client errors print nothing
    with [console.error] for a TLS version error, nor for an error whose
    message names ECONNRESET or a socket hang up. *)
Theorem benign_client_errors_not_reported :
  forall (err : ErrorObj) (hasSocket : bool) (st : Conn),
    wrongVersion err = true \/
    anyIncludes (message err) ["ECONNRESET"; "socket hang up"] = true ->
    errorLines (console (onClientError err hasSocket st)) =
      errorLines (console st) /\
    errorLines (console (onTlsClientError err hasSocket st)) =
      errorLines (console st).
Proof.
  intros err hasSocket
    [[cd cr ct cp cu] [od or ot op ou] ls cc cs ds co cl ph] H.
  unfold onClientError, onTlsClientError. cbv zeta.
  simpl client. simpl destroyed.
  destruct (wrongVersion err) eqn:Hw.
  - split; destruct hasSocket, cd; cbn [andb negb]; conn_eval;
      cbn [console]; rewrite !errorLines_log; reflexivity.
  - destruct H as [H | H]; [discriminate H |].
    rewrite (anyIncludes_weaken _ _
               ["ECONNRESET"; "Parse Error"; "HPE_INVALID_METHOD";
                "socket hang up"; "wrong version number";
                "SSL_ERROR_WANT_READ"; "SSL_ERROR_WANT_WRITE"] H)
      by (simpl; intuition).
    rewrite (anyIncludes_weaken _ _
               ["Client network socket disconnected";
                "before secure TLS connection"; "ECONNRESET";
                "PROTOCOL_WRONG_VERSION"; "SSL routines"; "socket hang up";
                "wrong version number"; "SSL_ERROR_WANT_READ";
                "SSL_ERROR_WANT_WRITE"; "TLSV1_ALERT_PROTOCOL_VERSION"] H)
      by (simpl; intuition).
    cbn [orb negb].
    split; [| destruct (JS.includes (message err)
                          "TLSV1_ALERT_PROTOCOL_VERSION")];
      destruct hasSocket, cd; cbn [andb negb]; conn_eval;
      cbn [console]; rewrite !errorLines_log; reflexivity.
Qed.

Lemma benign_client_errors_not_reported_witness :
  errorLines (console (onClientError Example.econnreset true
                         (accepted openSocket))) =
    errorLines (console (accepted openSocket)) /\
  errorLines (console (onTlsClientError Example.econnreset true
                         (accepted openSocket))) =
    errorLines (console (accepted openSocket)).
Proof.
  apply (benign_client_errors_not_reported Example.econnreset true
           (accepted openSocket)).
  right. reflexivity.
Defined.

(** ** A tunnel after [cleanup] *)

Lemma run_handler_closed :
  forall (rt : Runtime) (h : Handler) (arg : EventArg) (st : Conn),
    closedTunnel st ->
    closedTunnel (run_handler rt h arg st) /\
    exists added,
      calls (run_handler rt h arg st) = (calls st ++ added)%list /\
      forallb isDestroy added = true.
Proof.
  intros rt h arg [[cd cr ct cp cu] [od or ot op ou] ls cc cs ds co cl ph]
    (Hp & Hc & Hcd & Hod).
  simpl in Hp, Hc, Hcd, Hod. subst cc cd od.
  destruct h; destruct arg; unfold run_handler; cbv zeta;
    settle_conditions; conn_eval; unfold closedTunnel; simpl;
    (split; [auto |]);
    first [ exists []; split; [rewrite app_nil_r; reflexivity | reflexivity]
          | eexists; split; [reflexivity | reflexivity] ].
Qed.

Lemma fold_handlers_closed :
  forall (rt : Runtime) (arg : EventArg) (fired : list Listener) (st : Conn),
    closedTunnel st ->
    let st' :=
      fold_left (fun acc l => run_handler rt (l_handler l) arg acc) fired st in
    closedTunnel st' /\
    exists added,
      calls st' = (calls st ++ added)%list /\ forallb isDestroy added = true.
Proof.
  intros rt arg fired. induction fired as [| l fired IH]; intros st Hc; simpl.
  - split; [exact Hc |]. exists []. rewrite app_nil_r. auto.
  - destruct (run_handler_closed rt (l_handler l) arg st Hc)
      as (H1 & a1 & Ha1 & Hd1).
    destruct (IH _ H1) as (H2 & a2 & Ha2 & Hd2).
    split; [exact H2 |]. exists (a1 ++ a2)%list.
    rewrite Ha2, Ha1, app_assoc, forallb_app, Hd1, Hd2. auto.
Qed.

Lemma step_closed :
  forall (this : HttpsProxy) (rt : Runtime) (ev : Env) (st : Conn),
    closedTunnel st ->
    closedTunnel (step this rt ev st) /\
    exists added,
      calls (step this rt ev st) = (calls st ++ added)%list /\
      forallb isDestroy added = true.
Proof.
  intros this rt ev st Hc.
  assert (Hnil : closedTunnel st /\
                 exists added,
                   calls st = (calls st ++ added)%list /\
                   forallb isDestroy added = true).
  { split; [exact Hc |]. exists []. rewrite app_nil_r. auto. }
  destruct ev as [proxyHead | err | | | s e arg | s | s chunk].
  - destruct Hc as (Hp & _). unfold step.
    destruct (phase st); try discriminate Hp; exact Hnil.
  - destruct Hc as (Hp & _). unfold step.
    destruct (phase st); try discriminate Hp; exact Hnil.
  - destruct Hc as (Hp & _). unfold step.
    destruct (phase st); try discriminate Hp; exact Hnil.
  - destruct st as [[cd cr ct cp cu] [od or ot op ou] ls cc cs ds co cl ph].
    destruct Hc as (Hp & Hc & Hcd & Hod). simpl in Hp, Hc, Hcd, Hod.
    subst cc cd od. unfold step, phase.
    destruct ph; exact Hnil.
  - unfold step, emit.
    apply (fold_handlers_closed rt arg
             (List.filter (listens s e) (listeners st))
             (set_listeners
                (List.filter (fun l => negb (listens s e l && l_once l))
                   (listeners st)) st)).
    exact Hc.
  - destruct st as [[cd cr ct cp cu] [od or ot op ou] ls cc cs ds co cl ph].
    destruct Hc as (Hp & Hc & Hcd & Hod). simpl in Hp, Hc, Hcd, Hod.
    subst cc cd od.
    destruct s; conn_eval; unfold closedTunnel; simpl;
      (split; [auto |]); exists []; rewrite app_nil_r; auto.
  - destruct st as [[cd cr ct cp cu] [od or ot op ou] ls cc cs ds co cl ph].
    destruct Hc as (Hp & Hc & Hcd & Hod). simpl in Hp, Hc, Hcd, Hod.
    subst cc cd od.
    destruct s; conn_eval; unfold closedTunnel; simpl;
      (split; [auto |]); exists []; rewrite app_nil_r; auto.
Qed.

Lemma run_closed :
  forall (this : HttpsProxy) (rt : Runtime) (evs : list Env) (st : Conn),
    closedTunnel st ->
    exists added,
      calls (run this rt evs st) = (calls st ++ added)%list /\
      forallb isDestroy added = true.
Proof.
  intros this rt evs. induction evs as [| ev evs IH]; intros st Hc.
  - exists []. simpl. rewrite app_nil_r. auto.
  - change (run this rt (ev :: evs) st)
      with (run this rt evs (step this rt ev st)).
    destruct (step_closed this rt ev st Hc) as (H1 & a1 & Ha1 & Hd1).
    destruct (IH _ H1) as (a2 & Ha2 & Hd2).
    exists (a1 ++ a2)%list.
    rewrite Ha2, Ha1, app_assoc, forallb_app, Hd1, Hd2. auto.
Qed.

(** X27: once an error, a close, an end or a timeout of either socket
    has closed a tunnel, the tunnel carries nothing any more: whatever
    happens later, no byte is written or forwarded, no socket is ended
    and no pipe is installed; the only call that can still be made is a
    [destroy]. *)
Theorem closed_tunnel_carries_nothing :
  forall (this : HttpsProxy) (rt : Runtime) (st : Conn)
         (hostname : string) (targetPort : Z) (head proxyHead : string)
         (evs later : list Env),
    timeout this <> 0 ->
    cleanups st = 0%nat ->
    destroyed (client st) = false ->
    (phase st = DirectDialing hostname targetPort head /\
     destroyed (outbound st) = false) \/
    phase st = ProxyDialing hostname targetPort head ->
    existsb terminal evs = true ->
    let closed := run this rt (Connected proxyHead :: evs) st in
    exists added,
      calls (run this rt later closed) = (calls closed ++ added)%list /\
      forallb isDestroy added = true.
Proof.
  intros this rt st hostname targetPort head proxyHead evs later
    Ht Hn Hc Hp Hterm closed.
  destruct (connected_armed this rt st hostname targetPort head proxyHead
              Ht Hn Hc Hp) as (Ha & _).
  destruct (run_armed this rt evs _ Ha)
    as ((Hd & _ & _ & _ & Hf) & _ & Hclosed).
  change (run this rt evs (step this rt (Connected proxyHead) st))
    with closed in Hd, Hf, Hclosed.
  specialize (Hclosed Hterm). destruct (Hf Hclosed) as (_ & Hcd & Hod).
  apply run_closed. unfold closedTunnel. auto.
Qed.

Lemma closed_tunnel_carries_nothing_witness :
  let closed :=
    run Example.direct Example.node
      (Connected "" :: [Emit Outbound EvEnd ArgNone])
      (handleConnect Example.direct Example.node
         (Example.connectRequest "example.com:443") "hello"
         (accepted openSocket)) in
  exists added,
    calls (run Example.direct Example.node
             [Data Client "late"; Emit Client EvClose (ArgClose false)]
             closed) = (calls closed ++ added)%list /\
    forallb isDestroy added = true.
Proof.
  apply (closed_tunnel_carries_nothing Example.direct Example.node
           (handleConnect Example.direct Example.node
              (Example.connectRequest "example.com:443") "hello"
              (accepted openSocket))
           "example.com" 443 "hello" "").
  - discriminate.
  - reflexivity.
  - reflexivity.
  - left. split; reflexivity.
  - reflexivity.
Defined.
